(** * lab5-programmable-cloud: provisioning scripts against a cloud provider

    A shallow embedding of the four Python scripts of the repository
    (part1/part1.py, part2/part2.py, part3/part3.py and
    part3/vm1-launch-vm2.py) and the properties of their reconcile, poll and
    wait logic.

    The scripts talk to the provider through [compute.<collection>().<method>
    (...).execute()].  Every such request is an event of a trace; the
    provider is an arbitrary function from the history of events so far and
    the request to a reply or a raised exception.  Python values that travel
    to and from the provider are JSON values. *)

From Stdlib Require Import ZArith List String Ascii Bool Lia Floats Uint63.
From Stdlib Require Import DecimalString.
From Stdlib Require DecimalPos DecimalZ DecimalNat.
Import ListNotations.

Local Open Scope string_scope.
Local Open Scope Z_scope.
Local Open Scope list_scope.

(** ** Python values and the builtin operations the scripts use *)

Module Py.

#[local] Set Warnings "-register-all".

(** What [json.loads] produces, which is what [execute()] returns and what a
    request body is built from.  [JNull] is Python's [None]. *)
Inductive json : Type :=
| JNull
| JBool (b : bool)
| JInt (z : Z)
| JFloat (f : float)
| JStr (s : string)
| JList (items : list json)
| JDict (fields : list (string * json)).

(** The exceptions of the scripts; all are subclasses of [Exception].
    [HttpError] is googleapiclient's, with [e.resp.status]; [TransportError]
    stands for any other exception an [execute()] call can raise. *)
Inductive exn : Type :=
| HttpError (status : Z)
| RuntimeError (arg : json)
| KeyError (key : json)
| IndexError
| TypeError
| AttributeError
| TransportError (msg : string).

(** The result of evaluating a pure expression. *)
Inductive res (A : Type) : Type :=
| Val (a : A)
| Exn (e : exn).
Arguments Val {A} a.
Arguments Exn {A} e.

Definition res_bind {A B} (r : res A) (k : A -> res B) : res B :=
  match r with
  | Val a => k a
  | Exn e => Exn e
  end.

(** [bool(v)] *)
Definition truthy (v : json) : bool :=
  match v with
  | JNull => false
  | JBool b => b
  | JInt z => negb (z =? 0)
  | JFloat f => negb (PrimFloat.eqb f 0%float)
  | JStr s => negb (s =? "")%string
  | JList l => match l with [] => false | _ => true end
  | JDict kv => match kv with [] => false | _ => true end
  end.

(** [v is None] *)
Definition is_none (v : json) : bool :=
  match v with JNull => true | _ => false end.

(** [v == s] for a string literal [s] *)
Definition eq_str (v : json) (s : string) : bool :=
  match v with JStr s' => (s' =? s)%string | _ => false end.

Fixpoint lookup (k : string) (kv : list (string * json)) : option json :=
  match kv with
  | [] => None
  | (k', v) :: rest => if (k' =? k)%string then Some v else lookup k rest
  end.

(** [d.get(k, default)]; only a dict has the method. *)
Definition get (d : json) (k : string) (default : json) : res json :=
  match d with
  | JDict kv => Val (match lookup k kv with Some v => v | None => default end)
  | _ => Exn AttributeError
  end.

(** [seq[i]] for an int [i], negative indices counting from the end. *)
Definition index {A} (l : list A) (i : Z) : option A :=
  let n := Z.of_nat (List.length l) in
  if (0 <=? i) && (i <? n) then nth_error l (Z.to_nat i)
  else if (- n <=? i) && (i <? 0) then nth_error l (Z.to_nat (n + i))
  else None.

Fixpoint chars (s : string) : list string :=
  match s with
  | EmptyString => []
  | String c rest => String c EmptyString :: chars rest
  end.

(** [v[k]] for a string key [k] *)
Definition getitem_str (v : json) (k : string) : res json :=
  match v with
  | JDict kv => match lookup k kv with Some x => Val x | None => Exn (KeyError (JStr k)) end
  | _ => Exn TypeError
  end.

(** [v[i]] for an int [i]; a dict from JSON has string keys only. *)
Definition getitem_int (v : json) (i : Z) : res json :=
  match v with
  | JDict _ => Exn (KeyError (JInt i))
  | JList l => match index l i with Some x => Val x | None => Exn IndexError end
  | JStr s => match index (chars s) i with Some c => Val (JStr c) | None => Exn IndexError end
  | _ => Exn TypeError
  end.

Fixpoint is_prefix (p s : string) : bool :=
  match p, s with
  | EmptyString, _ => true
  | String a p', String b s' => Ascii.eqb a b && is_prefix p' s'
  | String _ _, EmptyString => false
  end.

Fixpoint is_substring (p s : string) : bool :=
  is_prefix p s ||
  match s with
  | EmptyString => false
  | String _ s' => is_substring p s'
  end.

(** [k in v] for a string literal [k]: key of a dict, element of a list,
    substring of a string. *)
Definition contains_str (k : string) (v : json) : res bool :=
  match v with
  | JDict kv => Val (match lookup k kv with Some _ => true | None => false end)
  | JList l => Val (existsb (fun x => eq_str x k) l)
  | JStr s => Val (is_substring k s)
  | _ => Exn TypeError
  end.

(** [for d in v]: the items the loop visits. *)
Definition iter (v : json) : res (list json) :=
  match v with
  | JList l => Val l
  | JDict kv => Val (map (fun p => JStr (fst p)) kv)
  | JStr s => Val (map JStr (chars s))
  | _ => Exn TypeError
  end.

(** [s.split(sep)] for a one-character separator: never empty. *)
Fixpoint split_on (sep : ascii) (s : string) : list string :=
  match s with
  | EmptyString => [EmptyString]
  | String c rest =>
      if Ascii.eqb c sep then EmptyString :: split_on sep rest
      else match split_on sep rest with
           | [] => [String c EmptyString]
           | w :: ws => String c w :: ws
           end
  end.

(** [v.split("/")[-1]]; only a str has the method. *)
Definition split_slash_last (v : json) : res string :=
  match v with
  | JStr s => match index (split_on "/"%char s) (-1) with
              | Some w => Val w
              | None => Exn IndexError
              end
  | _ => Exn AttributeError
  end.

(** [str(i)] for an int, as an f-string renders it. *)
Definition str_of_int (i : Z) : string := NilZero.string_of_int (Z.to_int i).

(** [range(a, b)] *)
Definition range (a b : Z) : list Z :=
  map (fun j => a + Z.of_nat j) (seq 0 (Z.to_nat (b - a))).

End Py.
Export Py.

(** ** The provider, the trace and the monad of the scripts *)

(** The requests of the compute API the scripts issue, with their keyword
    arguments. *)
Inductive call : Type :=
| ZoneOperationsGet (project zone : string) (operation : json)
| GlobalOperationsGet (project : string) (operation : json)
| FirewallsGet (project firewall : string)
| FirewallsInsert (project : string) (body : json)
| InstancesGet (project zone instance : string)
| InstancesInsert (project zone : string) (body : json)
| SnapshotsGet (project snapshot : string)
| DisksCreateSnapshot (project zone disk : string) (body : json)
| ImagesGetFromFamily (project family : string).

(** What [execute()] does with a request: it returns the parsed body or
    raises. *)
Inductive response : Type :=
| Reply (body : json)
| Fault (e : exn).

(** What a run does that the world can see, oldest first. *)
Inductive event : Type :=
| EvApi (c : call) (r : response)
| EvSleep (sec : float)
| EvClock (now : float)
| EvWriteTiming (path : string) (times : list (string * float)).

Definition trace := list event.

(** The provider and the clock: any deterministic answer to the history. *)
Record provider : Type := {
  api : trace -> call -> response;
  perf_counter : trace -> float
}.

Inductive outcome (A : Type) : Type :=
| Ret (a : A)
| Raise (e : exn)
| OutOfFuel.
Arguments Ret {A} a.
Arguments Raise {A} e.
Arguments OutOfFuel {A}.

Definition M (A : Type) : Type := trace -> outcome A * trace.

Definition ret {A} (a : A) : M A := fun t => (Ret a, t).

Definition bind {A B} (m : M A) (k : A -> M B) : M B :=
  fun t =>
    match m t with
    | (Ret a, t') => k a t'
    | (Raise e, t') => (Raise e, t')
    | (OutOfFuel, t') => (OutOfFuel, t')
    end.

Definition raise {A} (e : exn) : M A := fun t => (Raise e, t).

Definition out_of_fuel {A} : M A := fun t => (OutOfFuel, t).

Definition lift {A} (r : res A) : M A :=
  match r with
  | Val a => ret a
  | Exn e => raise e
  end.

(** [try: m  except <handles>: h] *)
Definition try_except {A} (m : M A) (handles : exn -> bool) (h : exn -> M A) : M A :=
  fun t =>
    match m t with
    | (Raise e, t') => if handles e then h e t' else (Raise e, t')
    | r => r
    end.

Notation "x <- m ;; k" := (bind m (fun x => k))
  (at level 61, m at next level, right associativity).
Notation "m ;;; k" := (bind m (fun _ => k))
  (at level 61, right associativity).
Notation "x <-? r ;; k" := (res_bind r (fun x => k))
  (at level 61, r at next level, right associativity).

Section Effects.
Variable P : provider.

(** [request.execute()] *)
Definition execute (c : call) : M json :=
  fun t =>
    let r := api P t c in
    (match r with Reply b => Ret b | Fault e => Raise e end, t ++ [EvApi c r]).

(** [time.sleep(sec)] *)
Definition time_sleep (sec : float) : M unit :=
  fun t => (Ret tt, t ++ [EvSleep sec]).

(** [time.perf_counter()] *)
Definition time_perf_counter : M float :=
  fun t => let now := perf_counter P t in (Ret now, t ++ [EvClock now]).
End Effects.

(** [except HttpError] and [except Exception] *)
Definition is_HttpError (e : exn) : bool :=
  match e with HttpError _ => true | _ => false end.

Definition is_Exception (e : exn) : bool := true.

(** ** part1/part1.py *)

Module Part1.

Definition ZONE_DEFAULT := "us-west1-b".
Definition INSTANCE_DEFAULT := "flask-vm".
Definition FIREWALL_DEFAULT := "allow-5000".
Definition MACHINE_DEFAULT := "e2-medium".

Definition startup_script : string :=
"#!/bin/bash
set -euxo pipefail

LOG=/var/log/startup-script.log
exec > >(tee -a ${LOG} | logger -t startup-script) 2>&1

apt-get update
apt-get install -y python3 python3-pip git

WORKDIR=/opt/flask-tutorial
mkdir -p ${WORKDIR}
cd ${WORKDIR}

if [ ! -d flask-tutorial ]; then
  git clone https://github.com/cu-csci-4253-datacenter/flask-tutorial
fi

cd flask-tutorial

python3 setup.py install
pip3 install -e .

export FLASK_APP=flaskr
flask init-db

nohup flask run -h 0.0.0.0 -p 5000 &
".

(** The body of [ensure_firewall_allow_5000]'s insert. *)
Definition firewall_body (project name : string) : json :=
  JDict [
    ("name", JStr name);
    ("network", JStr ("projects/" ++ project ++ "/global/networks/default")%string);
    ("direction", JStr "INGRESS");
    ("priority", JInt 1000);
    ("sourceRanges", JList [JStr "0.0.0.0/0"]);
    ("targetTags", JList [JStr name]);
    ("allowed", JList [JDict [("IPProtocol", JStr "tcp"); ("ports", JList [JStr "5000"])]])
  ].

(** [config] of [create_instance]. *)
Definition instance_config (project zone name machine_type tag : string) : json :=
  JDict [
    ("name", JStr name);
    ("machineType", JStr ("zones/" ++ zone ++ "/machineTypes/" ++ machine_type)%string);
    ("tags", JDict [("items", JList [JStr tag])]);
    ("disks", JList [JDict [
       ("boot", JBool true);
       ("autoDelete", JBool true);
       ("initializeParams", JDict [
          ("sourceImage",
           JStr "projects/ubuntu-os-cloud/global/images/family/ubuntu-2204-lts")])]]);
    ("networkInterfaces", JList [JDict [
       ("network", JStr ("projects/" ++ project ++ "/global/networks/default")%string);
       ("accessConfigs", JList [JDict [("name", JStr "External NAT");
                                       ("type", JStr "ONE_TO_ONE_NAT")]])]]);
    ("metadata", JDict [("items", JList [JDict [("key", JStr "startup-script");
                                                ("value", JStr startup_script)]])])
  ].

(** The body of the [try] of [get_external_ip]. *)
Definition external_ip_path (inst : json) : res json :=
  nics <-? getitem_str inst "networkInterfaces" ;;
  nic <-? getitem_int nics 0 ;;
  acs <-? getitem_str nic "accessConfigs" ;;
  ac <-? getitem_int acs 0 ;;
  getitem_str ac "natIP".

Definition get_external_ip (inst : json) : json :=
  match external_ip_path inst with
  | Val ip => ip
  | Exn _ => JNull
  end.

Section WithProvider.
Variable P : provider.

(** The [while True] loops take fuel: one unit per status fetch. *)
Fixpoint wait_for_zone_op (fuel : nat) (project zone : string) (op_name : json)
    (poll_sec : float) : M unit :=
  match fuel with
  | O => out_of_fuel
  | S fuel' =>
      op <- execute P (ZoneOperationsGet project zone op_name) ;;
      status <- lift (get op "status" JNull) ;;
      if eq_str status "DONE" then
        has_error <- lift (contains_str "error" op) ;;
        if has_error : bool then
          err <- lift (getitem_str op "error") ;;
          raise (RuntimeError err)
        else ret tt
      else
        time_sleep poll_sec ;;;
        wait_for_zone_op fuel' project zone op_name poll_sec
  end.

Fixpoint wait_for_global_op (fuel : nat) (project : string) (op_name : json)
    (poll_sec : float) : M unit :=
  match fuel with
  | O => out_of_fuel
  | S fuel' =>
      op <- execute P (GlobalOperationsGet project op_name) ;;
      status <- lift (get op "status" JNull) ;;
      if eq_str status "DONE" then
        has_error <- lift (contains_str "error" op) ;;
        if has_error : bool then
          err <- lift (getitem_str op "error") ;;
          raise (RuntimeError err)
        else ret tt
      else
        time_sleep poll_sec ;;;
        wait_for_global_op fuel' project op_name poll_sec
  end.

(** [except HttpError as e: if e.resp.status == 404: <absent>; raise] *)
Definition on_404 {A} (absent : A) (e : exn) : M A :=
  match e with
  | HttpError status => if status =? 404 then ret absent else raise e
  | _ => raise e
  end.

Definition firewall_exists (project name : string) : M bool :=
  try_except
    (execute P (FirewallsGet project name) ;;; ret true)
    is_HttpError (on_404 false).

Definition ensure_firewall_allow_5000 (fuel : nat) (project name : string) : M unit :=
  found <- firewall_exists project name ;;
  if found : bool then ret tt
  else
    op <- execute P (FirewallsInsert project (firewall_body project name)) ;;
    op_name <- lift (getitem_str op "name") ;;
    wait_for_global_op fuel project op_name 1.5%float.

Definition instance_get (project zone name : string) : M json :=
  try_except
    (execute P (InstancesGet project zone name))
    is_HttpError (on_404 JNull).

Definition create_instance (fuel : nat) (project zone name machine_type tag : string)
    : M unit :=
  op <- execute P (InstancesInsert project zone
                     (instance_config project zone name machine_type tag)) ;;
  op_name <- lift (getitem_str op "name") ;;
  wait_for_zone_op fuel project zone op_name 1.5%float.

(** The [for _ in range(n)] loop of [main] ([n] is 80 there): [Some ip]
    when the loop body returns, [None] when the loop runs to its end. *)
Fixpoint wait_external_ip (n : nat) (project zone instance : string)
    : M (option json) :=
  match n with
  | O => ret None
  | S n' =>
      inst <- instance_get project zone instance ;;
      let ip := if truthy inst then get_external_ip inst else JNull in
      if truthy ip then ret (Some ip)
      else
        time_sleep 2%float ;;;
        wait_external_ip n' project zone instance
  end.

(** Step 3 of [main]: the loop, then the [raise] that follows it. *)
Definition wait_for_external_ip (n : nat) (project zone instance : string) : M json :=
  found <- wait_external_ip n project zone instance ;;
  match found with
  | Some ip => ret ip
  | None => raise (RuntimeError (JStr "Timed out waiting for external IP"))
  end.

(** [main], from the parsed arguments and the project of the default
    credentials on.  Console output is not part of the model: the result
    is the address [main] prints before it returns. *)
Definition main (fuel : nat) (project zone instance firewall machine_type : string)
    : M json :=
  ensure_firewall_allow_5000 fuel project firewall ;;;
  inst <- instance_get project zone instance ;;
  (if is_none inst
   then create_instance fuel project zone instance machine_type firewall
   else ret tt) ;;;
  wait_for_external_ip 80 project zone instance.
End WithProvider.

End Part1.

(** ** part2/part2.py *)

Module Part2.

Definition ZONE_DEFAULT := "us-west1-b".
Definition BASE_INSTANCE_DEFAULT := "flask-vm".
Definition SNAPSHOT_PREFIX := "base-snapshot".
Definition FIREWALL_TAG := "allow-5000".

(** [cfg] of [create_instance_from_snapshot]. *)
Definition clone_config (project zone name snapshot_name machine_type : string) : json :=
  JDict [
    ("name", JStr name);
    ("machineType", JStr ("zones/" ++ zone ++ "/machineTypes/" ++ machine_type)%string);
    ("tags", JDict [("items", JList [JStr FIREWALL_TAG])]);
    ("disks", JList [JDict [
       ("boot", JBool true);
       ("autoDelete", JBool true);
       ("initializeParams", JDict [
          ("sourceSnapshot",
           JStr ("projects/" ++ project ++ "/global/snapshots/" ++ snapshot_name)%string)])]]);
    ("networkInterfaces", JList [JDict [
       ("network", JStr ("projects/" ++ project ++ "/global/networks/default")%string);
       ("accessConfigs", JList [JDict [("name", JStr "External NAT");
                                       ("type", JStr "ONE_TO_ONE_NAT")]])]])
  ].

(** The [for d in ...: if d.get("boot"): boot_disk = d; break] loop;
    [JNull] is the initial [boot_disk = None]. *)
Fixpoint find_boot_disk (disks : list json) : res json :=
  match disks with
  | [] => Val JNull
  | d :: rest =>
      boot <-? get d "boot" JNull ;;
      if truthy boot then Val d else find_boot_disk rest
  end.

(** [f"{SNAPSHOT_PREFIX}-{base_instance}"] *)
Definition snapshot_name_of (base_instance : string) : string :=
  (SNAPSHOT_PREFIX ++ "-" ++ base_instance)%string.

(** [f"{args.base_instance}-clone-{i}"] *)
Definition clone_name (base_instance : string) (i : Z) : string :=
  (base_instance ++ "-clone-" ++ str_of_int i)%string.

Section WithProvider.
Variable P : provider.

Fixpoint wait_for_zone_op (fuel : nat) (project zone : string) (op_name : json)
    (poll_sec : float) : M json :=
  match fuel with
  | O => out_of_fuel
  | S fuel' =>
      op <- execute P (ZoneOperationsGet project zone op_name) ;;
      status <- lift (get op "status" JNull) ;;
      if eq_str status "DONE" then
        has_error <- lift (contains_str "error" op) ;;
        if has_error : bool then
          err <- lift (getitem_str op "error") ;;
          raise (RuntimeError err)
        else ret op
      else
        time_sleep poll_sec ;;;
        wait_for_zone_op fuel' project zone op_name poll_sec
  end.

Fixpoint wait_for_global_op (fuel : nat) (project : string) (op_name : json)
    (poll_sec : float) : M json :=
  match fuel with
  | O => out_of_fuel
  | S fuel' =>
      op <- execute P (GlobalOperationsGet project op_name) ;;
      status <- lift (get op "status" JNull) ;;
      if eq_str status "DONE" then
        has_error <- lift (contains_str "error" op) ;;
        if has_error : bool then
          err <- lift (getitem_str op "error") ;;
          raise (RuntimeError err)
        else ret op
      else
        time_sleep poll_sec ;;;
        wait_for_global_op fuel' project op_name poll_sec
  end.

(** No [try] here: every failure of the lookup leaves the function. *)
Definition instance_get (project zone name : string) : M json :=
  execute P (InstancesGet project zone name).

Definition snapshot_get (project name : string) : M json :=
  try_except
    (execute P (SnapshotsGet project name))
    is_HttpError (Part1.on_404 JNull).

Definition create_snapshot_from_instance_boot_disk (fuel : nat)
    (project zone base_instance : string) : M string :=
  inst <- instance_get project zone base_instance ;;
  disks <- lift (get inst "disks" (JList [])) ;;
  items <- lift (iter disks) ;;
  boot_disk <- lift (find_boot_disk items) ;;
  if negb (truthy boot_disk) then
    raise (RuntimeError (JStr "Could not find boot disk on instance"))
  else
    disk_source <- lift (getitem_str boot_disk "source") ;;
    disk_name <- lift (split_slash_last disk_source) ;;
    let snapshot_name := snapshot_name_of base_instance in
    existing <- snapshot_get project snapshot_name ;;
    if truthy existing then ret snapshot_name
    else
      let body := JDict [("name", JStr snapshot_name)] in
      op <- execute P (DisksCreateSnapshot project zone disk_name body) ;;
      op_name <- lift (getitem_str op "name") ;;
      wait_for_zone_op fuel project zone op_name 1.5%float ;;;
      ret snapshot_name.

Definition instance_exists (project zone name : string) : M bool :=
  try_except
    (execute P (InstancesGet project zone name) ;;; ret true)
    is_HttpError (Part1.on_404 false).

Definition create_instance_from_snapshot (fuel : nat)
    (project zone name snapshot_name machine_type : string) : M float :=
  found <- instance_exists project zone name ;;
  if found : bool then ret 0%float
  else
    let cfg := clone_config project zone name snapshot_name machine_type in
    t0 <- time_perf_counter P ;;
    op <- execute P (InstancesInsert project zone cfg) ;;
    op_name <- lift (getitem_str op "name") ;;
    wait_for_zone_op fuel project zone op_name 1.5%float ;;;
    t1 <- time_perf_counter P ;;
    ret (t1 - t0)%float.

(** The [for i in range(1, args.count + 1)] loop of [main], with the list
    [times] it appends to. *)
Fixpoint clone_loop (fuel : nat) (project zone base_instance snapshot_name
    machine_type : string) (indices : list Z) (times : list (string * float))
    : M (list (string * float)) :=
  match indices with
  | [] => ret times
  | i :: rest =>
      let name := clone_name base_instance i in
      sec <- create_instance_from_snapshot fuel project zone name snapshot_name
               machine_type ;;
      clone_loop fuel project zone base_instance snapshot_name machine_type rest
        (times ++ [(name, sec)])
  end.

(** [write_timing_md]: the report writer is an external collaborator; the
    model records that it is handed the list. *)
Definition write_timing_md (path : string) (times : list (string * float)) : M unit :=
  fun t => (Ret tt, t ++ [EvWriteTiming path times]).

Definition main (fuel : nat) (project zone base_instance machine_type : string)
    (count : Z) : M (list (string * float)) :=
  snapshot_name <- create_snapshot_from_instance_boot_disk fuel project zone
                     base_instance ;;
  times <- clone_loop fuel project zone base_instance snapshot_name machine_type
             (range 1 (count + 1)) [] ;;
  write_timing_md "TIMING.md" times ;;;
  ret times.
End WithProvider.

End Part2.

(** ** part3/part3.py *)

Module Part3.

Definition ZONE := "us-west1-b".
Definition VM1_NAME := "vm1-launcher".
Definition MACHINE_TYPE := ("zones/" ++ ZONE ++ "/machineTypes/e2-medium")%string.
Definition SOURCE_IMAGE_FAMILY := "ubuntu-2204-lts".
Definition SOURCE_IMAGE_PROJECT := "ubuntu-os-cloud".

(** [config] of [main]. *)
Definition vm1_config (project : string) (source_disk_image : json)
    (vm1_startup vm2_startup service_creds_json vm1_code : string) : json :=
  JDict [
    ("name", JStr VM1_NAME);
    ("machineType", JStr MACHINE_TYPE);
    ("disks", JList [JDict [
       ("boot", JBool true);
       ("autoDelete", JBool true);
       ("initializeParams", JDict [("sourceImage", source_disk_image)])]]);
    ("networkInterfaces", JList [JDict [
       ("network", JStr ("projects/" ++ project ++ "/global/networks/default")%string);
       ("accessConfigs", JList [JDict [("name", JStr "External NAT");
                                       ("type", JStr "ONE_TO_ONE_NAT")]])]]);
    ("metadata", JDict [("items", JList [
       JDict [("key", JStr "startup-script"); ("value", JStr vm1_startup)];
       JDict [("key", JStr "vm2-startup-script"); ("value", JStr vm2_startup)];
       JDict [("key", JStr "service-credentials"); ("value", JStr service_creds_json)];
       JDict [("key", JStr "vm1-launch-vm2-code"); ("value", JStr vm1_code)];
       JDict [("key", JStr "project"); ("value", JStr project)]])])
  ].

Section WithProvider.
Variable P : provider.
(** Python's [str()] on a value from the provider. *)
Variable py_str : json -> string.

Fixpoint wait_for_zone_op (fuel : nat) (project zone : string) (op_name : json)
    : M unit :=
  match fuel with
  | O => out_of_fuel
  | S fuel' =>
      result <- execute P (ZoneOperationsGet project zone op_name) ;;
      status <- lift (get result "status" JNull) ;;
      if eq_str status "DONE" then
        has_error <- lift (contains_str "error" result) ;;
        if has_error : bool then
          err <- lift (getitem_str result "error") ;;
          raise (RuntimeError (JStr (py_str err)))
        else ret tt
      else
        time_sleep 2%float ;;;
        wait_for_zone_op fuel' project zone op_name
  end.

(** [main] after the credentials are loaded: [env_project] is
    [os.getenv("GOOGLE_CLOUD_PROJECT")], [vm1_startup] the script literal,
    and the other three strings what [read_file] returned. *)
Definition main (fuel : nat) (env_project : option string)
    (vm1_startup vm2_startup service_creds_json vm1_code : string) : M unit :=
  let project :=
    match env_project with
    | Some p => if (p =? "")%string then "datacenter-lab5-moritz" else p
    | None => "datacenter-lab5-moritz"
    end in
  image_resp <- execute P (ImagesGetFromFamily SOURCE_IMAGE_PROJECT SOURCE_IMAGE_FAMILY) ;;
  source_disk_image <- lift (getitem_str image_resp "selfLink") ;;
  let config := vm1_config project source_disk_image vm1_startup vm2_startup
                  service_creds_json vm1_code in
  op <- execute P (InstancesInsert project ZONE config) ;;
  op_name <- lift (getitem_str op "name") ;;
  wait_for_zone_op fuel project ZONE op_name.
End WithProvider.

End Part3.

(** ** part3/vm1-launch-vm2.py *)

Module Vm1LaunchVm2.

Definition ZONE := "us-west1-b".
Definition VM2_NAME := "vm2-flask".
Definition MACHINE_TYPE := ("zones/" ++ ZONE ++ "/machineTypes/e2-medium")%string.
Definition SOURCE_IMAGE_FAMILY := "ubuntu-2204-lts".
Definition SOURCE_IMAGE_PROJECT := "ubuntu-os-cloud".

Definition firewall_body (fw_name : string) : json :=
  JDict [
    ("name", JStr fw_name);
    ("direction", JStr "INGRESS");
    ("allowed", JList [JDict [("IPProtocol", JStr "tcp"); ("ports", JList [JStr "5001"])]]);
    ("sourceRanges", JList [JStr "0.0.0.0/0"]);
    ("targetTags", JList [JStr "allow-5001"])
  ].

(** [config] of [main]. *)
Definition vm2_config (project : string) (source_disk_image : json)
    (vm2_startup : string) : json :=
  JDict [
    ("name", JStr VM2_NAME);
    ("machineType", JStr MACHINE_TYPE);
    ("tags", JDict [("items", JList [JStr "allow-5001"])]);
    ("disks", JList [JDict [
       ("boot", JBool true);
       ("autoDelete", JBool true);
       ("initializeParams", JDict [("sourceImage", source_disk_image)])]]);
    ("networkInterfaces", JList [JDict [
       ("network", JStr ("projects/" ++ project ++ "/global/networks/default")%string);
       ("accessConfigs", JList [JDict [("name", JStr "External NAT");
                                       ("type", JStr "ONE_TO_ONE_NAT")]])]]);
    ("metadata", JDict [("items", JList [JDict [("key", JStr "startup-script");
                                                ("value", JStr vm2_startup)]])])
  ].

Section WithProvider.
Variable P : provider.
(** Python's [str()] on a value from the provider. *)
Variable py_str : json -> string.

Fixpoint wait_for_zone_op (fuel : nat) (project zone : string) (op_name : json)
    : M unit :=
  match fuel with
  | O => out_of_fuel
  | S fuel' =>
      result <- execute P (ZoneOperationsGet project zone op_name) ;;
      status <- lift (get result "status" JNull) ;;
      if eq_str status "DONE" then
        has_error <- lift (contains_str "error" result) ;;
        if has_error : bool then
          err <- lift (getitem_str result "error") ;;
          raise (RuntimeError (JStr (py_str err)))
        else ret tt
      else
        time_sleep 2%float ;;;
        wait_for_zone_op fuel' project zone op_name
  end.

(** The [while True] loop inside the [except] block of [main]. *)
Fixpoint wait_firewall_op (fuel : nat) (project : string) (op_name : json) : M unit :=
  match fuel with
  | O => out_of_fuel
  | S fuel' =>
      r <- execute P (GlobalOperationsGet project op_name) ;;
      status <- lift (get r "status" JNull) ;;
      if eq_str status "DONE" then
        has_error <- lift (contains_str "error" r) ;;
        if has_error : bool then
          err <- lift (getitem_str r "error") ;;
          raise (RuntimeError (JStr (py_str err)))
        else ret tt
      else
        time_sleep 2%float ;;;
        wait_firewall_op fuel' project op_name
  end.

(** [main] after the credentials are loaded: [env_project] is
    [os.getenv("GOOGLE_CLOUD_PROJECT")] and [vm2_startup] what [read_text]
    returned.  The result is the address [main] prints. *)
Definition main (fuel : nat) (env_project : option string) (vm2_startup : string)
    : M json :=
  match env_project with
  | None => raise (RuntimeError (JStr "GOOGLE_CLOUD_PROJECT not set on VM1"))
  | Some project =>
      if (project =? "")%string
      then raise (RuntimeError (JStr "GOOGLE_CLOUD_PROJECT not set on VM1"))
      else
        image_resp <- execute P (ImagesGetFromFamily SOURCE_IMAGE_PROJECT
                                   SOURCE_IMAGE_FAMILY) ;;
        source_disk_image <- lift (getitem_str image_resp "selfLink") ;;
        let fw_name := "allow-5001" in
        try_except
          (execute P (FirewallsGet project fw_name) ;;; ret tt)
          is_Exception
          (fun _ =>
             op <- execute P (FirewallsInsert project (firewall_body fw_name)) ;;
             op_name <- lift (getitem_str op "name") ;;
             wait_firewall_op fuel project op_name) ;;;
        let config := vm2_config project source_disk_image vm2_startup in
        op <- execute P (InstancesInsert project ZONE config) ;;
        op_name <- lift (getitem_str op "name") ;;
        wait_for_zone_op fuel project ZONE op_name ;;;
        inst <- execute P (InstancesGet project ZONE VM2_NAME) ;;
        nics <- lift (getitem_str inst "networkInterfaces") ;;
        nic <- lift (getitem_int nics 0) ;;
        acs <- lift (get nic "accessConfigs" (JList [JDict []])) ;;
        ac <- lift (getitem_int acs 0) ;;
        lift (get ac "natIP" (JStr "<no external ip>"))
  end.
End WithProvider.

End Vm1LaunchVm2.

(** ** Vocabulary of the properties *)

(** The field [status] of an operation description, [None] when absent. *)
Definition field (k : string) (v : json) : json :=
  match v with
  | JDict kv => match lookup k kv with Some x => x | None => JNull end
  | _ => JNull
  end.

(** A status fetch answered with an operation that is not DONE yet
    (PENDING, RUNNING, or anything else). *)
Definition op_pending (r : response) : bool :=
  match r with
  | Reply (JDict kv) => negb (eq_str (field "status" (JDict kv)) "DONE")
  | _ => false
  end.

(** A status fetch answered with a DONE operation that has no [error]. *)
Definition op_done_ok (r : response) : bool :=
  match r with
  | Reply (JDict kv) =>
      eq_str (field "status" (JDict kv)) "DONE" &&
      match lookup "error" kv with Some _ => false | None => true end
  | _ => false
  end.

(** A status fetch answered with a DONE operation carrying [error]. *)
Definition op_done_error (r : response) : option json :=
  match r with
  | Reply (JDict kv) =>
      if eq_str (field "status" (JDict kv)) "DONE" then lookup "error" kv else None
  | _ => None
  end.

(** The body of a reply. *)
Definition reply_body (r : response) : json :=
  match r with Reply b => b | Fault _ => JNull end.

Section Polling.
Variable P : provider.

(** The history after [j] rounds of "issue [c], sleep [sec]" from [t]. *)
Fixpoint poll_history (c : call) (sec : float) (t : trace) (j : nat) : trace :=
  match j with
  | O => t
  | S j' => poll_history c sec (t ++ [EvApi c (api P t c); EvSleep sec]) j'
  end.

(** The answer to the fetch that follows [j] such rounds. *)
Definition poll_answer (c : call) (sec : float) (t : trace) (j : nat) : response :=
  api P (poll_history c sec t j) c.

(** The history once that fetch is made. *)
Definition poll_end (c : call) (sec : float) (t : trace) (j : nat) : trace :=
  poll_history c sec t j ++ [EvApi c (poll_answer c sec t j)].

(** The first [k] fetches of [c] find the operation not DONE. *)
Definition pending_for (c : call) (sec : float) (t : trace) (k : nat) : Prop :=
  forall j, (j < k)%nat -> op_pending (poll_answer c sec t j) = true.

(** The shape all the [while True] status loops of the scripts share:
    [wrap] is what becomes the argument of [RuntimeError], [result] what
    the loop returns. *)
Fixpoint poll_loop {A} (c : call) (sec : float) (wrap : json -> json)
    (result : json -> A) (fuel : nat) : M A :=
  match fuel with
  | O => out_of_fuel
  | S fuel' =>
      op <- execute P c ;;
      status <- lift (get op "status" JNull) ;;
      if eq_str status "DONE" then
        has_error <- lift (contains_str "error" op) ;;
        if has_error : bool then
          err <- lift (getitem_str op "error") ;;
          raise (RuntimeError (wrap err))
        else ret (result op)
      else
        time_sleep sec ;;;
        poll_loop c sec wrap result fuel'
  end.
End Polling.

(** The requests of a trace, oldest first. *)
Fixpoint calls_of (t : trace) : list call :=
  match t with
  | [] => []
  | EvApi c _ :: rest => c :: calls_of rest
  | _ :: rest => calls_of rest
  end.

Definition is_status_fetch (c : call) : bool :=
  match c with
  | ZoneOperationsGet _ _ _ | GlobalOperationsGet _ _ => true
  | _ => false
  end.

(** The mutating requests: the three inserts. *)
Definition is_create (c : call) : bool :=
  match c with
  | FirewallsInsert _ _ | InstancesInsert _ _ _ | DisksCreateSnapshot _ _ _ _ => true
  | _ => false
  end.

Definition count_calls (p : call -> bool) (t : trace) : nat :=
  List.length (filter p (calls_of t)).

(** ** A fake provider, for the examples

    An in-memory inventory computed from the history: a resource exists
    once its insert was issued, an operation is PENDING, then RUNNING, then
    DONE, and an instance shows its address from the [ip_after]-th lookup
    on. *)

Module Fake.

Record config : Type := {
  op_error : option json;          (* the error every operation ends with *)
  lookup_fault : option exn;       (* what a firewall lookup raises *)
  existing : list string;          (* the instances there from the start *)
  ip_after : nat;                  (* lookups before an address shows *)
  boot : bool                      (* whether the disk of an instance is a boot disk *)
}.

Definition healthy : config :=
  {| op_error := None; lookup_fault := None; existing := ["flask-vm"]; ip_after := 3;
     boot := true |}.

(** Status fetches since the last insert. *)
Fixpoint polls_since_create (t : trace) (n : nat) : nat :=
  match t with
  | [] => n
  | EvApi c _ :: rest =>
      if is_create c then polls_since_create rest 0%nat
      else if is_status_fetch c then polls_since_create rest (S n)
      else polls_since_create rest n
  | _ :: rest => polls_since_create rest n
  end.

Definition operation (cfg : config) (t : trace) : json :=
  match polls_since_create t 0 with
  | O => JDict [("name", JStr "operation-1"); ("status", JStr "PENDING")]
  | S O => JDict [("name", JStr "operation-1"); ("status", JStr "RUNNING")]
  | _ =>
      JDict ([("name", JStr "operation-1"); ("status", JStr "DONE")] ++
             match op_error cfg with
             | Some e => [("error", e)]
             | None => []
             end)
  end.

Definition inserted_firewall (name : string) (c : call) : bool :=
  match c with
  | FirewallsInsert _ body => eq_str (field "name" body) name
  | _ => false
  end.

Definition inserted_instance (name : string) (c : call) : bool :=
  match c with
  | InstancesInsert _ _ body => eq_str (field "name" body) name
  | _ => false
  end.

Definition inserted_snapshot (name : string) (c : call) : bool :=
  match c with
  | DisksCreateSnapshot _ _ _ body => eq_str (field "name" body) name
  | _ => false
  end.

Definition looked_up (name : string) (c : call) : bool :=
  match c with
  | InstancesGet _ _ n => (n =? name)%string
  | _ => false
  end.

Definition instance_description (name : string) (with_ip is_boot : bool) : json :=
  JDict [
    ("name", JStr name);
    ("disks", JList [JDict [
       ("boot", JBool is_boot);
       ("source", JStr ("https://compute/zones/us-west1-b/disks/" ++ name)%string)]]);
    ("networkInterfaces", JList [JDict [
       ("accessConfigs",
        JList [JDict (("name", JStr "External NAT") ::
                      if with_ip then [("natIP", JStr "203.0.113.7")] else [])])]])
  ].

Definition answer (cfg : config) (t : trace) (c : call) : response :=
  match c with
  | ZoneOperationsGet _ _ _ | GlobalOperationsGet _ _ => Reply (operation cfg t)
  | FirewallsGet _ name =>
      match lookup_fault cfg with
      | Some e => Fault e
      | None =>
          if existsb (inserted_firewall name) (calls_of t)
          then Reply (JDict [("name", JStr name)])
          else Fault (HttpError 404)
      end
  | InstancesGet _ _ name =>
      if existsb (String.eqb name) (existing cfg) ||
         existsb (inserted_instance name) (calls_of t)
      then Reply (instance_description name
                    (ip_after cfg <=? S (count_calls (looked_up name) t))%nat
                    (boot cfg))
      else Fault (HttpError 404)
  | SnapshotsGet _ name =>
      if existsb (inserted_snapshot name) (calls_of t)
      then Reply (JDict [("name", JStr name)])
      else Fault (HttpError 404)
  | FirewallsInsert _ _ | InstancesInsert _ _ _ | DisksCreateSnapshot _ _ _ _ =>
      Reply (JDict [("name", JStr "operation-1"); ("status", JStr "PENDING")])
  | ImagesGetFromFamily project family =>
      Reply (JDict [("selfLink",
                     JStr ("projects/" ++ project ++ "/global/images/" ++ family)%string)])
  end.

Definition cloud (cfg : config) : provider :=
  {| api := answer cfg;
     perf_counter := fun t => PrimFloat.of_uint63 (Uint63.of_Z (Z.of_nat (List.length t))) |}.

End Fake.

(** ** awaitCompletion: the status loops of the four scripts *)

Inductive poller : Type :=
| Part1Zone        (* part1.wait_for_zone_op *)
| Part1Global      (* part1.wait_for_global_op *)
| Part2Zone        (* part2.wait_for_zone_op *)
| Part2Global      (* part2.wait_for_global_op *)
| Part3Zone        (* part3.wait_for_zone_op *)
| Vm1Zone          (* vm1-launch-vm2.wait_for_zone_op *)
| Vm1Firewall.     (* the loop inside main of vm1-launch-vm2 *)

(** The status request a loop issues. *)
Definition poller_call (w : poller) (project zone : string) (op_name : json) : call :=
  match w with
  | Part1Zone | Part2Zone | Part3Zone | Vm1Zone => ZoneOperationsGet project zone op_name
  | Part1Global | Part2Global | Vm1Firewall => GlobalOperationsGet project op_name
  end.

(** The pause between two requests: the argument in part1 and part2, two
    seconds in part3. *)
Definition poller_sleep (w : poller) (poll_sec : float) : float :=
  match w with
  | Part1Zone | Part1Global | Part2Zone | Part2Global => poll_sec
  | Part3Zone | Vm1Zone | Vm1Firewall => 2%float
  end.

(** The argument of the [RuntimeError] a loop raises for an error payload. *)
Definition poller_error (w : poller) (py_str : json -> string) (payload : json) : json :=
  match w with
  | Part1Zone | Part1Global | Part2Zone | Part2Global => payload
  | Part3Zone | Vm1Zone | Vm1Firewall => JStr (py_str payload)
  end.

(** What a loop returns for the final description [op]: the description in
    part2, [None] elsewhere. *)
Definition poller_result (w : poller) (op : json) : json :=
  match w with
  | Part2Zone | Part2Global => op
  | _ => JNull
  end.

Definition awaitCompletion (P : provider) (py_str : json -> string) (w : poller)
    (fuel : nat) (project zone : string) (op_name : json) (poll_sec : float) : M json :=
  match w with
  | Part1Zone => Part1.wait_for_zone_op P fuel project zone op_name poll_sec ;;; ret JNull
  | Part1Global => Part1.wait_for_global_op P fuel project op_name poll_sec ;;; ret JNull
  | Part2Zone => Part2.wait_for_zone_op P fuel project zone op_name poll_sec
  | Part2Global => Part2.wait_for_global_op P fuel project op_name poll_sec
  | Part3Zone => Part3.wait_for_zone_op P py_str fuel project zone op_name ;;; ret JNull
  | Vm1Zone => Vm1LaunchVm2.wait_for_zone_op P py_str fuel project zone op_name ;;; ret JNull
  | Vm1Firewall => Vm1LaunchVm2.wait_firewall_op P py_str fuel project op_name ;;; ret JNull
  end.

(** An operation that ends with an error. *)
Definition quota_error : json :=
  JDict [("errors", JList [JDict [("code", JStr "QUOTA_EXCEEDED")]])].

Definition failing : Fake.config :=
  {| Fake.op_error := Some quota_error; Fake.lookup_fault := None;
     Fake.existing := []; Fake.ip_after := 2; Fake.boot := true |}.

(** ** The external address of an instance description *)

(** The NAT address of the first access config of the first network
    interface, when every field on the way is there. *)
Definition first_nat_address (inst : json) : option json :=
  match inst with
  | JDict kv =>
      match lookup "networkInterfaces" kv with
      | Some (JList (JDict nic :: _)) =>
          match lookup "accessConfigs" nic with
          | Some (JList (JDict ac :: _)) => lookup "natIP" ac
          | _ => None
          end
      | _ => None
      end
  | _ => None
  end.

(** ** The readiness wait *)

(** The address a lookup yields: a description whose first NAT address is
    there and is not empty. *)
Definition yields_address (r : response) : option json :=
  match r with
  | Reply inst =>
      match first_nat_address inst with
      | Some ip => if truthy ip then Some ip else None
      | None => None
      end
  | Fault _ => None
  end.

(** A lookup that is answered (with a description or with 404) and yields
    no address. *)
Definition no_address_yet (r : response) : bool :=
  match r with
  | Reply _ => match yields_address r with Some _ => false | None => true end
  | Fault (HttpError status) => status =? 404
  | Fault _ => false
  end.

Definition no_address_for (P : provider) (c : call) (t : trace) (k : nat) : Prop :=
  forall j, (j < k)%nat -> no_address_yet (poll_answer P c 2%float t j) = true.

Definition timeout_text : string := "Timed out waiting for external IP".

(** Operations that end with the text of the readiness timeout as their
    error, and an inventory without instances. *)
Definition confusing : Fake.config :=
  {| Fake.op_error := Some (JStr timeout_text); Fake.lookup_fault := None;
     Fake.existing := []; Fake.ip_after := 3; Fake.boot := true |}.

(** ** The base instance of part2 *)

(** The disk list of an instance description. *)
Definition disk_list (inst : json) : list json :=
  match inst with
  | JDict kv =>
      match lookup "disks" kv with
      | Some (JList ds) => ds
      | _ => []
      end
  | _ => []
  end.

(** A disk marked as the boot disk. *)
Definition marked_boot (d : json) : bool := truthy (field "boot" d).

Definition is_dict (v : json) : bool :=
  match v with JDict _ => true | _ => false end.

(** A description that is a dict whose [disks], if there, is a list of
    dicts. *)
Definition well_described (inst : json) : bool :=
  match inst with
  | JDict kv =>
      match lookup "disks" kv with
      | None => true
      | Some (JList ds) => forallb is_dict ds
      | Some _ => false
      end
  | _ => false
  end.

(** A base instance whose only disk is not a boot disk. *)
Definition bootless : Fake.config :=
  {| Fake.op_error := None; Fake.lookup_fault := None;
     Fake.existing := ["flask-vm"]; Fake.ip_after := 1; Fake.boot := false |}.

(** ** What a run adds to the trace *)

(** Whatever the history and the outcome, [m] only appends events, and
    every event it appends satisfies [ok]. *)
Definition emits {A} (ok : event -> Prop) (m : M A) : Prop :=
  forall t, exists evs, snd (m t) = t ++ evs /\ Forall ok evs.

(** A provider that refuses the firewall lookup: 403. *)
Definition denied : Fake.config :=
  {| Fake.op_error := None; Fake.lookup_fault := Some (HttpError 403);
     Fake.existing := []; Fake.ip_after := 1; Fake.boot := true |}.

(** A failure of the lookup other than 404. *)
Definition not_404 (e : exn) : bool :=
  match e with
  | HttpError status => negb (status =? 404)
  | _ => true
  end.

(** ** The clones of part2 *)

Definition is_instance_lookup (c : call) : bool :=
  match c with InstancesGet _ _ _ => true | _ => false end.

(** The instance lookups of a trace, oldest first: each call of
    [create_instance_from_snapshot] starts with one and makes no other. *)
Definition lookups_of (t : trace) : list call :=
  filter is_instance_lookup (calls_of t).

Definition not_instance_lookup (ev : event) : Prop :=
  match ev with
  | EvApi c _ => is_instance_lookup c = false
  | _ => True
  end.

(** [b-clone-1], ..., [b-clone-n] *)
Definition clone_names (base_instance : string) (n : nat) : list string :=
  map (fun j => Part2.clone_name base_instance (Z.of_nat j)) (seq 1 n).

(** ** ensure: the reconcile-or-create functions of part1 and part2 *)

Inductive resource : Type :=
| Firewall (project name : string)
    (* part1.ensure_firewall_allow_5000 *)
| Clone (project zone name snapshot_name machine_type : string)
    (* part2.create_instance_from_snapshot *)
| Snapshot (project zone base_instance : string).
    (* part2.create_snapshot_from_instance_boot_disk *)

Definition ensure (P : provider) (fuel : nat) (r : resource) : M unit :=
  match r with
  | Firewall project name =>
      Part1.ensure_firewall_allow_5000 P fuel project name
  | Clone project zone name snapshot_name machine_type =>
      Part2.create_instance_from_snapshot P fuel project zone name snapshot_name
        machine_type ;;; ret tt
  | Snapshot project zone base_instance =>
      Part2.create_snapshot_from_instance_boot_disk P fuel project zone base_instance ;;;
      ret tt
  end.

(** The point lookup of the resource. *)
Definition lookup_call (r : resource) : call :=
  match r with
  | Firewall project name => FirewallsGet project name
  | Clone project zone name _ _ => InstancesGet project zone name
  | Snapshot project _ base_instance =>
      SnapshotsGet project (Part2.snapshot_name_of base_instance)
  end.

(** Whether a description the lookup returns counts as "there": the
    snapshot lookup is tested for truth, the other two only for success. *)
Definition found (r : resource) (d : json) : bool :=
  match r with
  | Snapshot _ _ _ => truthy d
  | _ => true
  end.

(** The insert; [disk] is the boot disk of the base instance, which only
    the snapshot needs. *)
Definition create_call (r : resource) (disk : string) : call :=
  match r with
  | Firewall project name => FirewallsInsert project (Part1.firewall_body project name)
  | Clone project zone name snapshot_name machine_type =>
      InstancesInsert project zone
        (Part2.clone_config project zone name snapshot_name machine_type)
  | Snapshot project zone base_instance =>
      DisksCreateSnapshot project zone disk
        (JDict [("name", JStr (Part2.snapshot_name_of base_instance))])
  end.

(** The status request for the operation of the insert. *)
Definition status_call (r : resource) (op_name : json) : call :=
  match r with
  | Firewall project _ => GlobalOperationsGet project op_name
  | Clone project zone _ _ _ => ZoneOperationsGet project zone op_name
  | Snapshot project zone _ => ZoneOperationsGet project zone op_name
  end.

(** What [create_snapshot_from_instance_boot_disk] computes from the
    description of the base instance before it looks the snapshot up. *)
Definition boot_disk_name (inst : json) : res string :=
  disks <-? get inst "disks" (JList []) ;;
  items <-? iter disks ;;
  boot_disk <-? Part2.find_boot_disk items ;;
  if negb (truthy boot_disk) then
    Exn (RuntimeError (JStr "Could not find boot disk on instance"))
  else
    disk_source <-? getitem_str boot_disk "source" ;;
    split_slash_last disk_source.

(** From the history [t] a call of [ensure] gets to its lookup with the
    history [h]: at once for a firewall and a clone, after the base
    instance was fetched and its boot disk [disk] found for a snapshot. *)
Definition reaches_lookup (P : provider) (r : resource) (t h : trace) (disk : string)
    : Prop :=
  match r with
  | Snapshot project zone base_instance =>
      exists inst,
        api P t (InstancesGet project zone base_instance) = Reply inst /\
        boot_disk_name inst = Val disk /\
        h = t ++ [EvApi (InstancesGet project zone base_instance) (Reply inst)]
  | _ => h = t
  end.

(** The clock reading that [create_instance_from_snapshot] takes before
    the insert and after the wait. *)
Definition timed (P : provider) (r : resource) (h : trace) : trace :=
  match r with
  | Clone _ _ _ _ _ => h ++ [EvClock (perf_counter P h)]
  | _ => h
  end.

(** ** The order of snapshot and clones in part2 *)

Definition is_instance_insert (ev : event) : bool :=
  match ev with
  | EvApi (InstancesInsert _ _ _) _ => true
  | _ => false
  end.

Definition is_create_snapshot (ev : event) : bool :=
  match ev with
  | EvApi (DisksCreateSnapshot _ _ _ _) _ => true
  | _ => false
  end.

(** [create_snapshot_from_instance_boot_disk] from the snapshot lookup on,
    for the boot disk [disk]. *)
Definition snapshot_tail (P : provider) (fuel : nat) (project zone base disk : string)
    : M string :=
  existing <- Part2.snapshot_get P project (Part2.snapshot_name_of base) ;;
  if truthy existing then ret (Part2.snapshot_name_of base)
  else
    op <- execute P (DisksCreateSnapshot project zone disk
                       (JDict [("name", JStr (Part2.snapshot_name_of base))])) ;;
    op_name <- lift (getitem_str op "name") ;;
    Part2.wait_for_zone_op P fuel project zone op_name 1.5%float ;;;
    ret (Part2.snapshot_name_of base).

(** The events [evs] of a run: whenever an instance insert is among them,
    every snapshot creation among them was accepted, comes before the
    insert, and between the two there is a status fetch for the operation
    of the snapshot that was answered DONE without error. *)
Definition snapshot_awaited_before_clones (evs : trace) : Prop :=
  forall pre project zone body r post,
    evs = pre ++ EvApi (InstancesInsert project zone body) r :: post ->
    forall pre' project' zone' disk body' r' post',
      evs = pre' ++ EvApi (DisksCreateSnapshot project' zone' disk body') r' :: post' ->
      exists op op_name mid answer rest,
        r' = Reply op /\
        getitem_str op "name" = Val op_name /\
        op_done_ok answer = true /\
        pre = pre' ++ EvApi (DisksCreateSnapshot project' zone' disk body') r' ::
              mid ++ EvApi (ZoneOperationsGet project' zone' op_name) answer :: rest.

Definition no_create_snapshot (ev : event) : Prop := is_create_snapshot ev = false.

Definition no_instance_insert (ev : event) : Prop := is_instance_insert ev = false.

(** The events of a snapshot phase that returned: no snapshot was created,
    or one was, its insert was accepted, and the last event is the status
    fetch that found its operation DONE without error. *)
Definition snapshot_settled (project zone : string) (evs : trace) : Prop :=
  Forall no_create_snapshot evs \/
  exists a disk body op op_name mid answer,
    evs = a ++ EvApi (DisksCreateSnapshot project zone disk body) (Reply op) ::
          mid ++ [EvApi (ZoneOperationsGet project zone op_name) answer] /\
    Forall no_create_snapshot a /\
    Forall no_create_snapshot mid /\
    getitem_str op "name" = Val op_name /\
    op_done_ok answer = true.

(** A provider that has forgotten every operation: a status fetch is
    answered with 404; the rest is the fake provider. *)
Definition forgetful : provider :=
  {| api := fun t c =>
              if is_status_fetch c then Fault (HttpError 404)
              else Fake.answer Fake.healthy t c;
     perf_counter := fun _ => 0%float |}.

(** ** Events by kind *)

Definition is_write_timing (ev : event) : bool :=
  match ev with EvWriteTiming _ _ => true | _ => false end.

Definition no_write_timing (ev : event) : Prop := is_write_timing ev = false.

(** An event that is not one of the three inserts. *)
Definition no_create (ev : event) : Prop :=
  match ev with
  | EvApi c _ => is_create c = false
  | _ => True
  end.

(** A status fetch of a zone operation of [project] and [zone], or a
    sleep of two seconds. *)
Definition zone_wait_event (project zone : string) (ev : event) : Prop :=
  match ev with
  | EvApi (ZoneOperationsGet p z _) _ => p = project /\ z = zone
  | EvSleep sec => sec = 2%float
  | _ => False
  end.

(** A history in which the firewall of part1 was inserted. *)
Definition firewall_inserted : trace :=
  [EvApi (FirewallsInsert "proj" (Part1.firewall_body "proj" "allow-5000"))
     (Reply (JDict [("name", JStr "operation-1"); ("status", JStr "PENDING")]))].

(** [os.getenv("GOOGLE_CLOUD_PROJECT") or "datacenter-lab5-moritz"] *)
Definition part3_project (env_project : option string) : string :=
  match env_project with
  | Some p => if (p =? "")%string then "datacenter-lab5-moritz" else p
  | None => "datacenter-lab5-moritz"
  end.

(** ** Names and paths *)

(** Whether the character [sep] occurs in [s]. *)
Fixpoint has_char (sep : ascii) (s : string) : bool :=
  match s with
  | EmptyString => false
  | String c rest => Ascii.eqb c sep || has_char sep rest
  end.

(** The expression that [main] of vm1-launch-vm2.py prints as the address
    of VM2 (lines 99 to 103). *)
Definition vm2_address (inst : json) : res json :=
  nics <-? getitem_str inst "networkInterfaces" ;;
  nic <-? getitem_int nics 0 ;;
  acs <-? get nic "accessConfigs" (JList [JDict []]) ;;
  ac <-? getitem_int acs 0 ;;
  get ac "natIP" (JStr "<no external ip>").

(** The value of a metadata key in the body of an instance insert. *)
Fixpoint item_value (key : string) (items : list json) : option json :=
  match items with
  | [] => None
  | item :: rest =>
      if eq_str (field "key" item) key then Some (field "value" item)
      else item_value key rest
  end.

Definition metadata_value (body : json) (key : string) : option json :=
  match field "items" (field "metadata" body) with
  | JList items => item_value key items
  | _ => None
  end.

(** The network tags of the body of an instance insert. *)
Definition network_tags (body : json) : json := field "items" (field "tags" body).

(** What part1 sends for the firewall [fw]: a rule named [fw] that targets
    the tag [fw], and instances that carry the tag [fw]. *)
Definition tagged_for (fw : string) (ev : event) : Prop :=
  match ev with
  | EvApi (FirewallsInsert _ body) _ =>
      field "name" body = JStr fw /\ field "targetTags" body = JList [JStr fw]
  | EvApi (InstancesInsert _ _ body) _ => network_tags body = JList [JStr fw]
  | _ => True
  end.

(** The payloads that part3 relays to VM1 through the metadata of its
    insert. *)
Definition relays_payloads (project vm1_startup vm2_startup service_creds_json
    vm1_code : string) (ev : event) : Prop :=
  match ev with
  | EvApi (InstancesInsert _ _ body) _ =>
      metadata_value body "startup-script" = Some (JStr vm1_startup) /\
      metadata_value body "vm2-startup-script" = Some (JStr vm2_startup) /\
      metadata_value body "service-credentials" = Some (JStr service_creds_json) /\
      metadata_value body "vm1-launch-vm2-code" = Some (JStr vm1_code) /\
      metadata_value body "project" = Some (JStr project)
  | _ => True
  end.

(** What vm1-launch-vm2 sends: VM2 with the relayed script as its startup
    script and the tag of the firewall rule for port 5001. *)
Definition launches_vm2 (vm2_startup : string) (ev : event) : Prop :=
  match ev with
  | EvApi (FirewallsInsert _ body) _ =>
      field "targetTags" body = JList [JStr "allow-5001"]
  | EvApi (InstancesInsert _ _ body) _ =>
      metadata_value body "startup-script" = Some (JStr vm2_startup) /\
      network_tags body = JList [JStr "allow-5001"]
  | _ => True
  end.

(** A history in which the firewall of vm1-launch-vm2 was inserted. *)
Definition firewall_5001_inserted : trace :=
  [EvApi (FirewallsInsert "proj" (Vm1LaunchVm2.firewall_body "allow-5001"))
     (Reply (JDict [("name", JStr "operation-1"); ("status", JStr "PENDING")]))].

(** ** The boot source of a creation request *)









(** [m] returns nothing but [v]. *)
Definition returns_only {A} (v : A) (m : M A) : Prop :=
  forall t a t', m t = (Ret a, t') -> a = v.

(** ** The fleet of part2 *)

(** The decimal numeral of [j], as the base library prints a [nat]. *)
Definition decimal (j : nat) : string := NilEmpty.string_of_uint (Nat.to_uint j).

(** [<base>-clone-1], ..., [<base>-clone-<n>] *)
Definition fleet_names (base_instance : string) (n : nat) : list string :=
  map (fun j => String.concat "-" [base_instance; "clone"; decimal j]) (seq 1 n).

Section Fleet.
Variable P : provider.
Variable fuel : nat.
Variables project zone : string.

(** The provider's answers from the history [h] on let one call of
    [create_instance_from_snapshot] for [name] go well: the instance is
    there, or it is absent (404), the insert is accepted and its operation
    is DONE without error after [k] pending fetches, [k] below the fuel.
    [sec] is what the call then returns and [h'] the history it leaves. *)
Definition provisions (name snapshot_name machine_type : string) (h : trace)
    (sec : float) (h' : trace) : Prop :=
  let lookup := InstancesGet project zone name in
  let create := InstancesInsert project zone
                  (Part2.clone_config project zone name snapshot_name machine_type) in
  (exists d,
     api P h lookup = Reply d /\
     sec = 0%float /\
     h' = h ++ [EvApi lookup (Reply d)]) \/
  (exists op op_name k,
     let h0 := h ++ [EvApi lookup (Fault (HttpError 404))] in
     let t0 := perf_counter P h0 in
     let h2 := (h0 ++ [EvClock t0]) ++ [EvApi create (Reply op)] in
     let status := ZoneOperationsGet project zone op_name in
     let h3 := poll_end P status 1.5%float h2 k in
     let t1 := perf_counter P h3 in
     api P h lookup = Fault (HttpError 404) /\
     api P (h0 ++ [EvClock t0]) create = Reply op /\
     getitem_str op "name" = Val op_name /\
     pending_for P status 1.5%float h2 k /\
     op_done_ok (poll_answer P status 1.5%float h2 k) = true /\
     (k < fuel)%nat /\
     sec = (t1 - t0)%float /\
     h' = h3 ++ [EvClock t1]).

(** The same for the calls for [names], one after the other: [records]
    pairs each name with what its call returns. *)
Inductive fleet_provisioned (snapshot_name machine_type : string)
    : list string -> trace -> list (string * float) -> trace -> Prop :=
| fleet_done (h : trace) :
    fleet_provisioned snapshot_name machine_type [] h [] h
| fleet_next (name : string) (names : list string) (h h1 h' : trace) (sec : float)
    (records : list (string * float)) :
    provisions name snapshot_name machine_type h sec h1 ->
    fleet_provisioned snapshot_name machine_type names h1 records h' ->
    fleet_provisioned snapshot_name machine_type (name :: names) h
      ((name, sec) :: records) h'.

(** The provider's answers from [t] on let the snapshot phase for
    [base_instance] go well: the base instance is there with a boot disk,
    and the snapshot is found, or it is absent (404), its creation is
    accepted and its operation is DONE without error after [k] pending
    fetches.  [t0] is the history the phase leaves. *)
Definition snapshot_ready (base_instance : string) (t t0 : trace) : Prop :=
  let r := Snapshot project zone base_instance in
  exists h disk,
    reaches_lookup P r t h disk /\
    ((exists d,
        api P h (lookup_call r) = Reply d /\
        truthy d = true /\
        t0 = h ++ [EvApi (lookup_call r) (Reply d)]) \/
     (exists op op_name k,
        let h1 := h ++ [EvApi (lookup_call r) (Fault (HttpError 404))] in
        let h2 := h1 ++ [EvApi (create_call r disk) (Reply op)] in
        api P h (lookup_call r) = Fault (HttpError 404) /\
        api P h1 (create_call r disk) = Reply op /\
        getitem_str op "name" = Val op_name /\
        pending_for P (status_call r op_name) 1.5%float h2 k /\
        op_done_ok (poll_answer P (status_call r op_name) 1.5%float h2 k) = true /\
        (k < fuel)%nat /\
        t0 = poll_end P (status_call r op_name) 1.5%float h2 k)).
End Fleet.

(** [cloneFleet], as the specification words it: for each name in turn,
    one invocation of the provisioner and one record of the name and the
    seconds it returned; a failed invocation ends the run. *)
Fixpoint invoke_in_order (provision : string -> M float) (names : list string)
    : M (list (string * float)) :=
  match names with
  | [] => ret []
  | name :: rest =>
      sec <- provision name ;;
      records <- invoke_in_order provision rest ;;
      ret ((name, sec) :: records)
  end.

Definition cloneFleet (provision : string -> M float) (base_instance : string)
    (n : nat) : M (list (string * float)) :=
  invoke_in_order provision (fleet_names base_instance n).

(** A run of part2.py on the healthy fake provider: the base instance
    [flask-vm] is there, the snapshot and the three clones are not. *)
Definition fleet_snapshot_trace : trace :=
  Eval vm_compute in
    snd (Part2.create_snapshot_from_instance_boot_disk (Fake.cloud Fake.healthy) 5
           "proj" "us-west1-b" "flask-vm" []).

Definition fleet_clone_1_trace : trace :=
  Eval vm_compute in
    snd (Part2.create_instance_from_snapshot (Fake.cloud Fake.healthy) 5 "proj"
           "us-west1-b" "flask-vm-clone-1" "base-snapshot-flask-vm" "e2-medium"
           fleet_snapshot_trace).

Definition fleet_clone_2_trace : trace :=
  Eval vm_compute in
    snd (Part2.create_instance_from_snapshot (Fake.cloud Fake.healthy) 5 "proj"
           "us-west1-b" "flask-vm-clone-2" "base-snapshot-flask-vm" "e2-medium"
           fleet_clone_1_trace).

Definition fleet_clone_3_trace : trace :=
  Eval vm_compute in
    snd (Part2.create_instance_from_snapshot (Fake.cloud Fake.healthy) 5 "proj"
           "us-west1-b" "flask-vm-clone-3" "base-snapshot-flask-vm" "e2-medium"
           fleet_clone_2_trace).

Definition fleet_records : list (string * float) :=
  [("flask-vm-clone-1", 7%float); ("flask-vm-clone-2", 7%float);
   ("flask-vm-clone-3", 7%float)].

Definition fleet_base_description : json :=
  Eval vm_compute in
    match api (Fake.cloud Fake.healthy) []
            (InstancesGet "proj" "us-west1-b" "flask-vm") with
    | Reply d => d
    | Fault _ => JNull
    end.

Definition fleet_pending_op : json :=
  JDict [("name", JStr "operation-1"); ("status", JStr "PENDING")].

(** * Properties *)

(** ** The monad *)

Lemma bind_ret_l {A B} (a : A) (k : A -> M B) (t : trace) :
  bind (ret a) k t = k a t.
Proof. reflexivity. Qed.

Lemma bind_step {A B} (m : M A) (k : A -> M B) (t t' : trace) (a : A) :
  m t = (Ret a, t') -> bind m k t = k a t'.
Proof. intros H. unfold bind. now rewrite H. Qed.

Lemma bind_raise {A B} (m : M A) (k : A -> M B) (t t' : trace) (e : exn) :
  m t = (Raise e, t') -> bind m k t = (Raise e, t').
Proof. intros H. unfold bind. now rewrite H. Qed.

Lemma bind_fuel {A B} (m : M A) (k : A -> M B) (t t' : trace) :
  m t = (OutOfFuel, t') -> bind m k t = (OutOfFuel, t').
Proof. intros H. unfold bind. now rewrite H. Qed.

Lemma bind_ext {A B} (m : M A) (k k' : A -> M B) (t : trace) :
  (forall a t', k a t' = k' a t') -> bind m k t = bind m k' t.
Proof.
  intros H. unfold bind. destruct (m t) as [[a | e | ] t']; auto.
Qed.

Lemma execute_reply (P : provider) (c : call) (t : trace) (b : json) :
  api P t c = Reply b -> execute P c t = (Ret b, t ++ [EvApi c (Reply b)]).
Proof. intros H. unfold execute. now rewrite H. Qed.

Lemma execute_fault (P : provider) (c : call) (t : trace) (e : exn) :
  api P t c = Fault e -> execute P c t = (Raise e, t ++ [EvApi c (Fault e)]).
Proof. intros H. unfold execute. now rewrite H. Qed.

(** ** The status loops are instances of [poll_loop] *)

Ltac loop_is_poll_loop :=
  let fuel := fresh "fuel" in
  let IH := fresh "IH" in
  let t := fresh "t" in
  intros fuel; induction fuel as [| fuel IH]; intros t;
  [ reflexivity
  | cbn [poll_loop]; simpl; apply bind_ext; intros op t1;
    apply bind_ext; intros status t2;
    destruct (eq_str status "DONE");
    [ reflexivity | apply bind_ext; intros _ t3; apply IH ] ].

Lemma part1_wait_for_zone_op_poll (P : provider) project zone op_name poll_sec :
  forall fuel t,
    Part1.wait_for_zone_op P fuel project zone op_name poll_sec t =
    poll_loop P (ZoneOperationsGet project zone op_name) poll_sec (fun e => e)
      (fun _ => tt) fuel t.
Proof. loop_is_poll_loop. Qed.

Lemma part1_wait_for_global_op_poll (P : provider) project op_name poll_sec :
  forall fuel t,
    Part1.wait_for_global_op P fuel project op_name poll_sec t =
    poll_loop P (GlobalOperationsGet project op_name) poll_sec (fun e => e)
      (fun _ => tt) fuel t.
Proof. loop_is_poll_loop. Qed.

Lemma part2_wait_for_zone_op_poll (P : provider) project zone op_name poll_sec :
  forall fuel t,
    Part2.wait_for_zone_op P fuel project zone op_name poll_sec t =
    poll_loop P (ZoneOperationsGet project zone op_name) poll_sec (fun e => e)
      (fun op => op) fuel t.
Proof. loop_is_poll_loop. Qed.

Lemma part2_wait_for_global_op_poll (P : provider) project op_name poll_sec :
  forall fuel t,
    Part2.wait_for_global_op P fuel project op_name poll_sec t =
    poll_loop P (GlobalOperationsGet project op_name) poll_sec (fun e => e)
      (fun op => op) fuel t.
Proof. loop_is_poll_loop. Qed.

Lemma part3_wait_for_zone_op_poll (P : provider) py_str project zone op_name :
  forall fuel t,
    Part3.wait_for_zone_op P py_str fuel project zone op_name t =
    poll_loop P (ZoneOperationsGet project zone op_name) 2%float
      (fun e => JStr (py_str e)) (fun _ => tt) fuel t.
Proof. loop_is_poll_loop. Qed.

Lemma vm1_wait_for_zone_op_poll (P : provider) py_str project zone op_name :
  forall fuel t,
    Vm1LaunchVm2.wait_for_zone_op P py_str fuel project zone op_name t =
    poll_loop P (ZoneOperationsGet project zone op_name) 2%float
      (fun e => JStr (py_str e)) (fun _ => tt) fuel t.
Proof. loop_is_poll_loop. Qed.

Lemma vm1_wait_firewall_op_poll (P : provider) py_str project op_name :
  forall fuel t,
    Vm1LaunchVm2.wait_firewall_op P py_str fuel project op_name t =
    poll_loop P (GlobalOperationsGet project op_name) 2%float
      (fun e => JStr (py_str e)) (fun _ => tt) fuel t.
Proof. loop_is_poll_loop. Qed.

(** ** One round of a status loop *)

Section PollLoop.
Variable P : provider.
Context {A : Type}.
Variables (c : call) (sec : float) (wrap : json -> json) (result : json -> A).

Lemma poll_loop_round (fuel : nat) (t : trace) :
  op_pending (api P t c) = true ->
  poll_loop P c sec wrap result (S fuel) t =
  poll_loop P c sec wrap result fuel (t ++ [EvApi c (api P t c); EvSleep sec]).
Proof.
  intros Hp. cbn [poll_loop]. unfold bind at 1, execute.
  destruct (api P t c) as [[| | | | | | kv] | e]; try discriminate.
  cbn in Hp. cbn.
  destruct (eq_str _ "DONE"); [discriminate |].
  cbn. unfold bind, time_sleep. now rewrite <- app_assoc.
Qed.

Lemma poll_loop_pending (k fuel : nat) :
  forall t,
    pending_for P c sec t k ->
    poll_loop P c sec wrap result (k + fuel) t =
    poll_loop P c sec wrap result fuel (poll_history P c sec t k).
Proof.
  induction k as [| k IH]; intros t Hp; [reflexivity |].
  change (S k + fuel)%nat with (S (k + fuel)).
  rewrite poll_loop_round by (apply (Hp 0%nat); lia).
  cbn [poll_history]. apply IH.
  intros j Hj. apply (Hp (S j)). lia.
Qed.

Lemma poll_loop_done_ok (fuel : nat) (t : trace) :
  op_done_ok (api P t c) = true ->
  poll_loop P c sec wrap result (S fuel) t =
  (Ret (result (reply_body (api P t c))), t ++ [EvApi c (api P t c)]).
Proof.
  intros Hd. cbn [poll_loop]. unfold bind at 1, execute.
  destruct (api P t c) as [[| | | | | | kv] | e]; try discriminate.
  cbn in Hd. cbn.
  destruct (eq_str _ "DONE"); [| discriminate].
  cbn in *. destruct (lookup "error" kv); [discriminate | reflexivity].
Qed.

Lemma poll_loop_done_error (fuel : nat) (t : trace) (payload : json) :
  op_done_error (api P t c) = Some payload ->
  poll_loop P c sec wrap result (S fuel) t =
  (Raise (RuntimeError (wrap payload)), t ++ [EvApi c (api P t c)]).
Proof.
  intros Hd. cbn [poll_loop]. unfold bind at 1, execute.
  destruct (api P t c) as [[| | | | | | kv] | e]; try discriminate.
  cbn in Hd. cbn.
  destruct (eq_str _ "DONE"); [| discriminate].
  cbn. rewrite Hd. reflexivity.
Qed.

(** DONE without error at the fetch after [k] pending ones. *)
Lemma poll_loop_completes (k fuel : nat) (t : trace) :
  pending_for P c sec t k ->
  op_done_ok (poll_answer P c sec t k) = true ->
  (k < fuel)%nat ->
  poll_loop P c sec wrap result fuel t =
  (Ret (result (reply_body (poll_answer P c sec t k))), poll_end P c sec t k).
Proof.
  intros Hp Hd Hf.
  replace fuel with (k + S (fuel - S k))%nat by lia.
  rewrite poll_loop_pending by assumption.
  now apply poll_loop_done_ok.
Qed.

Lemma poll_loop_fails (k fuel : nat) (t : trace) (payload : json) :
  pending_for P c sec t k ->
  op_done_error (poll_answer P c sec t k) = Some payload ->
  (k < fuel)%nat ->
  poll_loop P c sec wrap result fuel t =
  (Raise (RuntimeError (wrap payload)), poll_end P c sec t k).
Proof.
  intros Hp Hd Hf.
  replace fuel with (k + S (fuel - S k))%nat by lia.
  rewrite poll_loop_pending by assumption.
  now apply poll_loop_done_error.
Qed.

(** With no more fuel than pending fetches the model gives no answer. *)
Lemma poll_loop_starves (k : nat) (t : trace) :
  pending_for P c sec t k ->
  fst (poll_loop P c sec wrap result k t) = OutOfFuel.
Proof.
  intros Hp. replace k with (k + 0)%nat by lia.
  now rewrite poll_loop_pending.
Qed.
End PollLoop.

Lemma calls_of_app (t u : trace) : calls_of (t ++ u) = calls_of t ++ calls_of u.
Proof.
  induction t as [| [c r | s | n | p ts] t IH]; cbn; now rewrite ?IH.
Qed.

Lemma count_calls_app (p : call -> bool) (t u : trace) :
  count_calls p (t ++ u) = (count_calls p t + count_calls p u)%nat.
Proof.
  unfold count_calls. now rewrite calls_of_app, filter_app, length_app.
Qed.

Lemma calls_of_poll_history (P : provider) c sec (k : nat) :
  forall t, calls_of (poll_history P c sec t k) = calls_of t ++ repeat c k.
Proof.
  induction k as [| k IH]; intros t; cbn [poll_history repeat].
  - now rewrite app_nil_r.
  - rewrite IH, calls_of_app. cbn. now rewrite <- app_assoc.
Qed.

Lemma calls_of_poll_end (P : provider) c sec (k : nat) (t : trace) :
  calls_of (poll_end P c sec t k) = calls_of t ++ repeat c (S k).
Proof.
  unfold poll_end. rewrite calls_of_app, calls_of_poll_history.
  cbn [calls_of]. rewrite <- app_assoc. f_equal.
  symmetry. apply (repeat_cons k c).
Qed.

(** ** awaitCompletion *)

Lemma poll_loop_map (P : provider) {A B : Type} (g : A -> B) c sec wrap
    (result : json -> A) :
  forall fuel t,
    bind (poll_loop P c sec wrap result fuel) (fun a => ret (g a)) t =
    poll_loop P c sec wrap (fun op => g (result op)) fuel t.
Proof.
  induction fuel as [| fuel IH]; intros t; [reflexivity |].
  cbn [poll_loop]. unfold bind, execute, lift, ret, raise, time_sleep in *.
  destruct (api P t c) as [op | e]; [| reflexivity].
  destruct (get op "status" JNull) as [status | e]; [| reflexivity].
  destruct (eq_str status "DONE").
  - destruct (contains_str "error" op) as [[|] | e]; try reflexivity.
    destruct (getitem_str op "error"); reflexivity.
  - apply IH.
Qed.

Lemma awaitCompletion_poll_loop P py_str w fuel project zone op_name poll_sec t :
  awaitCompletion P py_str w fuel project zone op_name poll_sec t =
  poll_loop P (poller_call w project zone op_name) (poller_sleep w poll_sec)
    (poller_error w py_str) (poller_result w) fuel t.
Proof.
  destruct w; cbn [awaitCompletion poller_call poller_sleep poller_error poller_result].
  - rewrite <- (poll_loop_map P (fun _ : unit => JNull) _ _ _ (fun _ => tt)).
    unfold bind. now rewrite part1_wait_for_zone_op_poll.
  - rewrite <- (poll_loop_map P (fun _ : unit => JNull) _ _ _ (fun _ => tt)).
    unfold bind. now rewrite part1_wait_for_global_op_poll.
  - apply part2_wait_for_zone_op_poll.
  - apply part2_wait_for_global_op_poll.
  - rewrite <- (poll_loop_map P (fun _ : unit => JNull) _ _ _ (fun _ => tt)).
    unfold bind. now rewrite part3_wait_for_zone_op_poll.
  - rewrite <- (poll_loop_map P (fun _ : unit => JNull) _ _ _ (fun _ => tt)).
    unfold bind. now rewrite vm1_wait_for_zone_op_poll.
  - rewrite <- (poll_loop_map P (fun _ : unit => JNull) _ _ _ (fun _ => tt)).
    unfold bind. now rewrite vm1_wait_firewall_op_poll.
Qed.

(** C6.  An operation found not DONE by the first [k] status fetches and
    DONE, without error, by the next one: with any fuel above [k] every
    status loop of the scripts returns; it has then made exactly [k + 1]
    status fetches, the last event of the run is the fetch that saw DONE,
    and nothing is requested after it. *)
Theorem awaitCompletion_terminates (P : provider) (py_str : json -> string)
    (w : poller) (project zone : string) (op_name : json) (poll_sec : float)
    (k fuel : nat) (t : trace) :
  let c := poller_call w project zone op_name in
  let sec := poller_sleep w poll_sec in
  pending_for P c sec t k ->
  op_done_ok (poll_answer P c sec t k) = true ->
  (k < fuel)%nat ->
  awaitCompletion P py_str w fuel project zone op_name poll_sec t =
    (Ret (poller_result w (reply_body (poll_answer P c sec t k))),
     poll_history P c sec t k ++ [EvApi c (poll_answer P c sec t k)]) /\
  calls_of (poll_history P c sec t k ++ [EvApi c (poll_answer P c sec t k)]) =
    calls_of t ++ repeat c (S k).
Proof.
  intros c sec Hp Hd Hf. split.
  - rewrite awaitCompletion_poll_loop. now apply poll_loop_completes.
  - apply (calls_of_poll_end P c sec k t).
Qed.

(** PENDING, RUNNING, DONE: part1's zone loop returns after three fetches. *)
Lemma awaitCompletion_terminates_witness :
  awaitCompletion (Fake.cloud Fake.healthy) (fun _ => "") Part1Zone 5
    "proj" "us-west1-b" (JStr "operation-1") 1.5%float [] =
  (Ret JNull,
   [EvApi (ZoneOperationsGet "proj" "us-west1-b" (JStr "operation-1"))
      (Reply (JDict [("name", JStr "operation-1"); ("status", JStr "PENDING")]));
    EvSleep 1.5%float;
    EvApi (ZoneOperationsGet "proj" "us-west1-b" (JStr "operation-1"))
      (Reply (JDict [("name", JStr "operation-1"); ("status", JStr "RUNNING")]));
    EvSleep 1.5%float;
    EvApi (ZoneOperationsGet "proj" "us-west1-b" (JStr "operation-1"))
      (Reply (JDict [("name", JStr "operation-1"); ("status", JStr "DONE")]))]).
Proof.
  refine (proj1 (awaitCompletion_terminates (Fake.cloud Fake.healthy) (fun _ => "")
                   Part1Zone "proj" "us-west1-b" (JStr "operation-1") 1.5%float
                   2 5 [] _ _ _)).
  - intros j Hj. destruct j as [| [| j]]; [reflexivity | reflexivity | lia].
  - reflexivity.
  - lia.
Defined.

(** C3 (as amended).  An operation found not DONE by the first [k] status
    fetches and DONE by the next one.  If that description carries an
    [error], every status loop raises [RuntimeError]: with exactly that
    payload as its argument in part1 and part2, and with the text [str()]
    makes of the payload in part3.py and vm1-launch-vm2.py.  If it carries
    none, the loop returns. *)
Theorem awaitCompletion_surfaces_error (P : provider) (py_str : json -> string)
    (w : poller) (project zone : string) (op_name : json) (poll_sec : float)
    (k fuel : nat) (t : trace) :
  let c := poller_call w project zone op_name in
  let sec := poller_sleep w poll_sec in
  pending_for P c sec t k ->
  (k < fuel)%nat ->
  (forall payload,
     op_done_error (poll_answer P c sec t k) = Some payload ->
     awaitCompletion P py_str w fuel project zone op_name poll_sec t =
       (Raise (RuntimeError (poller_error w py_str payload)),
        poll_history P c sec t k ++ [EvApi c (poll_answer P c sec t k)])) /\
  (op_done_ok (poll_answer P c sec t k) = true ->
     fst (awaitCompletion P py_str w fuel project zone op_name poll_sec t) =
       Ret (poller_result w (reply_body (poll_answer P c sec t k)))).
Proof.
  intros c sec Hp Hf. split.
  - intros payload He. rewrite awaitCompletion_poll_loop.
    now apply poll_loop_fails.
  - intros Hd. rewrite awaitCompletion_poll_loop.
    unfold c, sec. now rewrite (poll_loop_completes P _ _ _ _ k fuel t).
Qed.

(** An operation that ends with a quota error, awaited by part2's zone
    loop: the exception carries the payload itself. *)
Lemma awaitCompletion_surfaces_error_witness :
  fst (awaitCompletion (Fake.cloud failing) (fun _ => "") Part2Zone 5
         "proj" "us-west1-b" (JStr "operation-1") 1.5%float []) =
  Raise (RuntimeError quota_error).
Proof.
  refine (f_equal fst
            (proj1 (awaitCompletion_surfaces_error (Fake.cloud failing) (fun _ => "")
                      Part2Zone "proj" "us-west1-b" (JStr "operation-1") 1.5%float
                      2 5 [] _ _) quota_error _)).
  - intros j Hj. destruct j as [| [| j]]; [reflexivity | reflexivity | lia].
  - lia.
  - reflexivity.
Defined.

(** C3, as stated, fails on part3.py: the operation is DONE with
    [quota_error] attached at the third fetch, and whatever [str()] is, the
    argument of the exception is a string and not that payload. *)
Lemma part3_error_is_not_the_payload :
  op_done_error
    (poll_answer (Fake.cloud failing)
       (ZoneOperationsGet "proj" "us-west1-b" (JStr "operation-1")) 2%float [] 2) =
    Some quota_error /\
  ~ exists py_str : json -> string,
      fst (Part3.wait_for_zone_op (Fake.cloud failing) py_str 5
             "proj" "us-west1-b" (JStr "operation-1") []) =
      Raise (RuntimeError quota_error).
Proof.
  split; [reflexivity |].
  intros [py_str H]. cbn in H. discriminate H.
Qed.

(** ** get_external_ip *)

Lemma index_0_cons {A} (x : A) (l : list A) : index (x :: l) 0 = Some x.
Proof. reflexivity. Qed.

Lemma index_0_nil {A} : index (@nil A) 0 = None.
Proof. reflexivity. Qed.

Lemma get_external_ip_first_nat_address (inst : json) :
  Part1.get_external_ip inst =
    match first_nat_address inst with
    | Some ip => ip
    | None => JNull
    end.
Proof.
  unfold Part1.get_external_ip, Part1.external_ip_path, first_nat_address.
  destruct inst as [| b | z | f | s | l | kv]; try reflexivity.
  cbn [getitem_str res_bind].
  destruct (lookup "networkInterfaces" kv) as [nics |]; [| reflexivity].
  cbn [res_bind].
  destruct nics as [| b | z | f | s | l | kv']; try reflexivity.
  + cbn [getitem_int]. destruct (index (chars s) 0); reflexivity.
  + destruct l as [| nic l]; [reflexivity |].
    cbn [getitem_int]. rewrite index_0_cons. cbn [res_bind].
    destruct nic as [| b | z | f | s | l' | nic]; try reflexivity.
    cbn [getitem_str].
    destruct (lookup "accessConfigs" nic) as [acs |]; [| reflexivity].
    cbn [res_bind].
    destruct acs as [| b | z | f | s | l' | kv']; try reflexivity.
    * cbn [getitem_int]. destruct (index (chars s) 0); reflexivity.
    * destruct l' as [| ac l']; [reflexivity |].
      cbn [getitem_int]. rewrite index_0_cons. cbn [res_bind].
      destruct ac as [| b | z | f | s | l'' | ac]; try reflexivity.
      cbn [getitem_str]. destruct (lookup "natIP" ac); reflexivity.
Qed.

(** C10.  [get_external_ip] is a total function of the description: for an
    input of any shape its result is the NAT address of the first access
    config of the first network interface when every field on that path is
    present, and [None] otherwise; every exception the path raises (a
    missing key, an empty list, a value that cannot be indexed) ends as
    [None]. *)
Theorem get_external_ip_total (inst : json) :
  Part1.get_external_ip inst =
    match first_nat_address inst with
    | Some ip => ip
    | None => JNull
    end /\
  (forall e, Part1.external_ip_path inst = Exn e -> Part1.get_external_ip inst = JNull).
Proof.
  split.
  - apply get_external_ip_first_nat_address.
  - intros e H. unfold Part1.get_external_ip. now rewrite H.
Qed.

(** ** The readiness wait of part1 *)

Lemma falsy_no_nat_address (inst : json) :
  truthy inst = false -> first_nat_address inst = None.
Proof.
  destruct inst as [| b | z | f | s | l | kv]; try reflexivity.
  destruct kv; [reflexivity | discriminate].
Qed.

(** The value of [ip] in one round of the loop. *)
Lemma round_ip (inst : json) :
  truthy (if truthy inst then Part1.get_external_ip inst else JNull) = true ->
  yields_address (Reply inst) =
    Some (if truthy inst then Part1.get_external_ip inst else JNull).
Proof.
  destruct (truthy inst) eqn:Hi; [| discriminate].
  rewrite get_external_ip_first_nat_address. cbn [yields_address].
  destruct (first_nat_address inst) as [ip |]; [| discriminate].
  now intros ->.
Qed.

Lemma round_no_ip (inst : json) :
  truthy (if truthy inst then Part1.get_external_ip inst else JNull) = false ->
  yields_address (Reply inst) = None.
Proof.
  cbn [yields_address]. destruct (truthy inst) eqn:Hi.
  - rewrite get_external_ip_first_nat_address.
    destruct (first_nat_address inst) as [ip |]; [| reflexivity].
    now intros ->.
  - now rewrite falsy_no_nat_address.
Qed.

Section Readiness.
Variable P : provider.
Variables project zone instance : string.
Let c := InstancesGet project zone instance.

Lemma wait_external_ip_round (n : nat) (t : trace) :
  no_address_yet (api P t c) = true ->
  Part1.wait_external_ip P (S n) project zone instance t =
  Part1.wait_external_ip P n project zone instance
    (t ++ [EvApi c (api P t c); EvSleep 2%float]).
Proof.
  intros Hn. cbn [Part1.wait_external_ip].
  unfold bind at 1, Part1.instance_get, try_except, execute. fold c.
  destruct (api P t c) as [inst | e].
  - destruct (truthy (if truthy inst then Part1.get_external_ip inst else JNull))
      eqn:Hip.
    + apply round_ip in Hip. cbn in Hn. cbn in Hip. rewrite Hip in Hn. discriminate.
    + unfold bind, time_sleep. now rewrite <- app_assoc.
  - destruct e as [status | | | | | |]; try discriminate.
    cbn in Hn. cbn. rewrite Hn. cbn.
    unfold bind, time_sleep. now rewrite <- app_assoc.
Qed.

Lemma wait_external_ip_found (n : nat) (t : trace) (ip : json) :
  yields_address (api P t c) = Some ip ->
  Part1.wait_external_ip P (S n) project zone instance t =
  (Ret (Some ip), t ++ [EvApi c (api P t c)]).
Proof.
  intros Hy. cbn [Part1.wait_external_ip].
  unfold bind at 1, Part1.instance_get, try_except, execute. fold c.
  destruct (api P t c) as [inst | e]; [| discriminate].
  destruct (truthy (if truthy inst then Part1.get_external_ip inst else JNull))
    eqn:Hip.
  - apply round_ip in Hip. rewrite Hip in Hy. now injection Hy as ->.
  - apply round_no_ip in Hip. rewrite Hip in Hy. discriminate.
Qed.

Lemma wait_external_ip_skip (k n : nat) :
  forall t,
    no_address_for P c t k ->
    Part1.wait_external_ip P (k + n) project zone instance t =
    Part1.wait_external_ip P n project zone instance (poll_history P c 2%float t k).
Proof.
  induction k as [| k IH]; intros t Hn; [reflexivity |].
  change (S k + n)%nat with (S (k + n)).
  rewrite wait_external_ip_round by (apply (Hn 0%nat); lia).
  cbn [poll_history]. apply IH.
  intros j Hj. apply (Hn (S j)). lia.
Qed.

Lemma wait_for_external_ip_times_out (n : nat) (t : trace) :
  no_address_for P c t n ->
  Part1.wait_for_external_ip P n project zone instance t =
  (Raise (RuntimeError (JStr timeout_text)), poll_history P c 2%float t n).
Proof.
  intros Hn. unfold Part1.wait_for_external_ip, bind.
  replace n with (n + 0)%nat at 1 by lia.
  now rewrite wait_external_ip_skip.
Qed.

Lemma wait_for_external_ip_returns (n k : nat) (t : trace) (ip : json) :
  (k < n)%nat ->
  no_address_for P c t k ->
  yields_address (poll_answer P c 2%float t k) = Some ip ->
  Part1.wait_for_external_ip P n project zone instance t =
  (Ret ip, poll_history P c 2%float t k ++ [EvApi c (poll_answer P c 2%float t k)]).
Proof.
  intros Hk Hn Hy. unfold Part1.wait_for_external_ip, bind.
  replace n with (k + S (n - S k))%nat by lia.
  rewrite wait_external_ip_skip by assumption.
  now rewrite (wait_external_ip_found _ _ ip).
Qed.
End Readiness.

(** C5 (as amended).  The readiness wait of [main] with a budget of [n]
    attempts ([main] uses 80).  If none of the [n] lookups yields an
    address, it makes exactly [n] lookups and raises
    [RuntimeError("Timed out waiting for external IP")], an exception of
    the class a failed operation raises too.  If the first [k] lookups
    yield none (the instance is missing, or a field on the way to the
    address is absent or empty) and the next one, within the budget, yields
    [ip], it returns [ip] after exactly [k + 1] lookups. *)
Theorem wait_for_external_ip_bounded (P : provider) (project zone instance : string)
    (n : nat) (t : trace) :
  let c := InstancesGet project zone instance in
  (no_address_for P c t n ->
     Part1.wait_for_external_ip P n project zone instance t =
       (Raise (RuntimeError (JStr "Timed out waiting for external IP")),
        poll_history P c 2%float t n) /\
     calls_of (poll_history P c 2%float t n) = calls_of t ++ repeat c n) /\
  (forall k ip,
     (k < n)%nat ->
     no_address_for P c t k ->
     yields_address (poll_answer P c 2%float t k) = Some ip ->
     Part1.wait_for_external_ip P n project zone instance t =
       (Ret ip, poll_history P c 2%float t k ++ [EvApi c (poll_answer P c 2%float t k)]) /\
     calls_of (poll_history P c 2%float t k ++ [EvApi c (poll_answer P c 2%float t k)]) =
       calls_of t ++ repeat c (S k)).
Proof.
  intros c. split.
  - intros Hn. split.
    + now apply wait_for_external_ip_times_out.
    + apply calls_of_poll_history.
  - intros k ip Hk Hn Hy. split.
    + now apply wait_for_external_ip_returns.
    + apply (calls_of_poll_end P c 2%float k t).
Qed.

(** An address that shows on the third lookup is returned after three
    lookups, with a budget of five. *)
Lemma wait_for_external_ip_bounded_witness :
  Part1.wait_for_external_ip (Fake.cloud Fake.healthy) 5 "proj" "us-west1-b" "flask-vm" [] =
    (Ret (JStr "203.0.113.7"),
     [EvApi (InstancesGet "proj" "us-west1-b" "flask-vm")
        (Reply (Fake.instance_description "flask-vm" false true));
      EvSleep 2%float;
      EvApi (InstancesGet "proj" "us-west1-b" "flask-vm")
        (Reply (Fake.instance_description "flask-vm" false true));
      EvSleep 2%float;
      EvApi (InstancesGet "proj" "us-west1-b" "flask-vm")
        (Reply (Fake.instance_description "flask-vm" true true))]) /\
  fst (Part1.wait_for_external_ip (Fake.cloud confusing) 5 "proj" "us-west1-b" "ghost" []) =
    Raise (RuntimeError (JStr "Timed out waiting for external IP")).
Proof.
  split.
  - refine (proj1 (proj2 (wait_for_external_ip_bounded (Fake.cloud Fake.healthy)
                            "proj" "us-west1-b" "flask-vm" 5 [])
                     2%nat (JStr "203.0.113.7") _ _ _)).
    + lia.
    + intros j Hj. destruct j as [| [| j]]; [reflexivity | reflexivity | lia].
    + reflexivity.
  - refine (f_equal fst
              (proj1 (proj1 (wait_for_external_ip_bounded (Fake.cloud confusing)
                               "proj" "us-west1-b" "ghost" 5 []) _))).
    intros j Hj.
    destruct j as [| [| [| [| [| j]]]]]; try reflexivity. lia.
Defined.

(** C5, as stated, fails: the timeout is not an error distinct from a
    failed operation.  Both are [RuntimeError]; for an operation whose error
    payload is the text of the timeout, the two exceptions are the same. *)
Lemma timeout_not_distinct_from_operation_failed :
  exists e : exn,
    fst (Part1.wait_for_external_ip (Fake.cloud confusing) 5
           "proj" "us-west1-b" "ghost" []) = Raise e /\
    fst (Part1.wait_for_zone_op (Fake.cloud confusing) 5
           "proj" "us-west1-b" (JStr "operation-1") 1.5%float []) = Raise e.
Proof.
  exists (RuntimeError (JStr timeout_text)). split; reflexivity.
Qed.

(** ** The base instance of part2 *)

Lemma find_boot_disk_none (ds : list json) :
  existsb marked_boot ds = false ->
  (forallb is_dict ds = true /\ Part2.find_boot_disk ds = Val JNull) \/
  (forallb is_dict ds = false /\ exists e, Part2.find_boot_disk ds = Exn e).
Proof.
  induction ds as [| d ds IH]; intros H; [now left |].
  cbn [existsb] in H. apply orb_false_elim in H as [Hd Hds].
  specialize (IH Hds). cbn [Part2.find_boot_disk forallb].
  destruct d as [| b | z | f | s | l | kv];
    try (right; split; [reflexivity | now exists AttributeError]).
  unfold marked_boot in Hd. cbn [field] in Hd.
  cbn [get res_bind is_dict andb]. rewrite Hd. exact IH.
Qed.

Lemma find_boot_disk_strings (ws : list string) :
  Part2.find_boot_disk (map JStr ws) = Val JNull \/
  Part2.find_boot_disk (map JStr ws) = Exn AttributeError.
Proof. destruct ws; [now left | now right]. Qed.

Lemma no_boot_disk_raises (P : provider) (fuel : nat) (project zone base : string)
    (t : trace) (inst : json) :
  let c := InstancesGet project zone base in
  api P t c = Reply inst ->
  existsb marked_boot (disk_list inst) = false ->
  exists e,
    Part2.create_snapshot_from_instance_boot_disk P fuel project zone base t =
      (Raise e, t ++ [EvApi c (Reply inst)]) /\
    (well_described inst = true ->
     e = RuntimeError (JStr "Could not find boot disk on instance")).
Proof.
  intros c Hget Hboot.
  unfold Part2.create_snapshot_from_instance_boot_disk, Part2.instance_get.
  rewrite (bind_step _ _ _ _ _ (execute_reply P c t inst Hget)).
  destruct inst as [| b | z | f | s | l | kv];
    try (exists AttributeError; split; [reflexivity | discriminate]).
  cbn [get lift]. rewrite bind_ret_l.
  cbn [disk_list well_described] in *.
  destruct (lookup "disks" kv) as [disks |].
  - destruct disks as [| b | z | f | s | ds | kv'];
      try (exists TypeError; split; [reflexivity | discriminate]).
    + cbn [iter lift]. rewrite bind_ret_l.
      destruct (find_boot_disk_strings (chars s)) as [-> | ->].
      * eexists; split; [reflexivity | discriminate].
      * eexists; split; [reflexivity | discriminate].
    + cbn [iter lift]. rewrite bind_ret_l.
      destruct (find_boot_disk_none ds Hboot) as [[Hd ->] | [Hd [e ->]]].
      * eexists; split; [reflexivity | reflexivity].
      * exists e; split; [reflexivity | ]. intros H. congruence.
    + cbn [iter lift]. rewrite bind_ret_l.
      rewrite <- (map_map fst JStr).
      destruct (find_boot_disk_strings (map fst kv')) as [-> | ->].
      * eexists; split; [reflexivity | discriminate].
      * eexists; split; [reflexivity | discriminate].
  - eexists; split; [reflexivity | reflexivity].
Qed.

Lemma base_lookup_failure_propagates (P : provider) (fuel : nat)
    (project zone base : string) (t : trace) (e : exn) :
  let c := InstancesGet project zone base in
  api P t c = Fault e ->
  Part2.create_snapshot_from_instance_boot_disk P fuel project zone base t =
    (Raise e, t ++ [EvApi c (Fault e)]).
Proof.
  intros c Hget.
  unfold Part2.create_snapshot_from_instance_boot_disk, Part2.instance_get.
  now rewrite (bind_raise _ _ _ _ _ (execute_fault P c t e Hget)).
Qed.

(** C9.  When the description of the base instance has no disk marked as
    boot disk, [create_snapshot_from_instance_boot_disk] raises, and the
    lookup of the instance is the only request it has made: no snapshot
    lookup, no snapshot creation.  For a description of the usual shape the
    exception is [RuntimeError("Could not find boot disk on instance")].
    When the lookup of the base instance itself fails, with 404 as with any
    other failure, that exception leaves the function unchanged and nothing
    else is requested. *)
Theorem snapshot_needs_base_boot_disk (P : provider) (fuel : nat)
    (project zone base : string) (t : trace) :
  let c := InstancesGet project zone base in
  (forall inst,
     api P t c = Reply inst ->
     existsb marked_boot (disk_list inst) = false ->
     exists e,
       Part2.create_snapshot_from_instance_boot_disk P fuel project zone base t =
         (Raise e, t ++ [EvApi c (Reply inst)]) /\
       (well_described inst = true ->
        e = RuntimeError (JStr "Could not find boot disk on instance"))) /\
  (forall e,
     api P t c = Fault e ->
     Part2.create_snapshot_from_instance_boot_disk P fuel project zone base t =
       (Raise e, t ++ [EvApi c (Fault e)])).
Proof.
  intros c. split.
  - intros inst. apply no_boot_disk_raises.
  - intros e. apply base_lookup_failure_propagates.
Qed.

(** A base instance without boot disk, and a base instance that is not
    there. *)
Lemma snapshot_needs_base_boot_disk_witness :
  (exists e,
     Part2.create_snapshot_from_instance_boot_disk (Fake.cloud bootless) 5
       "proj" "us-west1-b" "flask-vm" [] =
     (Raise e,
      [EvApi (InstancesGet "proj" "us-west1-b" "flask-vm")
         (Reply (Fake.instance_description "flask-vm" true false))]) /\
     (well_described (Fake.instance_description "flask-vm" true false) = true ->
      e = RuntimeError (JStr "Could not find boot disk on instance"))) /\
  Part2.create_snapshot_from_instance_boot_disk (Fake.cloud bootless) 5
    "proj" "us-west1-b" "ghost" [] =
  (Raise (HttpError 404),
   [EvApi (InstancesGet "proj" "us-west1-b" "ghost") (Fault (HttpError 404))]).
Proof.
  split.
  - refine (proj1 (snapshot_needs_base_boot_disk (Fake.cloud bootless) 5
                     "proj" "us-west1-b" "flask-vm" [])
              (Fake.instance_description "flask-vm" true false) _ _);
      reflexivity.
  - refine (proj2 (snapshot_needs_base_boot_disk (Fake.cloud bootless) 5
                     "proj" "us-west1-b" "ghost" [])
              (HttpError 404) _).
    reflexivity.
Defined.

(** ** What a run adds to the trace *)

Section Emits.
Variable ok : event -> Prop.

Lemma emits_ret {A} (a : A) : emits ok (ret a).
Proof. intros t. exists []. now rewrite app_nil_r. Qed.

Lemma emits_raise {A} (e : exn) : emits ok (@raise A e).
Proof. intros t. exists []. now rewrite app_nil_r. Qed.

Lemma emits_out_of_fuel {A} : emits ok (@out_of_fuel A).
Proof. intros t. exists []. now rewrite app_nil_r. Qed.

Lemma emits_lift {A} (r : res A) : emits ok (lift r).
Proof. destruct r; [apply emits_ret | apply emits_raise]. Qed.

Lemma emits_bind {A B} (m : M A) (k : A -> M B) :
  emits ok m -> (forall a, emits ok (k a)) -> emits ok (bind m k).
Proof.
  intros Hm Hk t. destruct (Hm t) as [e1 [H1 F1]]. unfold bind.
  destruct (m t) as [[a | e | ] t1]; cbn [snd] in H1; subst t1.
  - destruct (Hk a (t ++ e1)) as [e2 [H2 F2]].
    exists (e1 ++ e2). rewrite H2, app_assoc. split; [reflexivity |].
    apply Forall_app. now split.
  - now exists e1.
  - now exists e1.
Qed.

Lemma emits_try_except {A} (m : M A) (handles : exn -> bool) (h : exn -> M A) :
  emits ok m -> (forall e, emits ok (h e)) -> emits ok (try_except m handles h).
Proof.
  intros Hm Hh t. destruct (Hm t) as [e1 [H1 F1]]. unfold try_except.
  destruct (m t) as [[a | e | ] t1]; cbn [snd] in H1; subst t1.
  - now exists e1.
  - destruct (handles e).
    + destruct (Hh e (t ++ e1)) as [e2 [H2 F2]].
      exists (e1 ++ e2). rewrite H2, app_assoc. split; [reflexivity |].
      apply Forall_app. now split.
    + now exists e1.
  - now exists e1.
Qed.

Lemma emits_execute (P : provider) (c : call) :
  (forall r, ok (EvApi c r)) -> emits ok (execute P c).
Proof.
  intros Hc t. exists [EvApi c (api P t c)]. split; [reflexivity |].
  constructor; [apply Hc | constructor].
Qed.

Lemma emits_time_sleep (sec : float) :
  ok (EvSleep sec) -> emits ok (time_sleep sec).
Proof.
  intros Hs t. exists [EvSleep sec]. split; [reflexivity |].
  constructor; [exact Hs | constructor].
Qed.

Lemma emits_time_perf_counter (P : provider) :
  (forall now, ok (EvClock now)) -> emits ok (time_perf_counter P).
Proof.
  intros Hs t. exists [EvClock (perf_counter P t)]. split; [reflexivity |].
  constructor; [apply Hs | constructor].
Qed.

Lemma emits_on_404 {A} (absent : A) (e : exn) : emits ok (Part1.on_404 absent e).
Proof.
  destruct e; try apply emits_raise.
  cbn. destruct (status =? 404); [apply emits_ret | apply emits_raise].
Qed.

Lemma emits_poll_loop (P : provider) {A} c sec wrap (result : json -> A) :
  (forall r, ok (EvApi c r)) -> ok (EvSleep sec) ->
  forall fuel, emits ok (poll_loop P c sec wrap result fuel).
Proof.
  intros Hc Hs fuel. induction fuel as [| fuel IH]; [apply emits_out_of_fuel |].
  cbn [poll_loop].
  apply emits_bind; [now apply emits_execute | intros op].
  apply emits_bind; [apply emits_lift | intros status].
  destruct (eq_str status "DONE").
  - apply emits_bind; [apply emits_lift | intros [|]].
    + apply emits_bind; [apply emits_lift | intros err]. apply emits_raise.
    + apply emits_ret.
  - apply emits_bind; [now apply emits_time_sleep | intros _]. exact IH.
Qed.

Lemma emits_ext {A} (m m' : M A) :
  (forall t, m t = m' t) -> emits ok m' -> emits ok m.
Proof. intros E H t. rewrite E. apply H. Qed.
End Emits.

Lemma emits_weaken {A} (ok ok' : event -> Prop) (m : M A) :
  (forall ev, ok ev -> ok' ev) -> emits ok m -> emits ok' m.
Proof.
  intros Hw Hm t. destruct (Hm t) as [evs [H F]]. exists evs. split; [exact H |].
  eapply Forall_impl; eauto.
Qed.

Lemma bind_assoc {A B C} (m : M A) (f : A -> M B) (g : B -> M C) (t : trace) :
  bind (bind m f) g t = bind m (fun a => bind (f a) g) t.
Proof. unfold bind. destruct (m t) as [[a | e | ] t']; reflexivity. Qed.

Lemma bind_congr {A B} (m m' : M A) (k : A -> M B) (t t' : trace) :
  m t = m' t' -> bind m k t = bind m' k t'.
Proof. intros H. unfold bind. now rewrite H. Qed.

Lemma try_except_ret {A} (m : M A) handles h (t t' : trace) (a : A) :
  m t = (Ret a, t') -> try_except m handles h t = (Ret a, t').
Proof. intros H. unfold try_except. now rewrite H. Qed.

Lemma try_except_caught {A} (m : M A) handles h (t t' : trace) (e : exn) :
  m t = (Raise e, t') -> handles e = true -> try_except m handles h t = h e t'.
Proof. intros H He. unfold try_except. now rewrite H, He. Qed.

Lemma try_except_passed {A} (m : M A) handles h (t t' : trace) (e : exn) :
  m t = (Raise e, t') -> handles e = false -> try_except m handles h t = (Raise e, t').
Proof. intros H He. unfold try_except. now rewrite H, He. Qed.

Section EmitsLoops.
Variable ok : event -> Prop.
Variable P : provider.

Lemma emits_part1_wait_for_zone_op fuel project zone op_name poll_sec :
  (forall r, ok (EvApi (ZoneOperationsGet project zone op_name) r)) ->
  ok (EvSleep poll_sec) ->
  emits ok (Part1.wait_for_zone_op P fuel project zone op_name poll_sec).
Proof.
  intros. eapply emits_ext; [intros; apply part1_wait_for_zone_op_poll |].
  now apply emits_poll_loop.
Qed.

Lemma emits_part1_wait_for_global_op fuel project op_name poll_sec :
  (forall r, ok (EvApi (GlobalOperationsGet project op_name) r)) ->
  ok (EvSleep poll_sec) ->
  emits ok (Part1.wait_for_global_op P fuel project op_name poll_sec).
Proof.
  intros. eapply emits_ext; [intros; apply part1_wait_for_global_op_poll |].
  now apply emits_poll_loop.
Qed.

Lemma emits_part2_wait_for_zone_op fuel project zone op_name poll_sec :
  (forall r, ok (EvApi (ZoneOperationsGet project zone op_name) r)) ->
  ok (EvSleep poll_sec) ->
  emits ok (Part2.wait_for_zone_op P fuel project zone op_name poll_sec).
Proof.
  intros. eapply emits_ext; [intros; apply part2_wait_for_zone_op_poll |].
  now apply emits_poll_loop.
Qed.

Lemma emits_part3_wait_for_zone_op py_str fuel project zone op_name :
  (forall r, ok (EvApi (ZoneOperationsGet project zone op_name) r)) ->
  ok (EvSleep 2%float) ->
  emits ok (Part3.wait_for_zone_op P py_str fuel project zone op_name).
Proof.
  intros. eapply emits_ext; [intros; apply part3_wait_for_zone_op_poll |].
  now apply emits_poll_loop.
Qed.

Lemma emits_vm1_wait_for_zone_op py_str fuel project zone op_name :
  (forall r, ok (EvApi (ZoneOperationsGet project zone op_name) r)) ->
  ok (EvSleep 2%float) ->
  emits ok (Vm1LaunchVm2.wait_for_zone_op P py_str fuel project zone op_name).
Proof.
  intros. eapply emits_ext; [intros; apply vm1_wait_for_zone_op_poll |].
  now apply emits_poll_loop.
Qed.

Lemma emits_vm1_wait_firewall_op py_str fuel project op_name :
  (forall r, ok (EvApi (GlobalOperationsGet project op_name) r)) ->
  ok (EvSleep 2%float) ->
  emits ok (Vm1LaunchVm2.wait_firewall_op P py_str fuel project op_name).
Proof.
  intros. eapply emits_ext; [intros; apply vm1_wait_firewall_op_poll |].
  now apply emits_poll_loop.
Qed.
End EmitsLoops.

(** Breaks a run into its statements; the side conditions on the events
    are left to [auto]. *)
Ltac emits_steps :=
  repeat first
    [ apply emits_ret
    | apply emits_raise
    | apply emits_out_of_fuel
    | apply emits_lift
    | apply emits_on_404
    | apply emits_execute; intros; cbn; auto
    | apply emits_time_sleep; cbn; auto
    | apply emits_time_perf_counter; intros; cbn; auto
    | apply emits_part1_wait_for_zone_op; intros; cbn; auto
    | apply emits_part1_wait_for_global_op; intros; cbn; auto
    | apply emits_part2_wait_for_zone_op; intros; cbn; auto
    | apply emits_part3_wait_for_zone_op; intros; cbn; auto
    | apply emits_vm1_wait_for_zone_op; intros; cbn; auto
    | apply emits_vm1_wait_firewall_op; intros; cbn; auto
    | apply emits_try_except; [| intros ?]
    | apply emits_bind; [| intros ?]
    | match goal with
      | |- emits _ (if ?b then _ else _) => destruct b
      | |- emits _ (match ?x with _ => _ end) => destruct x
      end ].


(** ** Lookups: 404 and the other failures *)

Section Lookups.
Variable P : provider.

(** The [try]/[except HttpError] of the lookups of part1 and part2. *)
Lemma lookup_404_only {A} (c : call) (found : json -> A) (absent : A) (t : trace) :
  try_except (x <- execute P c ;; ret (found x)) is_HttpError (Part1.on_404 absent) t =
  (match api P t c with
   | Reply d => Ret (found d)
   | Fault (HttpError status) => if status =? 404 then Ret absent
                                 else Raise (HttpError status)
   | Fault e => Raise e
   end, t ++ [EvApi c (api P t c)]).
Proof.
  unfold try_except, bind, execute.
  destruct (api P t c) as [d | e]; [reflexivity |].
  destruct e as [status | | | | | |]; try reflexivity.
  cbn. destruct (status =? 404); reflexivity.
Qed.

Lemma firewall_exists_run project name t :
  Part1.firewall_exists P project name t =
  (match api P t (FirewallsGet project name) with
   | Reply d => Ret true
   | Fault (HttpError status) => if status =? 404 then Ret false
                                 else Raise (HttpError status)
   | Fault e => Raise e
   end, t ++ [EvApi (FirewallsGet project name) (api P t (FirewallsGet project name))]).
Proof. apply (lookup_404_only _ (fun _ => true) false). Qed.

Lemma instance_exists_run project zone name t :
  Part2.instance_exists P project zone name t =
  (match api P t (InstancesGet project zone name) with
   | Reply d => Ret true
   | Fault (HttpError status) => if status =? 404 then Ret false
                                 else Raise (HttpError status)
   | Fault e => Raise e
   end,
   t ++ [EvApi (InstancesGet project zone name)
           (api P t (InstancesGet project zone name))]).
Proof. apply (lookup_404_only _ (fun _ => true) false). Qed.

Lemma part1_instance_get_run project zone name t :
  Part1.instance_get P project zone name t =
  (match api P t (InstancesGet project zone name) with
   | Reply d => Ret d
   | Fault (HttpError status) => if status =? 404 then Ret JNull
                                 else Raise (HttpError status)
   | Fault e => Raise e
   end,
   t ++ [EvApi (InstancesGet project zone name)
           (api P t (InstancesGet project zone name))]).
Proof.
  rewrite <- (lookup_404_only _ (fun d => d) JNull).
  unfold Part1.instance_get, try_except, bind, execute.
  destruct (api P t (InstancesGet project zone name)); reflexivity.
Qed.

Lemma snapshot_get_run project name t :
  Part2.snapshot_get P project name t =
  (match api P t (SnapshotsGet project name) with
   | Reply d => Ret d
   | Fault (HttpError status) => if status =? 404 then Ret JNull
                                 else Raise (HttpError status)
   | Fault e => Raise e
   end,
   t ++ [EvApi (SnapshotsGet project name) (api P t (SnapshotsGet project name))]).
Proof.
  rewrite <- (lookup_404_only _ (fun d => d) JNull).
  unfold Part2.snapshot_get, try_except, bind, execute.
  destruct (api P t (SnapshotsGet project name)); reflexivity.
Qed.
End Lookups.

(** In part1 and part2 a lookup failure other than 404 leaves the ensure
    function unchanged, and no insert is issued. *)
Lemma ensure_lookup_failure_propagates (P : provider) (fuel : nat)
    (project zone name snapshot_name machine_type : string) (t : trace) (e : exn) :
  not_404 e = true ->
  (api P t (FirewallsGet project name) = Fault e ->
   Part1.ensure_firewall_allow_5000 P fuel project name t =
     (Raise e, t ++ [EvApi (FirewallsGet project name) (Fault e)])) /\
  (api P t (InstancesGet project zone name) = Fault e ->
   Part2.create_instance_from_snapshot P fuel project zone name snapshot_name
     machine_type t =
     (Raise e, t ++ [EvApi (InstancesGet project zone name) (Fault e)])).
Proof.
  intros He. split; intros Hf.
  - unfold Part1.ensure_firewall_allow_5000, bind.
    rewrite firewall_exists_run, Hf.
    destruct e as [status | | | | | |]; try reflexivity.
    cbn in He. apply negb_true_iff in He. now rewrite He.
  - unfold Part2.create_instance_from_snapshot, bind.
    rewrite instance_exists_run, Hf.
    destruct e as [status | | | | | |]; try reflexivity.
    cbn in He. apply negb_true_iff in He. now rewrite He.
Qed.

(** ** vm1-launch-vm2.py: the firewall lookup *)

Lemma emits_anything_vm1_rest (P : provider) py_str fuel project config :
  emits (fun _ => True)
    (op <- execute P (InstancesInsert project Vm1LaunchVm2.ZONE config) ;;
     op_name <- lift (getitem_str op "name") ;;
     Vm1LaunchVm2.wait_for_zone_op P py_str fuel project Vm1LaunchVm2.ZONE op_name ;;;
     inst <- execute P (InstancesGet project Vm1LaunchVm2.ZONE Vm1LaunchVm2.VM2_NAME) ;;
     nics <- lift (getitem_str inst "networkInterfaces") ;;
     nic <- lift (getitem_int nics 0) ;;
     acs <- lift (get nic "accessConfigs" (JList [JDict []])) ;;
     ac <- lift (getitem_int acs 0) ;;
     lift (get ac "natIP" (JStr "<no external ip>"))).
Proof.
  apply emits_bind; [apply emits_execute; auto | intros op].
  apply emits_bind; [apply emits_lift | intros op_name].
  apply emits_bind; [apply emits_vm1_wait_for_zone_op; auto | intros _].
  emits_steps.
Qed.

(** C2, where the code departs from it.  In [main] of vm1-launch-vm2.py the
    lookup of the firewall sits under [except Exception]: whatever exception
    [e] the lookup raises (403, 401, a transport failure, as well as 404),
    the next request of the run is the insert of the firewall.  The failure
    is treated as absence and never reaches the caller. *)
Theorem vm1_lookup_failure_triggers_create (P : provider) (py_str : json -> string)
    (fuel : nat) (project vm2_startup : string) (t : trace) (image link : json)
    (e : exn) :
  let family := ImagesGetFromFamily Vm1LaunchVm2.SOURCE_IMAGE_PROJECT
                  Vm1LaunchVm2.SOURCE_IMAGE_FAMILY in
  let lookup_fw := FirewallsGet project "allow-5001" in
  let insert_fw := FirewallsInsert project (Vm1LaunchVm2.firewall_body "allow-5001") in
  let t1 := t ++ [EvApi family (Reply image)] in
  let t2 := t1 ++ [EvApi lookup_fw (Fault e)] in
  (project =? "")%string = false ->
  api P t family = Reply image ->
  getitem_str image "selfLink" = Val link ->
  api P t1 lookup_fw = Fault e ->
  exists rest,
    snd (Vm1LaunchVm2.main P py_str fuel (Some project) vm2_startup t) =
    t2 ++ EvApi insert_fw (api P t2 insert_fw) :: rest.
Proof.
  intros family lookup_fw insert_fw t1 t2 Hproject Himage Hlink Hlookup.
  unfold Vm1LaunchVm2.main. rewrite Hproject.
  rewrite (bind_step _ _ _ _ _ (execute_reply P family t image Himage)).
  rewrite Hlink. cbn [lift]. rewrite bind_ret_l. fold t1.
  erewrite bind_congr.
  2:{ apply try_except_caught; [| reflexivity].
      apply bind_raise. apply (execute_fault P lookup_fw t1 e Hlookup). }
  fold t2. rewrite bind_assoc.
  unfold bind at 1, execute at 1. fold insert_fw.
  destruct (api P t2 insert_fw) as [op | e'].
  - match goal with
    | |- exists rest, snd (?m ?t0) = _ =>
        assert (Hm : emits (fun _ => True) m)
    end.
    { apply emits_bind; [| intros _; apply emits_anything_vm1_rest].
      apply emits_bind; [apply emits_lift | intros op_name].
      apply emits_vm1_wait_firewall_op; auto. }
    destruct (Hm (t2 ++ [EvApi insert_fw (Reply op)])) as [evs [Hevs _]].
    exists evs. rewrite Hevs. now rewrite <- app_assoc.
  - exists []. reflexivity.
Qed.

(** A provider that answers the firewall lookup with 403: the run goes on
    to insert the firewall, polls its operation, and creates the instance. *)
Lemma vm1_lookup_failure_triggers_create_witness :
  exists rest,
    snd (Vm1LaunchVm2.main (Fake.cloud denied) (fun _ => "") 5 (Some "proj") "#!/bin/bash" []) =
    [EvApi (ImagesGetFromFamily "ubuntu-os-cloud" "ubuntu-2204-lts")
       (Reply (JDict [("selfLink",
                       JStr "projects/ubuntu-os-cloud/global/images/ubuntu-2204-lts")]));
     EvApi (FirewallsGet "proj" "allow-5001") (Fault (HttpError 403))] ++
    EvApi (FirewallsInsert "proj" (Vm1LaunchVm2.firewall_body "allow-5001"))
      (Reply (JDict [("name", JStr "operation-1"); ("status", JStr "PENDING")])) :: rest.
Proof.
  refine (vm1_lookup_failure_triggers_create (Fake.cloud denied) (fun _ => "") 5
            "proj" "#!/bin/bash" []
            (JDict [("selfLink",
                     JStr "projects/ubuntu-os-cloud/global/images/ubuntu-2204-lts")])
            (JStr "projects/ubuntu-os-cloud/global/images/ubuntu-2204-lts")
            (HttpError 403) _ _ _ _); reflexivity.
Defined.

(** ** The clones of part2 *)

Lemma range_from_1 (count : Z) :
  range 1 (count + 1) = map Z.of_nat (seq 1 (Z.to_nat count)).
Proof.
  unfold range. replace (count + 1 - 1) with count by lia.
  rewrite <- seq_shift, map_map. apply map_ext. intros j. lia.
Qed.

Lemma lookups_of_app (t u : trace) : lookups_of (t ++ u) = lookups_of t ++ lookups_of u.
Proof. unfold lookups_of. now rewrite calls_of_app, filter_app. Qed.

Lemma lookups_of_quiet (evs : trace) :
  Forall not_instance_lookup evs -> lookups_of evs = [].
Proof.
  induction 1 as [| ev evs Hev _ IH]; [reflexivity |].
  destruct ev as [c r | s | n | p ts]; try exact IH.
  unfold lookups_of in *. cbn in *. now rewrite Hev.
Qed.

(** One call of [create_instance_from_snapshot]: the lookup of the name,
    then no other instance lookup. *)
Lemma create_instance_from_snapshot_lookup (P : provider) fuel project zone name
    snapshot_name machine_type (t : trace) :
  let c := InstancesGet project zone name in
  exists evs,
    snd (Part2.create_instance_from_snapshot P fuel project zone name snapshot_name
           machine_type t) = t ++ EvApi c (api P t c) :: evs /\
    Forall not_instance_lookup evs.
Proof.
  intros c. unfold Part2.create_instance_from_snapshot, bind at 1.
  rewrite instance_exists_run. fold c.
  match goal with
  | |- context [match ?o with Ret _ => _ | Raise _ => _ | OutOfFuel => _ end] =>
      destruct o as [[|] | e | ]
  end; try (exists []; split; [reflexivity | constructor]).
  match goal with
  | |- exists evs, snd (?m ?t0) = _ /\ _ =>
      assert (Hm : emits not_instance_lookup m)
  end.
  { apply emits_bind; [apply emits_time_perf_counter; intros; exact I | intros t0].
    apply emits_bind; [apply emits_execute; reflexivity | intros op].
    apply emits_bind; [apply emits_lift | intros op_name].
    apply emits_bind;
      [apply emits_part2_wait_for_zone_op; [reflexivity | exact I] | intros _].
    apply emits_bind; [apply emits_time_perf_counter; intros; exact I | intros t1].
    apply emits_ret. }
  destruct (Hm (t ++ [EvApi c (api P t c)])) as [evs [Hevs Hq]].
  exists evs. rewrite Hevs, <- app_assoc. now split.
Qed.

Lemma clone_loop_names (P : provider) fuel project zone base snapshot_name machine_type :
  forall indices times0 t times t',
    Part2.clone_loop P fuel project zone base snapshot_name machine_type indices
      times0 t = (Ret times, t') ->
    exists records evs,
      times = times0 ++ records /\
      map fst records = map (Part2.clone_name base) indices /\
      t' = t ++ evs /\
      lookups_of evs =
        map (fun i => InstancesGet project zone (Part2.clone_name base i)) indices.
Proof.
  induction indices as [| i rest IH]; intros times0 t times t' Hrun.
  - cbn in Hrun. injection Hrun as <- <-.
    exists [], []. now rewrite !app_nil_r.
  - cbn [Part2.clone_loop] in Hrun. unfold bind in Hrun.
    destruct (create_instance_from_snapshot_lookup P fuel project zone
                (Part2.clone_name base i) snapshot_name machine_type t)
      as [evs1 [Hevs1 Hq1]].
    destruct (Part2.create_instance_from_snapshot P fuel project zone
                (Part2.clone_name base i) snapshot_name machine_type t)
      as [[sec | e | ] t1]; try discriminate.
    cbn [snd] in Hevs1. subst t1.
    destruct (IH _ _ _ _ Hrun) as [records [evs [Ht [Hn [Ht' Hl]]]]].
    exists ((Part2.clone_name base i, sec) :: records),
           (EvApi (InstancesGet project zone (Part2.clone_name base i))
              (api P t (InstancesGet project zone (Part2.clone_name base i)))
            :: evs1 ++ evs).
    repeat split.
    + now rewrite Ht, <- app_assoc.
    + cbn. now rewrite Hn.
    + now rewrite Ht', <- app_assoc.
    + change (?x :: ?l ++ ?l') with ([x] ++ l ++ l').
      rewrite !lookups_of_app, (lookups_of_quiet evs1 Hq1), Hl. reflexivity.
Qed.


(** ** What the request functions of part1 and part2 add to the trace *)

Lemma emits_wait_external_ip (ok : event -> Prop) (P : provider) project zone instance :
  (forall r, ok (EvApi (InstancesGet project zone instance) r)) ->
  ok (EvSleep 2%float) ->
  forall n, emits ok (Part1.wait_external_ip P n project zone instance).
Proof.
  intros Hc Hs n. induction n as [| n IH]; [apply emits_ret |].
  cbn [Part1.wait_external_ip]. unfold Part1.instance_get.
  apply emits_bind; [emits_steps | intros inst].
  destruct (truthy (if truthy inst then Part1.get_external_ip inst else JNull)).
  - apply emits_ret.
  - apply emits_bind; [now apply emits_time_sleep | intros _; exact IH].
Qed.

Lemma emits_create_instance_from_snapshot (ok : event -> Prop) (P : provider) fuel
    project zone name snapshot_name machine_type :
  (forall r, ok (EvApi (InstancesGet project zone name) r)) ->
  (forall r, ok (EvApi (InstancesInsert project zone
                          (Part2.clone_config project zone name snapshot_name
                             machine_type)) r)) ->
  (forall op_name r, ok (EvApi (ZoneOperationsGet project zone op_name) r)) ->
  (forall sec, ok (EvSleep sec)) ->
  (forall now, ok (EvClock now)) ->
  emits ok (Part2.create_instance_from_snapshot P fuel project zone name snapshot_name
              machine_type).
Proof.
  intros. unfold Part2.create_instance_from_snapshot, Part2.instance_exists.
  emits_steps.
Qed.

Lemma emits_clone_loop (ok : event -> Prop) (P : provider) fuel project zone base
    snapshot_name machine_type :
  (forall name r, ok (EvApi (InstancesGet project zone name) r)) ->
  (forall name r, ok (EvApi (InstancesInsert project zone
                               (Part2.clone_config project zone name snapshot_name
                                  machine_type)) r)) ->
  (forall op_name r, ok (EvApi (ZoneOperationsGet project zone op_name) r)) ->
  (forall sec, ok (EvSleep sec)) ->
  (forall now, ok (EvClock now)) ->
  forall indices times,
    emits ok (Part2.clone_loop P fuel project zone base snapshot_name machine_type
                indices times).
Proof.
  intros H1 H2 H3 H4 H5 indices.
  induction indices as [| i rest IH]; intros times; [apply emits_ret |].
  cbn [Part2.clone_loop].
  apply emits_bind; [now apply emits_create_instance_from_snapshot | intros sec].
  apply IH.
Qed.

Lemma emits_create_snapshot (ok : event -> Prop) (P : provider) fuel project zone base :
  (forall r, ok (EvApi (InstancesGet project zone base) r)) ->
  (forall name r, ok (EvApi (SnapshotsGet project name) r)) ->
  (forall disk body r, ok (EvApi (DisksCreateSnapshot project zone disk body) r)) ->
  (forall op_name r, ok (EvApi (ZoneOperationsGet project zone op_name) r)) ->
  (forall sec, ok (EvSleep sec)) ->
  emits ok (Part2.create_snapshot_from_instance_boot_disk P fuel project zone base).
Proof.
  intros. unfold Part2.create_snapshot_from_instance_boot_disk, Part2.instance_get,
    Part2.snapshot_get.
  emits_steps.
Qed.


(** ** ensure *)

Lemma create_snapshot_prelude (P : provider) fuel project zone base (t : trace)
    (inst : json) (disk : string) :
  api P t (InstancesGet project zone base) = Reply inst ->
  boot_disk_name inst = Val disk ->
  Part2.create_snapshot_from_instance_boot_disk P fuel project zone base t =
  (existing <- Part2.snapshot_get P project (Part2.snapshot_name_of base) ;;
   if truthy existing then ret (Part2.snapshot_name_of base)
   else
     op <- execute P (DisksCreateSnapshot project zone disk
                        (JDict [("name", JStr (Part2.snapshot_name_of base))])) ;;
     op_name <- lift (getitem_str op "name") ;;
     Part2.wait_for_zone_op P fuel project zone op_name 1.5%float ;;;
     ret (Part2.snapshot_name_of base))
    (t ++ [EvApi (InstancesGet project zone base) (Reply inst)]).
Proof.
  intros Hget Hdisk.
  unfold Part2.create_snapshot_from_instance_boot_disk, Part2.instance_get.
  rewrite (bind_step _ _ _ _ _ (execute_reply P _ t inst Hget)).
  unfold boot_disk_name in Hdisk.
  destruct (get inst "disks" (JList [])) as [disks | e]; [| discriminate].
  cbn [res_bind] in Hdisk. cbn [lift]. rewrite bind_ret_l.
  destruct (iter disks) as [items | e]; [| discriminate].
  cbn [res_bind] in Hdisk. cbn [lift]. rewrite bind_ret_l.
  destruct (Part2.find_boot_disk items) as [boot_disk | e]; [| discriminate].
  cbn [res_bind] in Hdisk. cbn [lift]. rewrite bind_ret_l.
  destruct (negb (truthy boot_disk)); [discriminate |].
  destruct (getitem_str boot_disk "source") as [disk_source | e]; [| discriminate].
  cbn [res_bind] in Hdisk. cbn [lift]. rewrite bind_ret_l.
  rewrite Hdisk. cbn [lift]. now rewrite bind_ret_l.
Qed.

Lemma filter_repeat_false {A} (p : A -> bool) (x : A) (n : nat) :
  p x = false -> filter p (repeat x n) = [].
Proof. intros H. induction n as [| n IH]; cbn; [reflexivity | now rewrite H]. Qed.

(** The resource is found: one lookup, nothing else. *)
Lemma ensure_existing (P : provider) (fuel : nat) (r : resource) (t h : trace)
    (disk : string) (d : json) :
  reaches_lookup P r t h disk ->
  api P h (lookup_call r) = Reply d ->
  found r d = true ->
  ensure P fuel r t = (Ret tt, h ++ [EvApi (lookup_call r) (Reply d)]).
Proof.
  intros Hreach Hlookup Hfound.
  destruct r as [project name | project zone name snapshot_name machine_type
                | project zone base]; cbn [reaches_lookup] in Hreach.
  - subst h. cbn [ensure lookup_call] in *.
    unfold Part1.ensure_firewall_allow_5000, bind.
    now rewrite firewall_exists_run, Hlookup.
  - subst h. cbn [ensure lookup_call] in *.
    unfold Part2.create_instance_from_snapshot, bind.
    now rewrite instance_exists_run, Hlookup.
  - destruct Hreach as [inst [Hget [Hdisk ->]]]. cbn [ensure lookup_call found] in *.
    unfold bind at 1.
    rewrite (create_snapshot_prelude P fuel project zone base t inst disk Hget Hdisk).
    unfold bind. now rewrite snapshot_get_run, Hlookup, Hfound.
Qed.

(** The resource is absent and its operation completes: one lookup, the
    insert, the status fetches. *)
Lemma ensure_creates (P : provider) (fuel : nat) (r : resource) (t h : trace)
    (disk : string) (op op_name : json) (k : nat) :
  let lookup := lookup_call r in
  let create := create_call r disk in
  let status := status_call r op_name in
  let h1 := timed P r (h ++ [EvApi lookup (Fault (HttpError 404))]) in
  let h2 := h1 ++ [EvApi create (Reply op)] in
  reaches_lookup P r t h disk ->
  api P h lookup = Fault (HttpError 404) ->
  api P h1 create = Reply op ->
  getitem_str op "name" = Val op_name ->
  pending_for P status 1.5%float h2 k ->
  op_done_ok (poll_answer P status 1.5%float h2 k) = true ->
  (k < fuel)%nat ->
  ensure P fuel r t = (Ret tt, timed P r (poll_end P status 1.5%float h2 k)).
Proof.
  intros lookup create status h1 h2 Hreach Hlookup Hcreate Hname Hpend Hdone Hfuel.
  subst lookup create status h1 h2.
  destruct r as [project name | project zone name snapshot_name machine_type
                | project zone base];
    cbn [reaches_lookup ensure timed lookup_call create_call status_call] in *.
  - subst h.
    unfold Part1.ensure_firewall_allow_5000, bind at 1.
    rewrite firewall_exists_run, Hlookup.
    change (404 =? 404) with true. cbv iota.
    rewrite (bind_step _ _ _ _ _ (execute_reply P _ _ op Hcreate)).
    rewrite Hname. cbn [lift]. rewrite bind_ret_l.
    rewrite part1_wait_for_global_op_poll.
    now rewrite (poll_loop_completes P _ _ _ _ k fuel _ Hpend Hdone Hfuel).
  - subst h.
    unfold Part2.create_instance_from_snapshot, bind at 1 2.
    rewrite instance_exists_run, Hlookup.
    change (404 =? 404) with true. cbv iota.
    unfold bind at 1, time_perf_counter at 1.
    rewrite (bind_step _ _ _ _ _ (execute_reply P _ _ op Hcreate)).
    rewrite Hname. cbn [lift]. rewrite bind_ret_l.
    unfold bind at 1. rewrite part2_wait_for_zone_op_poll.
    rewrite (poll_loop_completes P _ _ _ _ k fuel _ Hpend Hdone Hfuel).
    reflexivity.
  - destruct Hreach as [inst [Hget [Hdisk ->]]].
    unfold bind at 1.
    rewrite (create_snapshot_prelude P fuel project zone base t inst disk Hget Hdisk).
    unfold bind at 1. rewrite snapshot_get_run, Hlookup.
    change (404 =? 404) with true. cbv iota. cbn [truthy].
    rewrite (bind_step _ _ _ _ _ (execute_reply P _ _ op Hcreate)).
    rewrite Hname. cbn [lift]. rewrite bind_ret_l.
    unfold bind at 1. rewrite part2_wait_for_zone_op_poll.
    rewrite (poll_loop_completes P _ _ _ _ k fuel _ Hpend Hdone Hfuel).
    reflexivity.
Qed.

Lemma calls_of_timed (P : provider) (r : resource) (h : trace) :
  calls_of (timed P r h) = calls_of h.
Proof.
  destruct r; cbn [timed]; try reflexivity.
  rewrite calls_of_app. cbn. now rewrite app_nil_r.
Qed.

Lemma reaches_lookup_creates (P : provider) (r : resource) (t h : trace) (disk : string) :
  reaches_lookup P r t h disk ->
  filter is_create (calls_of h) = filter is_create (calls_of t).
Proof.
  destruct r; cbn [reaches_lookup]; try now intros ->.
  intros [inst [_ [_ ->]]]. rewrite calls_of_app, filter_app. cbn.
  now rewrite app_nil_r.
Qed.

Lemma lookup_is_no_create (r : resource) : is_create (lookup_call r) = false.
Proof. now destruct r. Qed.

Lemma status_is_no_create (r : resource) (op_name : json) :
  is_create (status_call r op_name) = false.
Proof. now destruct r. Qed.

Lemma create_is_create (r : resource) (disk : string) :
  is_create (create_call r disk) = true.
Proof. now destruct r. Qed.

(** C1.  A firewall, a clone or a snapshot that the lookup does not find
    (404), whose insert is accepted and whose operation is DONE without
    error after [k] pending status fetches; after that the lookup finds it.
    Two calls of [ensure] in a row then both return; the first issues the
    insert, the second makes its lookup and returns without any request
    after it; and the two runs together add exactly one create call, that
    insert, to the trace. *)
Theorem ensure_twice_creates_once (P : provider) (fuel : nat) (r : resource)
    (t h h' : trace) (disk disk' : string) (op op_name d : json) (k : nat) :
  let lookup := lookup_call r in
  let create := create_call r disk in
  let status := status_call r op_name in
  let h1 := timed P r (h ++ [EvApi lookup (Fault (HttpError 404))]) in
  let h2 := h1 ++ [EvApi create (Reply op)] in
  let t1 := timed P r (poll_end P status 1.5%float h2 k) in
  reaches_lookup P r t h disk ->
  api P h lookup = Fault (HttpError 404) ->
  api P h1 create = Reply op ->
  getitem_str op "name" = Val op_name ->
  pending_for P status 1.5%float h2 k ->
  op_done_ok (poll_answer P status 1.5%float h2 k) = true ->
  (k < fuel)%nat ->
  reaches_lookup P r t1 h' disk' ->
  api P h' lookup = Reply d ->
  found r d = true ->
  ensure P fuel r t = (Ret tt, t1) /\
  ensure P fuel r t1 = (Ret tt, h' ++ [EvApi lookup (Reply d)]) /\
  filter is_create (calls_of (h' ++ [EvApi lookup (Reply d)])) =
    filter is_create (calls_of t) ++ [create].
Proof.
  intros lookup create status h1 h2 t1 Hreach Habsent Hcreate Hname Hpend Hdone Hfuel
    Hreach' Hthere Hfound.
  split; [| split].
  - now apply (ensure_creates P fuel r t h disk op op_name k).
  - now apply (ensure_existing P fuel r t1 h' disk' d).
  - rewrite calls_of_app, filter_app.
    rewrite (reaches_lookup_creates P r t1 h' disk' Hreach').
    unfold t1. rewrite calls_of_timed, calls_of_poll_end.
    unfold h2. rewrite calls_of_app. unfold h1. rewrite calls_of_timed, calls_of_app.
    rewrite !filter_app.
    rewrite (reaches_lookup_creates P r t h disk Hreach).
    rewrite (filter_repeat_false _ _ _ (status_is_no_create r op_name)).
    cbn [calls_of filter].
    unfold lookup, create.
    rewrite (lookup_is_no_create r), (create_is_create r disk).
    now rewrite !app_nil_r.
Qed.

(** The firewall of part1 and the snapshot of part2 against the fake
    provider: two calls, one insert. *)
Lemma ensure_twice_creates_once_witness :
  (let P := Fake.cloud Fake.healthy in
   let r := Firewall "proj" "allow-5000" in
   let run1 := ensure P 5 r [] in
   let run2 := ensure P 5 r (snd run1) in
   fst run1 = Ret tt /\ fst run2 = Ret tt /\
   filter is_create (calls_of (snd run2)) =
     [FirewallsInsert "proj" (Part1.firewall_body "proj" "allow-5000")]) /\
  (let P := Fake.cloud Fake.healthy in
   let r := Snapshot "proj" "us-west1-b" "flask-vm" in
   let run1 := ensure P 5 r [] in
   let run2 := ensure P 5 r (snd run1) in
   fst run1 = Ret tt /\ fst run2 = Ret tt /\
   filter is_create (calls_of (snd run2)) =
     [DisksCreateSnapshot "proj" "us-west1-b" "flask-vm"
        (JDict [("name", JStr "base-snapshot-flask-vm")])]).
Proof.
  split.
  - cbv zeta.
    set (P := Fake.cloud Fake.healthy). set (r := Firewall "proj" "allow-5000").
    set (op := JDict [("name", JStr "operation-1"); ("status", JStr "PENDING")]).
    set (h2 := timed P r ([] ++ [EvApi (lookup_call r) (Fault (HttpError 404))]) ++
               [EvApi (create_call r "") (Reply op)]).
    set (t1 := timed P r (poll_end P (status_call r (JStr "operation-1")) 1.5%float h2 2)).
    destruct (ensure_twice_creates_once P 5 r [] [] t1 "" "" op (JStr "operation-1")
                (JDict [("name", JStr "allow-5000")]) 2) as [H1 [H2 H3]];
      try reflexivity.
    + intros j Hj. destruct j as [| [| j]]; [reflexivity | reflexivity | lia].
    + lia.
    + fold h2 t1 in H1, H2, H3. rewrite H1. cbn [fst snd]. rewrite H2. cbn [fst snd].
      split; [reflexivity | split; [reflexivity | exact H3]].
  - cbv zeta.
    set (P := Fake.cloud Fake.healthy).
    set (r := Snapshot "proj" "us-west1-b" "flask-vm").
    set (op := JDict [("name", JStr "operation-1"); ("status", JStr "PENDING")]).
    set (inst := Fake.instance_description "flask-vm" false true).
    set (h := [EvApi (InstancesGet "proj" "us-west1-b" "flask-vm") (Reply inst)]).
    set (h2 := timed P r (h ++ [EvApi (lookup_call r) (Fault (HttpError 404))]) ++
               [EvApi (create_call r "flask-vm") (Reply op)]).
    set (t1 := timed P r (poll_end P (status_call r (JStr "operation-1")) 1.5%float h2 2)).
    destruct (ensure_twice_creates_once P 5 r [] h
                (t1 ++ [EvApi (InstancesGet "proj" "us-west1-b" "flask-vm") (Reply inst)])
                "flask-vm" "flask-vm" op (JStr "operation-1")
                (JDict [("name", JStr "base-snapshot-flask-vm")]) 2) as [H1 [H2 H3]];
      try reflexivity.
    + exists inst. split; [reflexivity | split; reflexivity].
    + intros j Hj. destruct j as [| [| j]]; [reflexivity | reflexivity | lia].
    + lia.
    + exists inst. split; [reflexivity | split; reflexivity].
    + fold h2 t1 in H1, H2, H3. rewrite H1. cbn [fst snd]. rewrite H2. cbn [fst snd].
      split; [reflexivity | split; [reflexivity | exact H3]].
Defined.

(** ** The order of snapshot and clones in part2 *)

Section Splits.
Context {A : Type}.
Variable q : A -> bool.

(** An element with [q] in [xs ++ ys], where [xs] has none, lies in [ys]. *)
Lemma split_right (xs ys pre post : list A) (x : A) :
  xs ++ ys = pre ++ x :: post ->
  Forall (fun a => q a = false) xs ->
  q x = true ->
  exists pre2, pre = xs ++ pre2 /\ ys = pre2 ++ x :: post.
Proof.
  revert pre. induction xs as [| a xs IH]; intros pre E F Hx.
  - now exists pre.
  - inversion F as [| ? ? Ha F']; subst.
    destruct pre as [| b pre]; cbn in E; injection E as -> E.
    + congruence.
    + destruct (IH pre E F' Hx) as [pre2 [-> ->]]. now exists pre2.
Qed.

(** An element with [q] in [xs ++ ys], where [ys] has none, lies in [xs]. *)
Lemma split_left (xs ys pre post : list A) (x : A) :
  xs ++ ys = pre ++ x :: post ->
  Forall (fun a => q a = false) ys ->
  q x = true ->
  exists post2, xs = pre ++ x :: post2.
Proof.
  revert pre. induction xs as [| a xs IH]; intros pre E F Hx.
  - cbn in E. subst ys. apply Forall_app in F as [_ F].
    inversion F; congruence.
  - destruct pre as [| b pre]; cbn in E; injection E as -> E.
    + now exists xs.
    + destruct (IH pre E F Hx) as [post2 ->]. now exists post2.
Qed.

(** The one element with [q] of a list is where it is. *)
Lemma split_unique (a b a' b' : list A) (x x' : A) :
  a ++ x :: b = a' ++ x' :: b' ->
  Forall (fun y => q y = false) a ->
  Forall (fun y => q y = false) b ->
  q x' = true ->
  a = a' /\ x = x' /\ b = b'.
Proof.
  revert a'. induction a as [| y a IH]; intros a' E Fa Fb Hx'.
  - destruct a' as [| y' a']; cbn in E; injection E as -> E.
    + now subst.
    + subst b. apply Forall_app in Fb as [_ Fb]. inversion Fb; congruence.
  - inversion Fa as [| ? ? Hy Fa']; subst.
    destruct a' as [| y' a']; cbn in E; injection E as -> E.
    + congruence.
    + destruct (IH a' E Fa' Fb Hx') as [-> [-> ->]]. auto.
Qed.
End Splits.

(** A status loop that returns has just seen DONE without error; before
    that it made status fetches and slept. *)
Lemma poll_loop_returns (P : provider) {A} c sec wrap (result : json -> A) :
  forall fuel t a t',
    poll_loop P c sec wrap result fuel t = (Ret a, t') ->
    exists mid answer,
      t' = t ++ mid ++ [EvApi c answer] /\
      op_done_ok answer = true /\
      Forall (fun ev => ev = EvSleep sec \/ exists r, ev = EvApi c r) mid.
Proof.
  induction fuel as [| fuel IH]; intros t a t' Hrun; [discriminate |].
  destruct (op_pending (api P t c)) eqn:Hp.
  - rewrite poll_loop_round in Hrun by exact Hp.
    destruct (IH _ _ _ Hrun) as [mid [answer [-> [Hd Hmid]]]].
    exists ([EvApi c (api P t c); EvSleep sec] ++ mid), answer.
    split; [now rewrite <- !app_assoc |]. split; [exact Hd |].
    apply Forall_app. split; [| exact Hmid].
    constructor; [right; now eexists |]. constructor; [now left | constructor].
  - cbn [poll_loop] in Hrun. unfold bind at 1, execute in Hrun.
    destruct (api P t c) as [op | e] eqn:Hapi; [| discriminate].
    destruct op as [| b | z | f | s | l | kv]; try discriminate.
    cbn in Hp. apply negb_false_iff in Hp.
    cbn [get lift] in Hrun. rewrite bind_ret_l in Hrun.
    cbn [field] in Hp. rewrite Hp in Hrun.
    cbn [contains_str lift] in Hrun. rewrite bind_ret_l in Hrun.
    destruct (lookup "error" kv) eqn:He.
    + cbn [getitem_str] in Hrun. rewrite He in Hrun. discriminate.
    + injection Hrun as <- <-.
      exists [], (Reply (JDict kv)). split; [reflexivity |].
      split; [| constructor]. cbn. cbn [field] in Hp. now rewrite Hp, He.
Qed.

Lemma create_snapshot_run (P : provider) fuel project zone base (t : trace) :
  let c := InstancesGet project zone base in
  Part2.create_snapshot_from_instance_boot_disk P fuel project zone base t =
  match api P t c with
  | Reply inst =>
      match boot_disk_name inst with
      | Val disk => snapshot_tail P fuel project zone base disk (t ++ [EvApi c (Reply inst)])
      | Exn e => (Raise e, t ++ [EvApi c (Reply inst)])
      end
  | Fault e => (Raise e, t ++ [EvApi c (Fault e)])
  end.
Proof.
  intros c. destruct (api P t c) as [inst | e] eqn:Hget.
  - destruct (boot_disk_name inst) as [disk | e] eqn:Hdisk.
    + now apply create_snapshot_prelude.
    + unfold Part2.create_snapshot_from_instance_boot_disk, Part2.instance_get.
      rewrite (bind_step _ _ _ _ _ (execute_reply P _ t inst Hget)).
      unfold boot_disk_name in Hdisk.
      destruct (get inst "disks" (JList [])) as [disks | e0];
        [| now injection Hdisk as ->].
      cbn [res_bind] in Hdisk. cbn [lift]. rewrite bind_ret_l.
      destruct (iter disks) as [items | e0]; [| now injection Hdisk as ->].
      cbn [res_bind] in Hdisk. cbn [lift]. rewrite bind_ret_l.
      destruct (Part2.find_boot_disk items) as [boot_disk | e0];
        [| now injection Hdisk as ->].
      cbn [res_bind] in Hdisk. cbn [lift]. rewrite bind_ret_l.
      destruct (negb (truthy boot_disk)); [now injection Hdisk as <- |].
      destruct (getitem_str boot_disk "source") as [disk_source | e0];
        [| now injection Hdisk as ->].
      cbn [res_bind] in Hdisk. cbn [lift]. rewrite bind_ret_l.
      rewrite Hdisk. reflexivity.
  - now apply base_lookup_failure_propagates.
Qed.

Lemma poll_events_no_create_snapshot (c : call) (sec : float) (mid : trace) :
  is_create c = false ->
  Forall (fun ev => ev = EvSleep sec \/ exists r, ev = EvApi c r) mid ->
  Forall no_create_snapshot mid.
Proof.
  intros Hc H. eapply Forall_impl; [| exact H].
  intros ev [-> | [r ->]]; [reflexivity |].
  unfold no_create_snapshot. destruct c; try reflexivity; discriminate.
Qed.

(** The create path of the snapshot, from the insert on. *)
Lemma snapshot_create_settled (P : provider) fuel project zone base disk (h : trace) :
  exists o evs,
    (op <- execute P (DisksCreateSnapshot project zone disk
                        (JDict [("name", JStr (Part2.snapshot_name_of base))])) ;;
     op_name <- lift (getitem_str op "name") ;;
     Part2.wait_for_zone_op P fuel project zone op_name 1.5%float ;;;
     ret (Part2.snapshot_name_of base)) h = (o, h ++ evs) /\
    Forall no_instance_insert evs /\
    (forall name, o = Ret name ->
     exists disk' body op op_name mid answer,
       evs = EvApi (DisksCreateSnapshot project zone disk' body) (Reply op) ::
             mid ++ [EvApi (ZoneOperationsGet project zone op_name) answer] /\
       Forall no_create_snapshot mid /\
       getitem_str op "name" = Val op_name /\
       op_done_ok answer = true).
Proof.
  set (create := DisksCreateSnapshot project zone disk
                   (JDict [("name", JStr (Part2.snapshot_name_of base))])).
  unfold bind at 1, execute.
  destruct (api P h create) as [op | e].
  2:{ exists (Raise e), [EvApi create (Fault e)]. split; [reflexivity |].
      split; [repeat constructor | discriminate]. }
  destruct (getitem_str op "name") as [op_name | e] eqn:Hname.
  2:{ exists (Raise e), [EvApi create (Reply op)]. split; [reflexivity |].
      split; [repeat constructor | discriminate]. }
  cbn [lift]. rewrite bind_ret_l. unfold bind.
  rewrite part2_wait_for_zone_op_poll.
  destruct (emits_poll_loop no_instance_insert P
              (ZoneOperationsGet project zone op_name) 1.5%float (fun e => e)
              (fun op => op) (fun _ => eq_refl) eq_refl fuel
              (h ++ [EvApi create (Reply op)])) as [evs [Hevs Hquiet]].
  destruct (poll_loop P (ZoneOperationsGet project zone op_name) 1.5%float
              (fun e => e) (fun op => op) fuel (h ++ [EvApi create (Reply op)]))
    as [[a | e | ] t'] eqn:Hrun; cbn [snd] in Hevs; subst t'.
  - exists (Ret (Part2.snapshot_name_of base)), (EvApi create (Reply op) :: evs).
    split; [now rewrite <- app_assoc |].
    split; [constructor; [reflexivity | exact Hquiet] |].
    intros name _.
    destruct (poll_loop_returns P _ _ _ _ _ _ _ _ Hrun)
      as [mid [answer [Ht' [Hdone Hmid]]]].
    apply app_inv_head in Ht'. subst evs.
    exists disk, (JDict [("name", JStr (Part2.snapshot_name_of base))]),
           op, op_name, mid, answer.
    split; [reflexivity |]. split; [| now split].
    now apply (poll_events_no_create_snapshot
                 (ZoneOperationsGet project zone op_name) 1.5%float).
  - exists (Raise e), (EvApi create (Reply op) :: evs).
    split; [now rewrite <- app_assoc |].
    split; [constructor; [reflexivity | exact Hquiet] | discriminate].
  - exists OutOfFuel, (EvApi create (Reply op) :: evs).
    split; [now rewrite <- app_assoc |].
    split; [constructor; [reflexivity | exact Hquiet] | discriminate].
Qed.

Lemma snapshot_tail_settled (P : provider) fuel project zone base disk (h : trace) :
  exists o evs,
    snapshot_tail P fuel project zone base disk h = (o, h ++ evs) /\
    Forall no_instance_insert evs /\
    (forall name, o = Ret name -> snapshot_settled project zone evs).
Proof.
  unfold snapshot_tail. unfold bind at 1. rewrite snapshot_get_run.
  set (lookup := SnapshotsGet project (Part2.snapshot_name_of base)).
  assert (Hcreate :
    forall r,
    exists o evs,
      (op <- execute P (DisksCreateSnapshot project zone disk
                          (JDict [("name", JStr (Part2.snapshot_name_of base))])) ;;
       op_name <- lift (getitem_str op "name") ;;
       Part2.wait_for_zone_op P fuel project zone op_name 1.5%float ;;;
       ret (Part2.snapshot_name_of base)) (h ++ [EvApi lookup r]) = (o, h ++ evs) /\
      Forall no_instance_insert evs /\
      (forall name, o = Ret name -> snapshot_settled project zone evs)).
  { intros r.
    destruct (snapshot_create_settled P fuel project zone base disk
                (h ++ [EvApi lookup r])) as [o [evs [Hevs [Hquiet Hret]]]].
    exists o, (EvApi lookup r :: evs).
    split; [rewrite Hevs; now rewrite <- app_assoc |].
    split; [constructor; [reflexivity | exact Hquiet] |].
    intros name Hname.
    destruct (Hret name Hname)
      as [disk' [body [op [op_name [mid [answer [-> [Hmid [Hn Hd]]]]]]]]].
    right. exists [EvApi lookup r], disk', body, op, op_name, mid, answer.
    split; [reflexivity |]. split; [repeat constructor | now split]. }
  destruct (api P h lookup) as [d | e] eqn:Hlookup.
  - destruct (truthy d) eqn:Hd; [| apply Hcreate].
    exists (Ret (Part2.snapshot_name_of base)), [EvApi lookup (Reply d)].
    split; [reflexivity |].
    split; [repeat constructor |]. intros _ _. left. repeat constructor.
  - destruct e as [status | | | | | |];
      try (eexists (Raise _), [EvApi lookup (Fault _)]; split; [reflexivity |];
           split; [repeat constructor | discriminate]).
    destruct (status =? 404).
    + apply Hcreate.
    + exists (Raise (HttpError status)), [EvApi lookup (Fault (HttpError status))].
      split; [reflexivity |].
      split; [repeat constructor | discriminate].
Qed.

(** The snapshot phase of [main]: it inserts no instance, and when it
    returns the snapshot is settled. *)
Lemma create_snapshot_settled (P : provider) fuel project zone base (t : trace) :
  exists o evs,
    Part2.create_snapshot_from_instance_boot_disk P fuel project zone base t =
      (o, t ++ evs) /\
    Forall no_instance_insert evs /\
    (forall name, o = Ret name -> snapshot_settled project zone evs).
Proof.
  rewrite create_snapshot_run.
  set (c := InstancesGet project zone base).
  destruct (api P t c) as [inst | e].
  2:{ exists (Raise e), [EvApi c (Fault e)]. split; [reflexivity |].
      split; [repeat constructor | discriminate]. }
  destruct (boot_disk_name inst) as [disk | e].
  2:{ exists (Raise e), [EvApi c (Reply inst)]. split; [reflexivity |].
      split; [repeat constructor | discriminate]. }
  destruct (snapshot_tail_settled P fuel project zone base disk
              (t ++ [EvApi c (Reply inst)])) as [o [evs [Hevs [Hquiet Hret]]]].
  exists o, (EvApi c (Reply inst) :: evs).
  split; [rewrite Hevs; now rewrite <- app_assoc |].
  split; [constructor; [reflexivity | exact Hquiet] |].
  intros name Hname.
  destruct (Hret name Hname) as [Hnone | Hsome].
  - left. constructor; [reflexivity | exact Hnone].
  - destruct Hsome
      as [a [disk' [body [op [op_name [mid [answer [-> [Ha [Hmid [Hn Hd]]]]]]]]]]].
    right. exists (EvApi c (Reply inst) :: a), disk', body, op, op_name, mid, answer.
    split; [reflexivity |]. split; [constructor; [reflexivity | exact Ha] | now split].
Qed.

Lemma emits_clone_phase (P : provider) fuel project zone base snapshot_name
    machine_type count :
  emits no_create_snapshot
    (times <- Part2.clone_loop P fuel project zone base snapshot_name machine_type
                (range 1 (count + 1)) [] ;;
     Part2.write_timing_md "TIMING.md" times ;;;
     ret times).
Proof.
  apply emits_bind;
    [apply emits_clone_loop; intros; reflexivity | intros times].
  apply emits_bind; [| intros _; apply emits_ret].
  intros t. exists [EvWriteTiming "TIMING.md" times].
  split; [reflexivity | repeat constructor].
Qed.

(** C8.  In every run of [main] of part2.py, whatever the provider answers
    and however the run ends: an instance insert is only ever issued after
    the snapshot creation of the run, if there is one, was accepted and a
    status fetch for its operation was answered DONE without error.  No
    clone is requested while the snapshot operation is pending or running,
    or after it failed. *)
Theorem snapshot_awaited_before_first_clone (P : provider) (fuel : nat)
    (project zone base_instance machine_type : string) (count : Z) (t : trace) :
  exists evs,
    snd (Part2.main P fuel project zone base_instance machine_type count t) = t ++ evs /\
    snapshot_awaited_before_clones evs.
Proof.
  unfold Part2.main, bind at 1.
  destruct (create_snapshot_settled P fuel project zone base_instance t)
    as [o [evs1 [Hrun [Hquiet Hsettled]]]].
  rewrite Hrun. destruct o as [snapshot_name | e | ].
  - destruct (emits_clone_phase P fuel project zone base_instance snapshot_name
                machine_type count (t ++ evs1)) as [evs2 [Hevs2 Hquiet2]].
    exists (evs1 ++ evs2). split; [now rewrite Hevs2, app_assoc |].
    intros pre p z body r post E1 pre' p' z' disk body' r' post' E2.
    destruct (split_right is_instance_insert _ _ _ _ _ E1 Hquiet eq_refl)
      as [pre2 [-> _]].
    destruct (split_left is_create_snapshot _ _ _ _ _ E2 Hquiet2 eq_refl)
      as [post2 E3].
    destruct (Hsettled snapshot_name eq_refl) as [Hnone | Hsome].
    + rewrite E3 in Hnone. apply Forall_app in Hnone as [_ Hnone].
      inversion Hnone as [| ? ? Hev _]. discriminate Hev.
    + destruct Hsome
        as [a [disk0 [body0 [op [op_name [mid [answer [E4 [Ha [Hmid [Hn Hd]]]]]]]]]]].
      rewrite E4 in E3.
      assert (Htail : Forall (fun ev => is_create_snapshot ev = false)
                        (mid ++ [EvApi (ZoneOperationsGet project zone op_name) answer])).
      { apply Forall_app. split; [exact Hmid | repeat constructor]. }
      destruct (split_unique is_create_snapshot _ _ _ _ _ _ E3 Ha Htail eq_refl)
        as [-> [Hev _]].
      injection Hev as <- <- <- <- <-.
      exists op, op_name, mid, answer, pre2.
      split; [reflexivity |]. split; [exact Hn |]. split; [exact Hd |].
      rewrite E4, <- app_assoc. cbn [app]. now rewrite <- app_assoc.
  - exists evs1. split; [reflexivity |].
    intros pre p z body r post E1. exfalso.
    rewrite E1 in Hquiet. apply Forall_app in Hquiet as [_ Hquiet].
    inversion Hquiet as [| ? ? Hev _]. discriminate Hev.
  - exists evs1. split; [reflexivity |].
    intros pre p z body r post E1. exfalso.
    rewrite E1 in Hquiet. apply Forall_app in Hquiet as [_ Hquiet].
    inversion Hquiet as [| ? ? Hev _]. discriminate Hev.
Qed.

(** A trace with a clone inserted while the snapshot operation is RUNNING
    is not of that kind. *)
Lemma clone_during_snapshot_is_excluded :
  ~ snapshot_awaited_before_clones
      [EvApi (DisksCreateSnapshot "p" "z" "d" (JDict [("name", JStr "s")]))
         (Reply (JDict [("name", JStr "op")]));
       EvApi (ZoneOperationsGet "p" "z" (JStr "op"))
         (Reply (JDict [("status", JStr "RUNNING")]));
       EvApi (InstancesInsert "p" "z" JNull) (Reply JNull)].
Proof.
  intros H.
  destruct (H [EvApi (DisksCreateSnapshot "p" "z" "d" (JDict [("name", JStr "s")]))
                 (Reply (JDict [("name", JStr "op")]));
               EvApi (ZoneOperationsGet "p" "z" (JStr "op"))
                 (Reply (JDict [("status", JStr "RUNNING")]))]
              "p" "z" JNull (Reply JNull) [] eq_refl
              [] "p" "z" "d" (JDict [("name", JStr "s")])
              (Reply (JDict [("name", JStr "op")]))
              [EvApi (ZoneOperationsGet "p" "z" (JStr "op"))
                 (Reply (JDict [("status", JStr "RUNNING")]));
               EvApi (InstancesInsert "p" "z" JNull) (Reply JNull)] eq_refl)
    as [op [op_name [mid [answer [rest [_ [_ [Hd E]]]]]]]].
  cbn [app] in E. injection E as E.
  destruct mid as [| ev mid]; cbn [app] in E.
  - injection E as _ <- _. discriminate Hd.
  - injection E as _ E. destruct mid; discriminate E.
Qed.

(** * Further properties of the scripts *)

(** ** The lookups and the ensure functions *)

(** X1.  The four guarded lookups of part1 and part2 make one request each; a
    reply means "there" ([True], or the description), 404 means "absent"
    ([False], or [None]), and every other exception, an [HttpError] with
    another status included, is raised again unchanged. *)
Theorem lookups_recover_404_only (P : provider) (project zone name : string)
    (t : trace) :
  let outcome_of {A} (c : call) (there : json -> A) (absent : A) :=
    (match api P t c with
     | Reply d => Ret (there d)
     | Fault (HttpError status) =>
         if status =? 404 then Ret absent else Raise (HttpError status)
     | Fault e => Raise e
     end, t ++ [EvApi c (api P t c)]) in
  Part1.firewall_exists P project name t =
    outcome_of (FirewallsGet project name) (fun _ => true) false /\
  Part1.instance_get P project zone name t =
    outcome_of (InstancesGet project zone name) (fun d => d) JNull /\
  Part2.snapshot_get P project name t =
    outcome_of (SnapshotsGet project name) (fun d => d) JNull /\
  Part2.instance_exists P project zone name t =
    outcome_of (InstancesGet project zone name) (fun _ => true) false.
Proof.
  cbv zeta. repeat split.
  - apply firewall_exists_run.
  - apply part1_instance_get_run.
  - apply snapshot_get_run.
  - apply instance_exists_run.
Qed.

(** X2.  When the lookup of [ensure] fails with anything but 404, for a
    firewall, a clone or a snapshot, that exception leaves [ensure]
    unchanged and the lookup is the last request: nothing is inserted. *)
Theorem ensure_propagates_lookup_failure (P : provider) (fuel : nat) (r : resource)
    (t h : trace) (disk : string) (e : exn) :
  reaches_lookup P r t h disk ->
  api P h (lookup_call r) = Fault e ->
  not_404 e = true ->
  ensure P fuel r t = (Raise e, h ++ [EvApi (lookup_call r) (Fault e)]).
Proof.
  intros Hreach Hlookup He.
  assert (Hout :
    forall A (absent : A),
      match e with
      | HttpError status => if status =? 404 then Ret absent else Raise (HttpError status)
      | _ => Raise e
      end = Raise e).
  { intros A absent. destruct e as [status | | | | | |]; try reflexivity.
    cbn in He. apply negb_true_iff in He. now rewrite He. }
  destruct r as [project name | project zone name snapshot_name machine_type
                | project zone base];
    cbn [reaches_lookup ensure lookup_call] in *.
  - subst h. unfold Part1.ensure_firewall_allow_5000, bind.
    now rewrite firewall_exists_run, Hlookup, Hout.
  - subst h. unfold Part2.create_instance_from_snapshot, bind.
    now rewrite instance_exists_run, Hlookup, Hout.
  - destruct Hreach as [inst [Hget [Hdisk ->]]].
    unfold bind at 1.
    rewrite (create_snapshot_prelude P fuel project zone base t inst disk Hget Hdisk).
    unfold bind. now rewrite snapshot_get_run, Hlookup, Hout.
Qed.

(** A firewall lookup refused with 403 stops part1's ensure at once. *)
Lemma ensure_propagates_lookup_failure_witness :
  ensure (Fake.cloud denied) 5 (Firewall "proj" "allow-5000") [] =
  (Raise (HttpError 403),
   [EvApi (FirewallsGet "proj" "allow-5000") (Fault (HttpError 403))]).
Proof.
  exact (ensure_propagates_lookup_failure (Fake.cloud denied) 5
           (Firewall "proj" "allow-5000") [] [] "" (HttpError 403)
           eq_refl eq_refl eq_refl).
Defined.

(** X3.  When the lookup finds the resource, [ensure] returns right after it:
    for a firewall and a clone the lookup is its only request, for a
    snapshot the fetch of the base instance comes before it; no create call
    is added to the trace. *)
Theorem ensure_existing_is_noop (P : provider) (fuel : nat) (r : resource)
    (t h : trace) (disk : string) (d : json) :
  reaches_lookup P r t h disk ->
  api P h (lookup_call r) = Reply d ->
  found r d = true ->
  ensure P fuel r t = (Ret tt, h ++ [EvApi (lookup_call r) (Reply d)]) /\
  filter is_create (calls_of (h ++ [EvApi (lookup_call r) (Reply d)])) =
    filter is_create (calls_of t).
Proof.
  intros Hreach Hlookup Hfound. split.
  - now apply (ensure_existing P fuel r t h disk d).
  - rewrite calls_of_app, filter_app, (reaches_lookup_creates P r t h disk Hreach).
    cbn [calls_of filter]. rewrite (lookup_is_no_create r). apply app_nil_r.
Qed.

(** The base instance of the fake inventory, asked for as a clone: it is
    there, and nothing is created. *)
Lemma ensure_existing_is_noop_witness :
  ensure (Fake.cloud Fake.healthy) 5
    (Clone "proj" "us-west1-b" "flask-vm" "base-snapshot-flask-vm" "e2-medium") [] =
  (Ret tt,
   [EvApi (InstancesGet "proj" "us-west1-b" "flask-vm")
      (Reply (Fake.instance_description "flask-vm" false true))]).
Proof.
  exact (proj1 (ensure_existing_is_noop (Fake.cloud Fake.healthy) 5
                  (Clone "proj" "us-west1-b" "flask-vm" "base-snapshot-flask-vm"
                     "e2-medium")
                  [] [] "" (Fake.instance_description "flask-vm" false true)
                  eq_refl eq_refl eq_refl)).
Defined.

(** ** The status loops beyond DONE *)

Lemma pending_for_le (P : provider) c sec t (k n : nat) :
  (k <= n)%nat -> pending_for P c sec t n -> pending_for P c sec t k.
Proof. intros Hk Hp j Hj. apply Hp. lia. Qed.

(** X4.  The status loops have no bound of their own: while the answers are not
    DONE (PENDING, RUNNING, any other status or none), a loop neither
    returns nor raises.  After [n] such answers it has made [n] fetches,
    slept [n] times, and goes on to the next fetch. *)
Theorem awaitCompletion_never_gives_up (P : provider) (py_str : json -> string)
    (w : poller) (project zone : string) (op_name : json) (poll_sec : float)
    (n fuel : nat) (t : trace) :
  let c := poller_call w project zone op_name in
  let sec := poller_sleep w poll_sec in
  pending_for P c sec t n ->
  (fuel <= n)%nat ->
  awaitCompletion P py_str w fuel project zone op_name poll_sec t =
    (OutOfFuel, poll_history P c sec t fuel) /\
  calls_of (poll_history P c sec t fuel) = calls_of t ++ repeat c fuel.
Proof.
  intros c sec Hp Hf. split; [| apply calls_of_poll_history].
  rewrite awaitCompletion_poll_loop.
  replace fuel with (fuel + 0)%nat at 1 by lia.
  rewrite poll_loop_pending; [reflexivity |].
  now apply (pending_for_le P c sec t fuel n).
Qed.

(** An operation of the fake provider is not DONE at the first two
    fetches: with fuel for two rounds the loop is still waiting. *)
Lemma awaitCompletion_never_gives_up_witness :
  fst (awaitCompletion (Fake.cloud Fake.healthy) (fun _ => "") Part2Global 2
         "proj" "us-west1-b" (JStr "operation-1") 1.5%float []) = OutOfFuel.
Proof.
  refine (f_equal fst
            (proj1 (awaitCompletion_never_gives_up (Fake.cloud Fake.healthy)
                      (fun _ => "") Part2Global "proj" "us-west1-b" (JStr "operation-1")
                      1.5%float 2 2 [] _ _))).
  - intros j Hj. destruct j as [| [| j]]; [reflexivity | reflexivity | lia].
  - lia.
Defined.

Lemma poll_loop_fault (P : provider) {A} c sec wrap (result : json -> A)
    (fuel : nat) (t : trace) (e : exn) :
  api P t c = Fault e ->
  poll_loop P c sec wrap result (S fuel) t = (Raise e, t ++ [EvApi c (Fault e)]).
Proof.
  intros H. cbn [poll_loop].
  now rewrite (bind_raise _ _ _ _ _ (execute_fault P c t e H)).
Qed.

Lemma poll_loop_not_a_dict (P : provider) {A} c sec wrap (result : json -> A)
    (fuel : nat) (t : trace) (v : json) :
  api P t c = Reply v ->
  is_dict v = false ->
  poll_loop P c sec wrap result (S fuel) t =
    (Raise AttributeError, t ++ [EvApi c (Reply v)]).
Proof.
  intros H Hv. cbn [poll_loop].
  rewrite (bind_step _ _ _ _ _ (execute_reply P c t v H)).
  destruct v; try discriminate; reflexivity.
Qed.

(** X5.  A status fetch that fails ends the wait at once: after [k] answers
    that are not DONE, an exception raised by the next fetch leaves the
    loop unchanged (no retry), and a reply that is not a JSON object makes
    [op.get] raise [AttributeError]. *)
Theorem awaitCompletion_fetch_failure (P : provider) (py_str : json -> string)
    (w : poller) (project zone : string) (op_name : json) (poll_sec : float)
    (k fuel : nat) (t : trace) :
  let c := poller_call w project zone op_name in
  let sec := poller_sleep w poll_sec in
  pending_for P c sec t k ->
  (k < fuel)%nat ->
  (forall e,
     poll_answer P c sec t k = Fault e ->
     awaitCompletion P py_str w fuel project zone op_name poll_sec t =
       (Raise e, poll_history P c sec t k ++ [EvApi c (Fault e)])) /\
  (forall v,
     poll_answer P c sec t k = Reply v ->
     is_dict v = false ->
     awaitCompletion P py_str w fuel project zone op_name poll_sec t =
       (Raise AttributeError, poll_history P c sec t k ++ [EvApi c (Reply v)])).
Proof.
  intros c sec Hp Hf.
  replace fuel with (k + S (fuel - S k))%nat by lia.
  split; intros x Hx; [| intros Hv];
    rewrite awaitCompletion_poll_loop, poll_loop_pending by assumption.
  - now apply poll_loop_fault.
  - now apply poll_loop_not_a_dict.
Qed.

(** The status of an operation that the provider does not know. *)
Lemma awaitCompletion_fetch_failure_witness :
  awaitCompletion forgetful (fun _ => "") Part1Zone 5
    "proj" "us-west1-b" (JStr "operation-1") 1.5%float [] =
  (Raise (HttpError 404),
   [EvApi (ZoneOperationsGet "proj" "us-west1-b" (JStr "operation-1"))
      (Fault (HttpError 404))]).
Proof.
  refine (proj1 (awaitCompletion_fetch_failure forgetful
                   (fun _ => "") Part1Zone "proj" "us-west1-b" (JStr "operation-1")
                   1.5%float 0 5 [] _ _) (HttpError 404) _).
  - intros j Hj. lia.
  - lia.
  - reflexivity.
Defined.

(** ** The latency that part2 records *)

(** X6.  [create_instance_from_snapshot] returns [0.0], without reading the
    clock, when the instance is there.  When it is absent (404), the insert
    is accepted and its operation is DONE without error after [k] pending
    fetches, it returns the difference of two clock readings: one taken
    right before the insert, one right after the fetch that saw DONE. *)
Theorem clone_latency (P : provider) (fuel : nat)
    (project zone name snapshot_name machine_type : string) (t : trace) :
  let lookup := InstancesGet project zone name in
  let create := InstancesInsert project zone
                  (Part2.clone_config project zone name snapshot_name machine_type) in
  (forall d,
     api P t lookup = Reply d ->
     Part2.create_instance_from_snapshot P fuel project zone name snapshot_name
       machine_type t = (Ret 0%float, t ++ [EvApi lookup (Reply d)])) /\
  (forall op op_name k,
     let h0 := t ++ [EvApi lookup (Fault (HttpError 404))] in
     let t0 := perf_counter P h0 in
     let h2 := (h0 ++ [EvClock t0]) ++ [EvApi create (Reply op)] in
     let status := ZoneOperationsGet project zone op_name in
     let h3 := poll_end P status 1.5%float h2 k in
     let t1 := perf_counter P h3 in
     api P t lookup = Fault (HttpError 404) ->
     api P (h0 ++ [EvClock t0]) create = Reply op ->
     getitem_str op "name" = Val op_name ->
     pending_for P status 1.5%float h2 k ->
     op_done_ok (poll_answer P status 1.5%float h2 k) = true ->
     (k < fuel)%nat ->
     Part2.create_instance_from_snapshot P fuel project zone name snapshot_name
       machine_type t = (Ret (t1 - t0)%float, h3 ++ [EvClock t1])).
Proof.
  intros lookup create. split.
  - intros d Hlookup. unfold Part2.create_instance_from_snapshot, bind.
    rewrite instance_exists_run. fold lookup. now rewrite Hlookup.
  - intros op op_name k h0 t0 h2 status h3 t1 Hlookup Hcreate Hname Hpend Hdone Hfuel.
    unfold Part2.create_instance_from_snapshot, bind at 1.
    rewrite instance_exists_run. fold lookup. rewrite Hlookup.
    change (404 =? 404) with true. cbv iota.
    unfold bind at 1, time_perf_counter at 1. fold h0 t0.
    rewrite (bind_step _ _ _ _ _ (execute_reply P create _ op Hcreate)).
    rewrite Hname. cbn [lift]. rewrite bind_ret_l.
    unfold bind at 1. rewrite part2_wait_for_zone_op_poll.
    rewrite (poll_loop_completes P _ _ _ _ k fuel _ Hpend Hdone Hfuel).
    reflexivity.
Qed.

(** On the fake provider, whose clock counts events, the first clone takes
    seven events from the first reading to the second. *)
Lemma clone_latency_witness :
  fst (Part2.create_instance_from_snapshot (Fake.cloud Fake.healthy) 5 "proj"
         "us-west1-b" "flask-vm-clone-1" "base-snapshot-flask-vm" "e2-medium" []) =
  Ret 7%float.
Proof.
  refine (f_equal fst
            (proj2 (clone_latency (Fake.cloud Fake.healthy) 5 "proj" "us-west1-b"
                      "flask-vm-clone-1" "base-snapshot-flask-vm" "e2-medium" [])
               (JDict [("name", JStr "operation-1"); ("status", JStr "PENDING")])
               (JStr "operation-1") 2%nat eq_refl eq_refl eq_refl _ eq_refl _)).
  - intros j Hj. destruct j as [| [| j]]; [reflexivity | reflexivity | lia].
  - lia.
Defined.

(** ** The report of part2 *)

(** X7.  [main] of part2.py hands the timings to the report writer exactly when
    the snapshot phase and every clone call returned: then the write of
    TIMING.md is the last event of the run and carries the list [main]
    built; in a run that raises (or is still waiting) nothing is written. *)
Theorem timing_written_only_on_success (P : provider) (fuel : nat)
    (project zone base_instance machine_type : string) (count : Z) (t : trace) :
  exists o evs,
    Part2.main P fuel project zone base_instance machine_type count t = (o, t ++ evs) /\
    match o with
    | Ret times =>
        exists pre, evs = pre ++ [EvWriteTiming "TIMING.md" times] /\
                    Forall no_write_timing pre
    | _ => Forall no_write_timing evs
    end.
Proof.
  unfold Part2.main, bind at 1.
  destruct (emits_create_snapshot no_write_timing P fuel project zone base_instance
              (fun _ => eq_refl) (fun _ _ => eq_refl) (fun _ _ _ => eq_refl)
              (fun _ _ => eq_refl) (fun _ => eq_refl) t) as [evs1 [H1 Hq1]].
  destruct (Part2.create_snapshot_from_instance_boot_disk P fuel project zone
              base_instance t) as [[snapshot_name | e | ] t1];
    cbn [snd] in H1; subst t1;
    [| now exists (Raise e), evs1 | now exists OutOfFuel, evs1].
  unfold bind at 1.
  destruct (emits_clone_loop no_write_timing P fuel project zone base_instance
              snapshot_name machine_type
              (fun _ _ => eq_refl) (fun _ _ => eq_refl) (fun _ _ => eq_refl)
              (fun _ => eq_refl) (fun _ => eq_refl)
              (range 1 (count + 1)) [] (t ++ evs1)) as [evs2 [H2 Hq2]].
  destruct (Part2.clone_loop P fuel project zone base_instance snapshot_name
              machine_type (range 1 (count + 1)) [] (t ++ evs1)) as [[times | e | ] t2];
    cbn [snd] in H2; subst t2.
  - exists (Ret times), ((evs1 ++ evs2) ++ [EvWriteTiming "TIMING.md" times]).
    split; [cbn; now rewrite !app_assoc |].
    exists (evs1 ++ evs2). split; [reflexivity |].
    apply Forall_app. now split.
  - exists (Raise e), (evs1 ++ evs2). split; [now rewrite app_assoc |].
    apply Forall_app. now split.
  - exists OutOfFuel, (evs1 ++ evs2). split; [now rewrite app_assoc |].
    apply Forall_app. now split.
Qed.

(** ** Whole runs of part1 and part3 *)

(** X8.  A run of part1's [main] that finds both the firewall and the instance
    goes straight to the readiness wait: its requests are the two lookups
    and then the lookups of the wait, and it issues no insert at all. *)
Theorem part1_main_rerun_creates_nothing (P : provider) (fuel : nat)
    (project zone instance firewall machine_type : string) (t : trace) (d inst : json) :
  let t1 := t ++ [EvApi (FirewallsGet project firewall) (Reply d)] in
  let t2 := t1 ++ [EvApi (InstancesGet project zone instance) (Reply inst)] in
  api P t (FirewallsGet project firewall) = Reply d ->
  api P t1 (InstancesGet project zone instance) = Reply inst ->
  is_none inst = false ->
  Part1.main P fuel project zone instance firewall machine_type t =
    Part1.wait_for_external_ip P 80 project zone instance t2 /\
  exists evs,
    snd (Part1.main P fuel project zone instance firewall machine_type t) = t ++ evs /\
    Forall no_create evs.
Proof.
  intros t1 t2 Hfw Hinst Hnone.
  assert (Hmain : Part1.main P fuel project zone instance firewall machine_type t =
                  Part1.wait_for_external_ip P 80 project zone instance t2).
  { unfold Part1.main, bind at 1.
    unfold Part1.ensure_firewall_allow_5000, bind at 1.
    rewrite firewall_exists_run, Hfw. cbn [ret]. fold t1.
    unfold bind at 1. rewrite part1_instance_get_run, Hinst. fold t2.
    rewrite Hnone. reflexivity. }
  split; [exact Hmain |]. rewrite Hmain.
  assert (Hwait : emits no_create (Part1.wait_for_external_ip P 80 project zone instance)).
  { unfold Part1.wait_for_external_ip.
    apply emits_bind; [| intros [ip |]; emits_steps].
    apply emits_wait_external_ip; [intros; reflexivity | exact I]. }
  destruct (Hwait t2) as [evs [Hevs Hquiet]].
  exists ([EvApi (FirewallsGet project firewall) (Reply d);
           EvApi (InstancesGet project zone instance) (Reply inst)] ++ evs).
  split.
  - rewrite Hevs. unfold t2, t1. now rewrite <- !app_assoc.
  - apply Forall_app. split; [| exact Hquiet]. repeat constructor.
Qed.

(** The firewall was inserted by an earlier run and the base instance is
    there: the run is the readiness wait after two lookups. *)
Lemma part1_main_rerun_creates_nothing_witness :
  Part1.main (Fake.cloud Fake.healthy) 5 "proj" "us-west1-b" "flask-vm" "allow-5000"
    "e2-medium" firewall_inserted =
  Part1.wait_for_external_ip (Fake.cloud Fake.healthy) 80 "proj" "us-west1-b" "flask-vm"
    ((firewall_inserted ++
      [EvApi (FirewallsGet "proj" "allow-5000") (Reply (JDict [("name", JStr "allow-5000")]))]) ++
     [EvApi (InstancesGet "proj" "us-west1-b" "flask-vm")
        (Reply (Fake.instance_description "flask-vm" false true))]).
Proof.
  exact (proj1 (part1_main_rerun_creates_nothing (Fake.cloud Fake.healthy) 5 "proj"
                  "us-west1-b" "flask-vm" "allow-5000" "e2-medium" firewall_inserted
                  (JDict [("name", JStr "allow-5000")])
                  (Fake.instance_description "flask-vm" false true)
                  eq_refl eq_refl eq_refl)).
Defined.

(** X9.  [main] of part3.py does not reconcile: once the image family resolves,
    its next request is the insert of [vm1-launcher], whatever instances
    exist; after that it only fetches the status of zone operations and
    sleeps.  It looks no instance up, before or after, and the project of
    the insert is the environment's, or [datacenter-lab5-moritz] when that
    is unset or empty. *)
Theorem part3_main_inserts_unconditionally (P : provider) (py_str : json -> string)
    (fuel : nat) (env_project : option string)
    (vm1_startup vm2_startup service_creds_json vm1_code : string)
    (t : trace) (image link : json) :
  let project := part3_project env_project in
  let family := ImagesGetFromFamily Part3.SOURCE_IMAGE_PROJECT
                  Part3.SOURCE_IMAGE_FAMILY in
  let insert := InstancesInsert project Part3.ZONE
                  (Part3.vm1_config project link vm1_startup vm2_startup
                     service_creds_json vm1_code) in
  let t1 := t ++ [EvApi family (Reply image)] in
  api P t family = Reply image ->
  getitem_str image "selfLink" = Val link ->
  exists rest,
    snd (Part3.main P py_str fuel env_project vm1_startup vm2_startup
           service_creds_json vm1_code t) =
      t1 ++ EvApi insert (api P t1 insert) :: rest /\
    Forall (zone_wait_event project Part3.ZONE) rest.
Proof.
  intros project family insert t1 Himage Hlink.
  unfold Part3.main. fold (part3_project env_project). fold project. cbv zeta.
  rewrite (bind_step _ _ _ _ _ (execute_reply P family t image Himage)).
  rewrite Hlink. cbn [lift]. rewrite bind_ret_l. fold t1 insert.
  unfold bind at 1, execute at 1.
  destruct (api P t1 insert) as [op | e].
  - match goal with
    | |- exists rest, snd (?m ?t0) = _ /\ _ =>
        assert (Hm : emits (zone_wait_event project Part3.ZONE) m)
    end.
    { apply emits_bind; [apply emits_lift | intros op_name].
      apply emits_part3_wait_for_zone_op; [intros; now split | reflexivity]. }
    destruct (Hm (t1 ++ [EvApi insert (Reply op)])) as [evs [Hevs Hq]].
    exists evs. rewrite Hevs. split; [now rewrite <- app_assoc | exact Hq].
  - exists []. split; [reflexivity | constructor].
Qed.

(** Without the environment variable the insert goes to the default
    project. *)
Lemma part3_main_inserts_unconditionally_witness :
  exists rest,
    snd (Part3.main (Fake.cloud Fake.healthy) (fun _ => "") 5 None "s1" "s2" "{}" "code" []) =
    [EvApi (ImagesGetFromFamily "ubuntu-os-cloud" "ubuntu-2204-lts")
       (Reply (JDict [("selfLink",
                       JStr "projects/ubuntu-os-cloud/global/images/ubuntu-2204-lts")]))] ++
    EvApi (InstancesInsert "datacenter-lab5-moritz" "us-west1-b"
             (Part3.vm1_config "datacenter-lab5-moritz"
                (JStr "projects/ubuntu-os-cloud/global/images/ubuntu-2204-lts")
                "s1" "s2" "{}" "code"))
      (Reply (JDict [("name", JStr "operation-1"); ("status", JStr "PENDING")])) :: rest /\
    Forall (zone_wait_event "datacenter-lab5-moritz" "us-west1-b") rest.
Proof.
  exact (part3_main_inserts_unconditionally (Fake.cloud Fake.healthy) (fun _ => "") 5
           None "s1" "s2" "{}" "code" []
           (JDict [("selfLink",
                    JStr "projects/ubuntu-os-cloud/global/images/ubuntu-2204-lts")])
           (JStr "projects/ubuntu-os-cloud/global/images/ubuntu-2204-lts")
           eq_refl eq_refl).
Defined.

(** ** Names and paths *)

Lemma to_int_not_nil (z : Z) : Z.to_int z <> Decimal.Pos Decimal.Nil /\
                               Z.to_int z <> Decimal.Neg Decimal.Nil.
Proof.
  destruct z as [| p | p]; cbn; split; try discriminate;
    intros [= H]; now apply DecimalPos.Unsigned.to_uint_nonnil in H.
Qed.

Lemma str_of_int_inj (i j : Z) : str_of_int i = str_of_int j -> i = j.
Proof.
  unfold str_of_int. intros H.
  apply DecimalZ.to_int_inj.
  destruct (to_int_not_nil i) as [Hi1 Hi2], (to_int_not_nil j) as [Hj1 Hj2].
  pose proof (NilZero.isi _ Hi1 Hi2) as Ei.
  pose proof (NilZero.isi _ Hj1 Hj2) as Ej.
  rewrite H in Ei. rewrite Ei in Ej. now injection Ej.
Qed.

Lemma append_cancel_l (p s1 s2 : string) :
  (p ++ s1)%string = (p ++ s2)%string -> s1 = s2.
Proof.
  induction p as [| c p IH]; cbn; [auto |]. intros [= H]. auto.
Qed.

Lemma clone_name_inj (base : string) (i j : Z) :
  Part2.clone_name base i = Part2.clone_name base j -> i = j.
Proof.
  unfold Part2.clone_name. intros H.
  apply append_cancel_l in H. apply append_cancel_l in H.
  now apply str_of_int_inj.
Qed.

(** X10.  The names that the clone loop derives are pairwise different: within
    one run no clone can find the instance of another clone of the run
    under its own name. *)
Theorem clone_names_distinct (base_instance : string) (count : Z) :
  NoDup (map (Part2.clone_name base_instance) (range 1 (count + 1))) /\
  map (Part2.clone_name base_instance) (range 1 (count + 1)) =
    clone_names base_instance (Z.to_nat count).
Proof.
  split.
  - rewrite range_from_1, map_map.
    generalize (seq_NoDup (Z.to_nat count) 1).
    generalize (seq 1 (Z.to_nat count)). intros l Hl.
    induction Hl as [| x l Hx Hl IH]; cbn; constructor; [| exact IH].
    intros Hin. apply in_map_iff in Hin as [y [Hy Hin]].
    apply clone_name_inj in Hy. apply Nat2Z.inj in Hy. now subst y.
  - rewrite range_from_1, map_map. reflexivity.
Qed.

Lemma split_on_nonempty (sep : ascii) (s : string) : split_on sep s <> [].
Proof.
  destruct s as [| c s]; cbn; [discriminate |].
  destruct (Ascii.eqb c sep); [discriminate |].
  destruct (split_on sep s); discriminate.
Qed.

Lemma split_on_no_sep (sep : ascii) (s : string) :
  has_char sep s = false -> split_on sep s = [s].
Proof.
  induction s as [| c s IH]; cbn; [reflexivity |].
  intros H. apply orb_false_elim in H as [Hc Hs].
  now rewrite Hc, (IH Hs).
Qed.

Lemma split_on_last_segment (sep : ascii) (p n : string) :
  has_char sep n = false ->
  split_on sep (p ++ String sep n)%string = split_on sep p ++ [n].
Proof.
  intros Hn. induction p as [| c p IH]; cbn.
  - now rewrite Ascii.eqb_refl, (split_on_no_sep sep n Hn).
  - destruct (Ascii.eqb c sep).
    + now rewrite IH.
    + rewrite IH. pose proof (split_on_nonempty sep p) as Hp.
      destruct (split_on sep p); [contradiction | reflexivity].
Qed.

Lemma index_last {A} (l : list A) (x : A) : index (l ++ [x]) (-1) = Some x.
Proof.
  unfold index. rewrite length_app. cbn [List.length].
  replace (Z.of_nat (List.length l + 1)) with (Z.of_nat (List.length l) + 1) by lia.
  cbn [Z.leb Z.compare andb]. 
  replace (- (Z.of_nat (List.length l) + 1) <=? -1) with true
    by (symmetry; apply Z.leb_le; lia).
  cbn [andb Z.ltb Z.compare].
  replace (Z.to_nat (Z.of_nat (List.length l) + 1 + -1)) with (List.length l) by lia.
  now rewrite nth_error_app2, Nat.sub_diag by lia.
Qed.

Lemma find_boot_disk_first (pre post : list json) (dk : list (string * json)) :
  Forall (fun d => is_dict d = true /\ marked_boot d = false) pre ->
  marked_boot (JDict dk) = true ->
  Part2.find_boot_disk (pre ++ JDict dk :: post) = Val (JDict dk).
Proof.
  intros Hpre Hdk. induction Hpre as [| d pre [Hd Hm] _ IH]; cbn.
  - unfold marked_boot in Hdk. cbn [field] in Hdk. now rewrite Hdk.
  - destruct d; try discriminate. unfold marked_boot in Hm. cbn [field] in Hm.
    cbn [get res_bind]. now rewrite Hm.
Qed.

(** X11.  The disk that part2 snapshots is the first disk of the base instance
    marked as boot disk, named by the last path segment of its [source]
    (the text after the last [/]). *)
Theorem boot_disk_is_last_path_segment (kv dk : list (string * json))
    (pre post : list json) (prefix name : string) :
  lookup "disks" kv = Some (JList (pre ++ JDict dk :: post)) ->
  Forall (fun d => is_dict d = true /\ marked_boot d = false) pre ->
  marked_boot (JDict dk) = true ->
  lookup "source" dk = Some (JStr (prefix ++ String "/" name)%string) ->
  has_char "/" name = false ->
  boot_disk_name (JDict kv) = Val name.
Proof.
  intros Hdisks Hpre Hboot Hsource Hname.
  unfold boot_disk_name. cbn [get]. rewrite Hdisks. cbn [res_bind iter].
  rewrite (find_boot_disk_first pre post dk Hpre Hboot). cbn [res_bind].
  assert (Ht : truthy (JDict dk) = true).
  { destruct dk; [discriminate | reflexivity]. }
  rewrite Ht. cbn [negb getitem_str]. rewrite Hsource. cbn [res_bind split_slash_last].
  now rewrite (split_on_last_segment "/" prefix name Hname), index_last.
Qed.

(** The boot disk of the fake base instance. *)
Lemma boot_disk_is_last_path_segment_witness :
  boot_disk_name (Fake.instance_description "flask-vm" false true) = Val "flask-vm".
Proof.
  unfold Fake.instance_description.
  refine (boot_disk_is_last_path_segment _
            [("boot", JBool true);
             ("source", JStr "https://compute/zones/us-west1-b/disks/flask-vm")]
            [] [] "https://compute/zones/us-west1-b/disks" "flask-vm" _ _ _ _ _);
    try reflexivity.
  constructor.
Defined.

(** ** The address that vm1-launch-vm2 prints *)

(** X12.  The address of VM2 as [main] of vm1-launch-vm2.py reads it from the
    description: a first network interface without [accessConfigs], or a
    first access config without [natIP], gives the text
    ["<no external ip>"]; unlike [get_external_ip] of part1, a description
    without [networkInterfaces] raises [KeyError] and an empty list of
    access configs raises [IndexError]. *)
Theorem vm2_address_edges (kv : list (string * json)) :
  (lookup "networkInterfaces" kv = None ->
   vm2_address (JDict kv) = Exn (KeyError (JStr "networkInterfaces")) /\
   Part1.get_external_ip (JDict kv) = JNull) /\
  (forall nic rest,
     lookup "networkInterfaces" kv = Some (JList (JDict nic :: rest)) ->
     (lookup "accessConfigs" nic = None ->
      vm2_address (JDict kv) = Val (JStr "<no external ip>")) /\
     (lookup "accessConfigs" nic = Some (JList []) ->
      vm2_address (JDict kv) = Exn IndexError) /\
     (forall ac others,
        lookup "accessConfigs" nic = Some (JList (JDict ac :: others)) ->
        vm2_address (JDict kv) =
          Val (match lookup "natIP" ac with
               | Some ip => ip
               | None => JStr "<no external ip>"
               end))) /\
  (forall t,
     (nics <- lift (getitem_str (JDict kv) "networkInterfaces") ;;
      nic <- lift (getitem_int nics 0) ;;
      acs <- lift (get nic "accessConfigs" (JList [JDict []])) ;;
      ac <- lift (getitem_int acs 0) ;;
      lift (get ac "natIP" (JStr "<no external ip>"))) t =
     lift (vm2_address (JDict kv)) t).
Proof.
  split; [| split].
  - intros H. split.
    + unfold vm2_address. cbn [getitem_str]. now rewrite H.
    + rewrite get_external_ip_first_nat_address. cbn [first_nat_address].
      now rewrite H.
  - intros nic rest H. unfold vm2_address. cbn [getitem_str]. rewrite H.
    cbn [res_bind getitem_int]. rewrite index_0_cons. cbn [res_bind get].
    split; [| split].
    + intros ->. reflexivity.
    + intros ->. reflexivity.
    + intros ac others ->. reflexivity.
  - intros t. unfold vm2_address.
    destruct (getitem_str (JDict kv) "networkInterfaces") as [nics | e];
      [| reflexivity].
    cbn [lift res_bind]. rewrite bind_ret_l.
    destruct (getitem_int nics 0) as [nic | e]; [| reflexivity].
    cbn [lift res_bind]. rewrite bind_ret_l.
    destruct (get nic "accessConfigs" (JList [JDict []])) as [acs | e];
      [| reflexivity].
    cbn [lift res_bind]. rewrite bind_ret_l.
    destruct (getitem_int acs 0) as [ac | e]; [| reflexivity].
    cbn [lift res_bind]. now rewrite bind_ret_l.
Qed.

(** An instance whose interface has no access config yet. *)
Lemma vm2_address_edges_witness :
  vm2_address (JDict [("networkInterfaces", JList [JDict [("network", JStr "default")]])]) =
  Val (JStr "<no external ip>").
Proof.
  exact (proj1 (proj1 (proj2 (vm2_address_edges
                                [("networkInterfaces",
                                  JList [JDict [("network", JStr "default")]])]))
                  [("network", JStr "default")] [] eq_refl) eq_refl).
Defined.

(** ** Tags and metadata of the requests *)

(** X13.  In every run of part1's [main], the firewall rule it inserts is named
    after the [--firewall] argument and targets the tag of that name, and
    the instance it inserts carries exactly that tag: the rule applies to
    the instance. *)
Theorem part1_instance_tagged_for_its_firewall (P : provider) (fuel : nat)
    (project zone instance firewall machine_type : string) :
  emits (tagged_for firewall)
    (Part1.main P fuel project zone instance firewall machine_type).
Proof.
  unfold Part1.main.
  apply emits_bind; [| intros _].
  { unfold Part1.ensure_firewall_allow_5000, Part1.firewall_exists. emits_steps. }
  apply emits_bind; [| intros inst].
  { unfold Part1.instance_get. emits_steps. }
  apply emits_bind; [| intros _].
  { destruct (is_none inst); [| apply emits_ret].
    unfold Part1.create_instance. emits_steps. }
  unfold Part1.wait_for_external_ip.
  apply emits_bind; [| intros [ip |]; emits_steps].
  apply emits_wait_external_ip; cbn; auto.
Qed.

(** X14.  The relay of part3.  The insert of VM1 carries, under the five keys
    that VM1's startup script fetches, the five payloads verbatim: its own
    startup script, VM2's startup script, the credentials, the code of
    vm1-launch-vm2.py and the project.  The insert that vm1-launch-vm2 then
    makes gives VM2 the relayed script as [startup-script], and tags VM2
    with the target tag of the firewall rule it inserts. *)
Theorem metadata_relay (P : provider) (py_str : json -> string) (fuel : nat)
    (env_project : option string)
    (vm1_startup vm2_startup service_creds_json vm1_code : string) :
  emits (relays_payloads (part3_project env_project) vm1_startup vm2_startup
           service_creds_json vm1_code)
    (Part3.main P py_str fuel env_project vm1_startup vm2_startup service_creds_json
       vm1_code) /\
  emits (launches_vm2 vm2_startup)
    (Vm1LaunchVm2.main P py_str fuel env_project vm2_startup).
Proof.
  split.
  - unfold Part3.main. fold (part3_project env_project). cbv zeta.
    emits_steps.
  - unfold Vm1LaunchVm2.main. emits_steps.
Qed.

(** ** vm1-launch-vm2.py when the firewall is there *)

(** X15.  When the lookup of the firewall rule succeeds, [main] of
    vm1-launch-vm2.py inserts no firewall: its next request is the insert
    of VM2, issued without looking VM2 up, and no further insert follows. *)
Theorem vm1_firewall_found_skips_insert (P : provider) (py_str : json -> string)
    (fuel : nat) (project vm2_startup : string) (t : trace) (image link d : json) :
  let family := ImagesGetFromFamily Vm1LaunchVm2.SOURCE_IMAGE_PROJECT
                  Vm1LaunchVm2.SOURCE_IMAGE_FAMILY in
  let lookup_fw := FirewallsGet project "allow-5001" in
  let insert_vm2 := InstancesInsert project Vm1LaunchVm2.ZONE
                      (Vm1LaunchVm2.vm2_config project link vm2_startup) in
  let t1 := t ++ [EvApi family (Reply image)] in
  let t2 := t1 ++ [EvApi lookup_fw (Reply d)] in
  (project =? "")%string = false ->
  api P t family = Reply image ->
  getitem_str image "selfLink" = Val link ->
  api P t1 lookup_fw = Reply d ->
  exists rest,
    snd (Vm1LaunchVm2.main P py_str fuel (Some project) vm2_startup t) =
      t2 ++ EvApi insert_vm2 (api P t2 insert_vm2) :: rest /\
    Forall no_create rest.
Proof.
  intros family lookup_fw insert_vm2 t1 t2 Hproject Himage Hlink Hlookup.
  unfold Vm1LaunchVm2.main. rewrite Hproject.
  rewrite (bind_step _ _ _ _ _ (execute_reply P family t image Himage)).
  rewrite Hlink. cbn [lift]. rewrite bind_ret_l. fold t1.
  erewrite bind_step.
  2:{ apply try_except_ret. unfold bind. fold lookup_fw.
      rewrite (execute_reply P lookup_fw t1 d Hlookup). reflexivity. }
  cbn [ret]. fold t2 insert_vm2.
  unfold bind at 1, execute at 1.
  destruct (api P t2 insert_vm2) as [op | e].
  - match goal with
    | |- exists rest, snd (?m ?t0) = _ /\ _ =>
        assert (Hm : emits no_create m)
    end.
    { apply emits_bind; [apply emits_lift | intros op_name].
      apply emits_bind;
        [apply emits_vm1_wait_for_zone_op; [intros; reflexivity | exact I] | intros _].
      emits_steps. }
    destruct (Hm (t2 ++ [EvApi insert_vm2 (Reply op)])) as [evs [Hevs Hq]].
    exists evs. rewrite Hevs. split; [now rewrite <- app_assoc | exact Hq].
  - exists []. split; [reflexivity | constructor].
Qed.

(** A history in which the rule for port 5001 was inserted: the run
    proceeds to VM2. *)
Lemma vm1_firewall_found_skips_insert_witness :
  exists rest,
    snd (Vm1LaunchVm2.main (Fake.cloud Fake.healthy) (fun _ => "") 5 (Some "proj")
           "#!/bin/bash" firewall_5001_inserted) =
      ((firewall_5001_inserted ++
        [EvApi (ImagesGetFromFamily "ubuntu-os-cloud" "ubuntu-2204-lts")
           (Reply (JDict [("selfLink",
                           JStr "projects/ubuntu-os-cloud/global/images/ubuntu-2204-lts")]))]) ++
       [EvApi (FirewallsGet "proj" "allow-5001") (Reply (JDict [("name", JStr "allow-5001")]))]) ++
      EvApi (InstancesInsert "proj" "us-west1-b"
               (Vm1LaunchVm2.vm2_config "proj"
                  (JStr "projects/ubuntu-os-cloud/global/images/ubuntu-2204-lts")
                  "#!/bin/bash"))
        (Reply (JDict [("name", JStr "operation-1"); ("status", JStr "PENDING")])) :: rest /\
    Forall no_create rest.
Proof.
  exact (vm1_firewall_found_skips_insert (Fake.cloud Fake.healthy) (fun _ => "") 5
           "proj" "#!/bin/bash" firewall_5001_inserted
           (JDict [("selfLink",
                    JStr "projects/ubuntu-os-cloud/global/images/ubuntu-2204-lts")])
           (JStr "projects/ubuntu-os-cloud/global/images/ubuntu-2204-lts")
           (JDict [("name", JStr "allow-5001")])
           eq_refl eq_refl eq_refl eq_refl).
Defined.

(** * The boot source of a creation request *)

Lemma returns_ret {A} (v : A) : returns_only v (ret v).
Proof. intros t a t' [= <- _]. reflexivity. Qed.

Lemma returns_raise {A} (v : A) (e : exn) : returns_only v (raise e).
Proof. intros t a t' H. discriminate H. Qed.

Lemma returns_bind {A B} (v : B) (m : M A) (k : A -> M B) :
  (forall a, returns_only v (k a)) -> returns_only v (bind m k).
Proof.
  intros Hk t b t' H. unfold bind in H.
  destruct (m t) as [[a | e | ] t1]; try discriminate.
  exact (Hk a t1 b t' H).
Qed.


(** [create_snapshot_from_instance_boot_disk] returns the derived name and
    nothing else. *)
Lemma create_snapshot_returns_name (P : provider) fuel project zone base :
  returns_only (Part2.snapshot_name_of base)
    (Part2.create_snapshot_from_instance_boot_disk P fuel project zone base).
Proof.
  unfold Part2.create_snapshot_from_instance_boot_disk.
  apply returns_bind; intros inst.
  apply returns_bind; intros disks.
  apply returns_bind; intros items.
  apply returns_bind; intros boot_disk.
  destruct (negb (truthy boot_disk)); [apply returns_raise |].
  apply returns_bind; intros disk_source.
  apply returns_bind; intros disk_name.
  apply returns_bind; intros existing.
  destruct (truthy existing); [apply returns_ret |].
  apply returns_bind; intros op.
  apply returns_bind; intros op_name.
  apply returns_bind; intros _.
  apply returns_ret.
Qed.







(** * The fleet of part2 *)

(** ** The names: the f-string of the loop against the decimal numerals *)

Lemma to_lu_nat_N (n : nat) :
  DecimalPos.Unsigned.to_lu (N.of_nat n) = DecimalNat.Unsigned.to_lu n.
Proof.
  induction n as [| n IH]; [reflexivity |].
  rewrite Nnat.Nat2N.inj_succ, DecimalPos.Unsigned.to_lu_succ,
    DecimalNat.Unsigned.to_lu_succ.
  now rewrite IH.
Qed.

Lemma to_int_of_nat (n : nat) :
  n <> 0%nat -> Z.to_int (Z.of_nat n) = Decimal.Pos (Nat.to_uint n).
Proof.
  intros Hn. rewrite DecimalNat.Unsigned.to_uint_alt, <- to_lu_nat_N.
  destruct n as [| n]; [contradiction |]. reflexivity.
Qed.

(** [str(i)] of a positive [i] is its decimal numeral. *)
Lemma str_of_int_decimal (j : nat) :
  j <> 0%nat -> str_of_int (Z.of_nat j) = decimal j.
Proof.
  intros Hj.
  assert (Hnil : Nat.to_uint j <> Decimal.Nil).
  { pose proof (to_int_of_nat j Hj) as E.
    destruct j as [| j]; [contradiction |].
    cbn [Z.of_nat Z.to_int] in E. injection E as E. rewrite <- E.
    apply DecimalPos.Unsigned.to_uint_nonnil. }
  unfold str_of_int, decimal. rewrite (to_int_of_nat j Hj).
  cbn [NilZero.string_of_int]. unfold NilZero.string_of_uint.
  destruct (Nat.to_uint j); [contradiction | reflexivity ..].
Qed.

Lemma clone_name_decimal (base : string) (j : nat) :
  j <> 0%nat ->
  Part2.clone_name base (Z.of_nat j) = String.concat "-" [base; "clone"; decimal j].
Proof.
  intros Hj. unfold Part2.clone_name. rewrite (str_of_int_decimal j Hj). reflexivity.
Qed.

Lemma fleet_names_range (base : string) (n : nat) :
  map (Part2.clone_name base) (range 1 (Z.of_nat n + 1)) = fleet_names base n.
Proof.
  rewrite range_from_1, Nat2Z.id, map_map. unfold fleet_names.
  apply map_ext_in. intros j Hj. apply in_seq in Hj.
  apply clone_name_decimal. lia.
Qed.

(** The example of the specification. *)
Lemma fleet_names_base_3 :
  fleet_names "base" 3 = ["base-clone-1"; "base-clone-2"; "base-clone-3"]%string.
Proof. reflexivity. Qed.

(** ** The loop: one invocation for each name, in order *)

Lemma clone_loop_invokes (P : provider) fuel project zone base snapshot_name
    machine_type :
  forall indices times u,
    Part2.clone_loop P fuel project zone base snapshot_name machine_type indices
      times u =
    bind (invoke_in_order
            (fun name => Part2.create_instance_from_snapshot P fuel project zone name
                           snapshot_name machine_type)
            (map (Part2.clone_name base) indices))
         (fun records => ret (times ++ records)) u.
Proof.
  induction indices as [| i rest IH]; intros times u.
  - cbn. unfold bind, ret. now rewrite app_nil_r.
  - cbn [Part2.clone_loop map invoke_in_order]. unfold bind at 1 2 3.
    destruct (Part2.create_instance_from_snapshot P fuel project zone
                (Part2.clone_name base i) snapshot_name machine_type u)
      as [[sec | e | ] u1]; try reflexivity.
    rewrite IH. unfold bind.
    destruct (invoke_in_order _ _ u1) as [[records | e | ] u2]; try reflexivity.
    unfold ret. now rewrite <- app_assoc.
Qed.

Lemma clone_loop_is_cloneFleet (P : provider) fuel project zone base snapshot_name
    machine_type (n : nat) (u : trace) :
  Part2.clone_loop P fuel project zone base snapshot_name machine_type
    (range 1 (Z.of_nat n + 1)) [] u =
  cloneFleet (fun name => Part2.create_instance_from_snapshot P fuel project zone name
                            snapshot_name machine_type) base n u.
Proof.
  rewrite clone_loop_invokes, fleet_names_range. unfold cloneFleet, bind.
  now destruct (invoke_in_order _ _ u) as [[records | e | ] u1].
Qed.

(** ** The run, from the answers of the provider *)

Lemma create_instance_from_snapshot_provisions (P : provider) fuel project zone name
    snapshot_name machine_type (h h' : trace) (sec : float) :
  provisions P fuel project zone name snapshot_name machine_type h sec h' ->
  Part2.create_instance_from_snapshot P fuel project zone name snapshot_name
    machine_type h = (Ret sec, h').
Proof.
  intros [[d [Hlookup [-> ->]]]
         | [op [op_name [k [Hlookup [Hcreate [Hname [Hpend [Hdone [Hfuel [-> ->]]]]]]]]]]].
  - unfold Part2.create_instance_from_snapshot, bind.
    rewrite instance_exists_run. now rewrite Hlookup.
  - unfold Part2.create_instance_from_snapshot, bind at 1.
    rewrite instance_exists_run. rewrite Hlookup.
    change (404 =? 404) with true. cbv iota.
    unfold bind at 1, time_perf_counter at 1.
    rewrite (bind_step _ _ _ _ _ (execute_reply P _ _ op Hcreate)).
    rewrite Hname. cbn [lift]. rewrite bind_ret_l.
    unfold bind at 1. rewrite part2_wait_for_zone_op_poll.
    rewrite (poll_loop_completes P _ _ _ _ k fuel _ Hpend Hdone Hfuel).
    reflexivity.
Qed.

Lemma invoke_in_order_provisioned (P : provider) fuel project zone snapshot_name
    machine_type (names : list string) (h h' : trace) (records : list (string * float)) :
  fleet_provisioned P fuel project zone snapshot_name machine_type names h records h' ->
  invoke_in_order
    (fun name => Part2.create_instance_from_snapshot P fuel project zone name
                   snapshot_name machine_type) names h = (Ret records, h').
Proof.
  induction 1 as [h | name names h h1 h' sec records Hone _ IH]; [reflexivity |].
  cbn [invoke_in_order].
  rewrite (bind_step _ _ _ _ _
             (create_instance_from_snapshot_provisions _ _ _ _ _ _ _ _ _ _ Hone)).
  rewrite (bind_step _ _ _ _ _ IH). reflexivity.
Qed.

Lemma fleet_provisioned_names (P : provider) fuel project zone snapshot_name
    machine_type (names : list string) (h h' : trace) (records : list (string * float)) :
  fleet_provisioned P fuel project zone snapshot_name machine_type names h records h' ->
  map fst records = names.
Proof.
  induction 1 as [h | name names h h1 h' sec records _ _ IH]; [reflexivity |].
  cbn. now rewrite IH.
Qed.

Lemma create_snapshot_returns (P : provider) fuel project zone base (t t0 : trace) :
  snapshot_ready P fuel project zone base t t0 ->
  Part2.create_snapshot_from_instance_boot_disk P fuel project zone base t =
  (Ret (Part2.snapshot_name_of base), t0).
Proof.
  intros [h [disk [Hreach Hcases]]].
  assert (Hensure : ensure P fuel (Snapshot project zone base) t = (Ret tt, t0)).
  { destruct Hcases as [[d [Hlookup [Hfound ->]]]
                       | [op [op_name [k [Hlookup [Hcreate [Hname [Hpend [Hdone
                           [Hfuel ->]]]]]]]]]].
    - now apply (ensure_existing P fuel (Snapshot project zone base) t h disk d).
    - exact (ensure_creates P fuel (Snapshot project zone base) t h disk op op_name k
               Hreach Hlookup Hcreate Hname Hpend Hdone Hfuel). }
  cbn [ensure] in Hensure. unfold bind in Hensure.
  destruct (Part2.create_snapshot_from_instance_boot_disk P fuel project zone base t)
    as [[name | e | ] t1] eqn:Hrun; try discriminate.
  injection Hensure as <-.
  now rewrite (create_snapshot_returns_name P fuel project zone base _ _ _ Hrun).
Qed.

(** C7.  For every base name [b] and count [n], the loop of [main] is
    [cloneFleet]: [n] invocations of [create_instance_from_snapshot], for
    the names [b-clone-1] to [b-clone-n] in ascending order, each
    appending one record of its name and its seconds.  And the run
    returns: when the provider's answers let the snapshot phase and the
    [n] invocations go well (each clone found, or absent and created by
    an operation that is DONE within the fuel), [main] ends with the [n]
    records handed to the report, in that order, each with the seconds
    its invocation returned (0.0 for a clone found, else the second clock
    reading less the first), after one instance lookup for each name. *)
Theorem clone_fleet_names (P : provider) (fuel : nat)
    (project zone base_instance machine_type : string) (n : nat) (t t0 t' : trace)
    (records : list (string * float)) :
  snapshot_ready P fuel project zone base_instance t t0 ->
  fleet_provisioned P fuel project zone (Part2.snapshot_name_of base_instance)
    machine_type (fleet_names base_instance n) t0 records t' ->
  (forall snapshot_name u,
     Part2.clone_loop P fuel project zone base_instance snapshot_name machine_type
       (range 1 (Z.of_nat n + 1)) [] u =
     cloneFleet (fun name => Part2.create_instance_from_snapshot P fuel project zone
                               name snapshot_name machine_type) base_instance n u) /\
  Part2.main P fuel project zone base_instance machine_type (Z.of_nat n) t =
    (Ret records, t' ++ [EvWriteTiming "TIMING.md" records]) /\
  map fst records = fleet_names base_instance n /\
  List.length records = n /\
  exists evs,
    t' = t0 ++ evs /\
    lookups_of evs = map (InstancesGet project zone) (fleet_names base_instance n).
Proof.
  intros Hsnapshot Hfleet.
  assert (Hloop :
    Part2.clone_loop P fuel project zone base_instance
      (Part2.snapshot_name_of base_instance) machine_type
      (range 1 (Z.of_nat n + 1)) [] t0 = (Ret records, t')).
  { rewrite clone_loop_is_cloneFleet. unfold cloneFleet.
    now apply invoke_in_order_provisioned. }
  pose proof (fleet_provisioned_names _ _ _ _ _ _ _ _ _ _ Hfleet) as Hnames.
  split; [| split; [| split; [| split]]].
  - intros snapshot_name u. apply clone_loop_is_cloneFleet.
  - unfold Part2.main.
    rewrite (bind_step _ _ _ _ _ (create_snapshot_returns _ _ _ _ _ _ _ Hsnapshot)).
    rewrite (bind_step _ _ _ _ _ Hloop). reflexivity.
  - exact Hnames.
  - rewrite <- (length_map fst), Hnames. unfold fleet_names.
    now rewrite length_map, length_seq.
  - destruct (clone_loop_names _ _ _ _ _ _ _ _ _ _ _ _ Hloop)
      as [records' [evs [_ [_ [Ht' Hlookups]]]]].
    exists evs. split; [exact Ht' |].
    rewrite Hlookups, <- fleet_names_range. now rewrite map_map.
Qed.

(** The answers of the healthy fake provider to a run of part2.py for
    three clones of [flask-vm]: every operation is DONE at its third
    fetch. *)
Lemma fleet_snapshot_ready :
  snapshot_ready (Fake.cloud Fake.healthy) 5 "proj" "us-west1-b" "flask-vm" []
    fleet_snapshot_trace.
Proof.
  exists [EvApi (InstancesGet "proj" "us-west1-b" "flask-vm")
            (Reply fleet_base_description)], "flask-vm".
  split.
  - exists fleet_base_description. split; [| split]; reflexivity.
  - right. exists fleet_pending_op, (JStr "operation-1"), 2%nat. cbv zeta.
    split; [reflexivity |]. split; [reflexivity |]. split; [reflexivity |].
    split; [intros j Hj; destruct j as [| [| j]]; [reflexivity | reflexivity | lia] |].
    split; [reflexivity |]. split; [lia | reflexivity].
Defined.

Lemma fleet_clone_provisions (name : string) (h h' : trace) :
  In (name, h, h')
     [("flask-vm-clone-1", fleet_snapshot_trace, fleet_clone_1_trace);
      ("flask-vm-clone-2", fleet_clone_1_trace, fleet_clone_2_trace);
      ("flask-vm-clone-3", fleet_clone_2_trace, fleet_clone_3_trace)] ->
  provisions (Fake.cloud Fake.healthy) 5 "proj" "us-west1-b" name
    "base-snapshot-flask-vm" "e2-medium" h 7%float h'.
Proof.
  intros Hin. right. exists fleet_pending_op, (JStr "operation-1"), 2%nat. cbv zeta.
  destruct Hin as [[= <- <- <-] | [[= <- <- <-] | [[= <- <- <-] | []]]];
    (split; [vm_compute; reflexivity |]; split; [vm_compute; reflexivity |];
     split; [reflexivity |];
     split; [intros j Hj; destruct j as [| [| j]];
               [vm_compute; reflexivity | vm_compute; reflexivity | lia] |];
     split; [vm_compute; reflexivity |];
     split; [lia |]; split; vm_compute; reflexivity).
Defined.

Lemma fleet_of_three_provisioned :
  fleet_provisioned (Fake.cloud Fake.healthy) 5 "proj" "us-west1-b"
    (Part2.snapshot_name_of "flask-vm") "e2-medium" (fleet_names "flask-vm" 3)
    fleet_snapshot_trace fleet_records fleet_clone_3_trace.
Proof.
  change (fleet_names "flask-vm" 3)
    with ["flask-vm-clone-1"; "flask-vm-clone-2"; "flask-vm-clone-3"]%string.
  change (Part2.snapshot_name_of "flask-vm") with "base-snapshot-flask-vm"%string.
  unfold fleet_records.
  apply fleet_next with (h1 := fleet_clone_1_trace).
  { apply fleet_clone_provisions. cbn. auto. }
  apply fleet_next with (h1 := fleet_clone_2_trace).
  { apply fleet_clone_provisions. cbn. auto. }
  apply fleet_next with (h1 := fleet_clone_3_trace).
  { apply fleet_clone_provisions. cbn. auto. }
  apply fleet_done.
Defined.

Lemma clone_fleet_names_witness :
  (forall snapshot_name u,
     Part2.clone_loop (Fake.cloud Fake.healthy) 5 "proj" "us-west1-b" "flask-vm"
       snapshot_name "e2-medium" (range 1 (Z.of_nat 3 + 1)) [] u =
     cloneFleet (fun name => Part2.create_instance_from_snapshot
                               (Fake.cloud Fake.healthy) 5 "proj" "us-west1-b"
                               name snapshot_name "e2-medium") "flask-vm" 3 u) /\
  Part2.main (Fake.cloud Fake.healthy) 5 "proj" "us-west1-b" "flask-vm" "e2-medium"
    (Z.of_nat 3) [] =
    (Ret fleet_records, fleet_clone_3_trace ++ [EvWriteTiming "TIMING.md" fleet_records]) /\
  map fst fleet_records = fleet_names "flask-vm" 3 /\
  List.length fleet_records = 3%nat /\
  exists evs,
    fleet_clone_3_trace = fleet_snapshot_trace ++ evs /\
    lookups_of evs =
    map (InstancesGet "proj" "us-west1-b") (fleet_names "flask-vm" 3).
Proof.
  exact (clone_fleet_names (Fake.cloud Fake.healthy) 5 "proj" "us-west1-b" "flask-vm"
           "e2-medium" 3 [] fleet_snapshot_trace fleet_clone_3_trace fleet_records
           fleet_snapshot_ready fleet_of_three_provisioned).
Defined.
